(** * pdc_scrdump: putwin / getwin / scr_dump / scr_restore

    A shallow embedding of [apps/graphics/pdcurs34/pdcurses/pdc_scrdump.c]
    and the properties of its window dump format.

    The C code works on heap objects through pointers and on stdio
    streams.  The embedding keeps both explicit:

    - the heap is a finite map from addresses to typed blocks;
    - a [FILE] is a value threaded through the calls that use it;
    - every function is a state transformer over a [world] that may
      fault (an invalid pointer is dereferenced, a buffer is overrun);
    - the libc calls leave an [event] in the world's trace, so that
      statements such as "no I/O was performed" can be written down. *)

From Stdlib Require Import ZArith Lia.
From Stdlib Require Import Strings.Byte.
From stdpp Require Import base option gmap strings numbers list.

Abbreviation byte := Byte.byte.

Global Instance byte_eq_dec : EqDecision byte := Byte.byte_eq_dec.

(** ** Pointers and the WINDOW struct *)

Definition addr := N.
Definition NULL : addr := 0%N.

(** The members of [WINDOW] that pdc_scrdump.c names, and the rest of the
    struct ([_others]: cursor, origin, flags, margins, ...) which the file
    only ever moves as part of the struct image. *)
Record WINDOW := mkWINDOW {
  _maxy : Z;
  _maxx : Z;
  _y : addr;
  _firstch : addr;
  _lastch : addr;
  _others : list byte
}.

Definition with_y (p : addr) (s : WINDOW) : WINDOW :=
  mkWINDOW (_maxy s) (_maxx s) p (_firstch s) (_lastch s) (_others s).
Definition with_firstch (p : addr) (s : WINDOW) : WINDOW :=
  mkWINDOW (_maxy s) (_maxx s) (_y s) p (_lastch s) (_others s).
Definition with_lastch (p : addr) (s : WINDOW) : WINDOW :=
  mkWINDOW (_maxy s) (_maxx s) (_y s) (_firstch s) p (_others s).

(** ** What the headers and the platform fix

    [curspriv.h] / [curses.h] (the WINDOW and chtype declarations) and the
    target's data model are not part of the translated file.  They are
    taken as parameters: object sizes, the modulus of [size_t] arithmetic,
    the range of [int], and the object representation of a WINDOW (what
    [fwrite (win, sizeof (WINDOW), 1, filep)] emits and what the matching
    [fread] rebuilds). *)
Class ABI := {
  sizeof_WINDOW : nat;
  sizeof_chtype : nat;
  sizeof_ptr : nat;
  sizeof_int : nat;
  SIZE_MOD : Z;
  INT_MAX : Z;
  WINDOW_bytes : WINDOW → list byte;
  WINDOW_of_bytes : list byte → WINDOW;
  sizeof_WINDOW_pos : 0 < sizeof_WINDOW;
  sizeof_chtype_pos : 0 < sizeof_chtype;
  sizeof_ptr_pos : 0 < sizeof_ptr;
  sizeof_int_pos : 0 < sizeof_int;
  SIZE_MOD_pos : (0 < SIZE_MOD)%Z;
  WINDOW_bytes_length : ∀ s, length (WINDOW_bytes s) = sizeof_WINDOW;
  WINDOW_image_maxy : ∀ s, (- INT_MAX - 1 ≤ _maxy s ≤ INT_MAX)%Z →
    _maxy (WINDOW_of_bytes (WINDOW_bytes s)) = _maxy s;
  WINDOW_image_maxx : ∀ s, (- INT_MAX - 1 ≤ _maxx s ≤ INT_MAX)%Z →
    _maxx (WINDOW_of_bytes (WINDOW_bytes s)) = _maxx s
}.

(** ** Heap blocks, streams, events *)

Inductive block :=
| BWindow (s : WINDOW)          (* a WINDOW *)
| BLines (ys : list addr)       (* chtype *[]: the line pointer array *)
| BInts (xs : list Z)           (* int[]: _firstch, _lastch *)
| BCells (bs : list byte).      (* chtype[]: one line, as raw memory *)

(** A stdio stream.  A stream opened for reading holds the bytes not yet
    consumed.  A stream opened for writing holds what was written and how
    many more bytes the device takes before a write comes back short. *)
Inductive FILE :=
| FileR (unread : list byte)
| FileW (name : string) (written : list byte) (room : nat).

Inductive event :=
| EvMalloc (size : nat) (p : addr)
| EvFree (p : addr)
| EvFopen (name : string) (writing : bool) (ok : bool)
| EvFclose
| EvFread (size : nat) (items : nat)
| EvFwrite (size : nat) (items : nat).

Inductive status := OK | ERR.

Global Instance status_eq_dec : EqDecision status.
Proof. solve_decision. Defined.

Record world := mkWorld {
  heap : gmap addr block;
  nmalloc : nat;                    (* malloc requests made so far *)
  disk : gmap string (list byte);
  curscr : addr;
  trace : list event                (* oldest event first *)
}.

(** What the program cannot control: whether the n-th malloc request (of a
    given size) is granted, whether a file can be opened, and how much a
    freshly opened output file takes. *)
Class Env := {
  malloc_ok : nat → nat → bool;
  fopen_ok : string → bool;
  disk_room : string → nat
}.

(** ** The state-and-fault monad *)

Definition M (A : Type) : Type := world → option (A * world).

Definition ret {A} (a : A) : M A := λ w, Some (a, w).
Definition bind {A B} (m : M A) (k : A → M B) : M B :=
  λ w, match m w with Some (a, w') => k a w' | None => None end.
Definition fault {A} : M A := λ _, None.

Notation "'let!' x := m 'in' k" := (bind m (λ x, k))
  (at level 10, x pattern, m at level 100, k at level 200).

(** World updates. *)
Definition with_heap (h : gmap addr block) (w : world) : world :=
  mkWorld h (nmalloc w) (disk w) (curscr w) (trace w).
Definition with_disk (d : gmap string (list byte)) (w : world) : world :=
  mkWorld (heap w) (nmalloc w) d (curscr w) (trace w).
Definition counted (w : world) : world :=
  mkWorld (heap w) (S (nmalloc w)) (disk w) (curscr w) (trace w).
Definition logged (e : event) (w : world) : world :=
  mkWorld (heap w) (nmalloc w) (disk w) (curscr w) (trace w ++ [e]).

Definition emit (e : event) : M unit := λ w, Some (tt, logged e w).
Definition put_heap (h : gmap addr block) : M unit := λ w, Some (tt, with_heap h w).
Definition get_curscr : M addr := λ w, Some (curscr w, w).

Definition fresh_addr (h : gmap addr block) : addr := fresh ({[NULL]} ∪ dom h).

Section Program.
Context {abi : ABI} {env : Env}.

(** *** libc *)

(** [malloc (size)]: the block's type is the one the caller casts the
    result to; [init] stands for its indeterminate initial content.  A
    granted request returns an address that is neither null nor in use. *)
Definition malloc (size : nat) (init : block) : M addr := λ w,
  if malloc_ok (nmalloc w) size then
    let p := fresh_addr (heap w) in
    Some (p, logged (EvMalloc size p) (counted (with_heap (<[p := init]> (heap w)) w)))
  else
    Some (NULL, logged (EvMalloc size NULL) (counted w)).

(** [free (p)]: nothing for a null pointer; a fault for a pointer that is
    not the address of a live block. *)
Definition free (p : addr) : M unit := λ w,
  if decide (p = NULL) then Some (tt, w)
  else match heap w !! p with
       | Some _ => Some (tt, logged (EvFree p) (with_heap (delete p (heap w)) w))
       | None => None
       end.

(** [fread (ptr, size, 1, filep)]: the bytes obtained, the items returned
    (0 or 1) and the stream afterwards.  A request of size 0 returns 0
    and leaves the stream alone. *)
Definition fread (size : nat) (f : FILE) : M (list byte * nat * FILE) :=
  match f with
  | FileR unread =>
      let got := take size unread in
      let items := if decide (0 < size ∧ length got = size) then 1 else 0 in
      let! _ := emit (EvFread size items) in
      ret (got, items, FileR (drop size unread))
  | FileW _ _ _ =>
      let! _ := emit (EvFread size 0) in ret ([], 0, f)
  end.

(** [fwrite (ptr, size, 1, filep)] where [data] are the [size] bytes at
    [ptr]: 1 when all of them went out, 0 otherwise (and for size 0). *)
Definition fwrite (data : list byte) (f : FILE) : M (nat * FILE) :=
  match f with
  | FileW name written room =>
      let put := take room data in
      let items := if decide (0 < length data ∧ length data ≤ room) then 1 else 0 in
      let! _ := emit (EvFwrite (length data) items) in
      ret (items, FileW name (written ++ put) (room - length put))
  | FileR _ =>
      let! _ := emit (EvFwrite (length data) 0) in ret (0, f)
  end.

Definition fopen_rb (name : string) : M (option FILE) := λ w,
  match (if fopen_ok name then disk w !! name else None) with
  | Some content => Some (Some (FileR content), logged (EvFopen name false true) w)
  | None => Some (None, logged (EvFopen name false false) w)
  end.

Definition fopen_wb (name : string) : M (option FILE) := λ w,
  if fopen_ok name then
    Some (Some (FileW name [] (disk_room name)),
          logged (EvFopen name true true) (with_disk (<[name := []]> (disk w)) w))
  else
    Some (None, logged (EvFopen name true false) w).

Definition fclose (f : FILE) : M unit := λ w,
  let d := match f with
           | FileW name written _ => <[name := written]> (disk w)
           | FileR _ => disk w
           end in
  Some (tt, logged EvFclose (with_disk d w)).

(** [strncmp]: 0 when the first [n] characters agree (or both strings end
    before), the difference of the first two that differ otherwise.  A
    list that runs out reads as the terminating NUL. *)
Fixpoint strncmp (s1 s2 : list byte) (n : nat) : Z :=
  match n with
  | O => 0
  | S n' =>
      let c1 := hd "000"%byte s1 in
      let c2 := hd "000"%byte s2 in
      if decide (c1 = c2) then
        if decide (c1 = "000"%byte) then 0%Z else strncmp (tl s1) (tl s2) n'
      else (Z.of_N (Byte.to_N c1) - Z.of_N (Byte.to_N c2))%Z
  end.

(** The value of a [char] as an unsigned quantity.  A target with signed
    [char] reads the bytes from 128 on as negative; either way such a byte
    differs from [DUMPVER], the only value it is compared with. *)
Definition char_value (c : byte) : Z := Z.of_N (Byte.to_N c).

(** [n * sizeof (T)] computed in [size_t]. *)
Definition size_mul (n : Z) (size : nat) : nat :=
  Z.to_nat ((n * Z.of_nat size) mod SIZE_MOD).

(** *** Memory access *)

Definition load_win (p : addr) : M WINDOW := λ w,
  match heap w !! p with Some (BWindow s) => Some (s, w) | _ => None end.
Definition store_win (p : addr) (s : WINDOW) : M unit := λ w,
  match heap w !! p with
  | Some (BWindow _) => put_heap (<[p := BWindow s]> (heap w)) w
  | _ => None
  end.
Definition load_line (p : addr) (i : nat) : M addr := λ w,
  match heap w !! p with
  | Some (BLines ys) => match ys !! i with Some a => Some (a, w) | None => None end
  | _ => None
  end.
Definition store_line (p : addr) (i : nat) (a : addr) : M unit := λ w,
  match heap w !! p with
  | Some (BLines ys) =>
      if decide (i < length ys) then put_heap (<[p := BLines (<[i := a]> ys)]> (heap w)) w
      else None
  | _ => None
  end.
Definition store_int (p : addr) (i : nat) (x : Z) : M unit := λ w,
  match heap w !! p with
  | Some (BInts xs) =>
      if decide (i < length xs) then put_heap (<[p := BInts (<[i := x]> xs)]> (heap w)) w
      else None
  | _ => None
  end.
(** The first [n] bytes of a line. *)
Definition load_cells (p : addr) (n : nat) : M (list byte) := λ w,
  match heap w !! p with
  | Some (BCells bs) => if decide (n ≤ length bs) then Some (take n bs, w) else None
  | _ => None
  end.
(** Overwrite the start of a line with [data]. *)
Definition store_cells (p : addr) (data : list byte) : M unit := λ w,
  match heap w !! p with
  | Some (BCells bs) =>
      if decide (length data ≤ length bs)
      then put_heap (<[p := BCells (data ++ drop (length data) bs)]> (heap w)) w
      else None
  | _ => None
  end.

(** *** The window engine

    [PDC_makelines], [delwin], [touchwin] and [overwrite] live in other
    files of the library (pdc_window.c, pdc_touch.c, pdc_overlay.c). *)

Fixpoint free_lines (k : nat) (y : addr) (j : nat) : M unit :=
  match k with
  | O => ret tt
  | S k' =>
      let! a := load_line y j in
      let! _ := free a in
      free_lines k' y (S j)
  end.

Definition release_arrays (win : addr) (s : WINDOW) : M unit :=
  let! _ := free (_firstch s) in
  let! _ := free (_lastch s) in
  let! _ := free (_y s) in
  free win.

Fixpoint makelines_from (k : nat) (win : addr) (s : WINDOW) (i : nat) : M addr :=
  match k with
  | O => ret win
  | S k' =>
      let size := size_mul (_maxx s) sizeof_chtype in
      let! p := malloc size (BCells (replicate size "000"%byte)) in
      if decide (p = NULL) then
        let! _ := free_lines i (_y s) 0 in
        let! _ := release_arrays win s in
        ret NULL
      else
        let! _ := store_line (_y s) i p in
        makelines_from k' win s (S i)
  end.

(** Modelled from the spec: [PDC_makelines] is missing from src/.  The spec
    has it as [allocate_lines (window)]: "given height/width already
    populated, allocates and wires up height row buffers of width cells
    each; may fail", and says of its caller that "any allocation failure
    ... at any step releases all partial allocations made so far".  The
    caller drops its only pointer to the window when this step fails, so
    the release is done here. *)
Definition PDC_makelines (win : addr) : M addr :=
  if decide (win = NULL) then ret NULL
  else
    let! s := load_win win in
    makelines_from (Z.to_nat (_maxy s)) win s 0.

(** Modelled from the spec: [delwin] is missing from src/.  The spec has
    it as [release_window (window)]: "frees a window and all its owned
    row/array storage". *)
Definition delwin (win : addr) : M status :=
  if decide (win = NULL) then ret ERR
  else
    let! s := load_win win in
    let! _ := free_lines (Z.to_nat (_maxy s)) (_y s) 0 in
    let! _ := release_arrays win s in
    ret OK.

Fixpoint touch_from (k : nat) (s : WINDOW) (i : nat) : M unit :=
  match k with
  | O => ret tt
  | S k' =>
      let! _ := store_int (_firstch s) i 0 in
      let! _ := store_int (_lastch s) i (_maxx s - 1) in
      touch_from k' s (S i)
  end.

(** Modelled from the spec: [touchwin] is missing from src/.  The spec has
    it as [mark_all_dirty (window)]: "resets change-tracking to whole
    window changed", that is, every line's dirty range becomes the full
    line, columns 0 to width - 1. *)
Definition touchwin (win : addr) : M status :=
  if decide (win = NULL) then ret ERR
  else
    let! s := load_win win in
    let! _ := touch_from (Z.to_nat (_maxy s)) s 0 in
    ret OK.

Fixpoint overwrite_from (k : nat) (sy dy : addr) (n : nat) (i : nat) : M unit :=
  match k with
  | O => ret tt
  | S k' =>
      let! a := load_line sy i in
      let! b := load_line dy i in
      let! data := load_cells a n in
      let! _ := store_cells b data in
      overwrite_from k' sy dy n (S i)
  end.

(** Modelled from the spec: [overwrite] is missing from src/.  The spec
    has it as [copy_region (src, dst) -> status]: "overwrites dst's full
    visible content with src's, preserving dst's identity".  The cells the
    two windows have in common are copied line by line into [dst]'s own
    line buffers; nothing else of [dst] changes. *)
Definition overwrite (src dst : addr) : M status :=
  if decide (src = NULL ∨ dst = NULL) then ret ERR
  else
    let! s := load_win src in
    let! d := load_win dst in
    let lines := Z.to_nat (Z.min (_maxy s) (_maxy d)) in
    let n := Z.to_nat (Z.min (_maxx s) (_maxx d)) * sizeof_chtype in
    let! _ := overwrite_from lines (_y s) (_y d) n 0 in
    ret OK.

(** *** pdc_scrdump.c *)

Definition DUMPVER : Z := 1.
Definition marker : list byte := String.list_byte_of_string "PDC".
Definition version : byte := "001"%byte.

(** The body of the loop [for (i = 0; i < win->_maxy && win->_y[i]; i++)]:
    [k] counts the indices still below [_maxy] (the loop writes no memory,
    so the bound is the one read on entry). *)
Fixpoint putwin_lines (k : nat) (s : WINDOW) (i : nat) (f : FILE) : M (status * FILE) :=
  match k with
  | O => ret (OK, f)
  | S k' =>
      let! a := load_line (_y s) i in
      if decide (a = NULL) then ret (OK, f)
      else
        let! data := load_cells a (size_mul (_maxx s) sizeof_chtype) in
        let! (items, f) := fwrite data f in
        if decide (items = 0) then ret (ERR, f)
        else putwin_lines k' s (S i) f
  end.

Definition putwin (win : addr) (filep : option FILE) : M (status * option FILE) :=
  match filep with
  | None => ret (ERR, None)
  | Some f =>
      let! (items, f) := fwrite marker f in
      if decide (items = 0) then ret (ERR, Some f)
      else
        let! (items, f) := fwrite [version] f in
        if decide (items = 0) then ret (ERR, Some f)
        else
          let! s := load_win win in
          let! (items, f) := fwrite (WINDOW_bytes s) f in
          if decide (items = 0) then ret (ERR, Some f)
          else
            let! (r, f) := putwin_lines (Z.to_nat (_maxy s)) s 0 f in
            ret (r, Some f)
  end.

(** What a freshly allocated WINDOW holds before anything is read into it. *)
Definition WINDOW_fresh : WINDOW := mkWINDOW 0 0 NULL NULL NULL [].

Fixpoint getwin_lines (k : nat) (y : addr) (size : nat) (i : nat) (f : FILE)
  : M (bool * FILE) :=
  match k with
  | O => ret (true, f)
  | S k' =>
      let! a := load_line y i in
      let! (got, items, f) := fread size f in
      let! _ := store_cells a got in
      if decide (items = 0) then ret (false, f)
      else getwin_lines k' y size (S i) f
  end.

(** [getwin] from [nlines = win->_maxy] on: the struct image has been read
    into [win]. *)
Definition getwin_build (win : addr) (f : FILE) : M (addr * option FILE) :=
  let reject : M (addr * option FILE) :=
    let! _ := free win in ret (NULL, Some f) in
  let! s := load_win win in
  let nlines := _maxy s in
  let ncols := _maxx s in
  (* the line pointer array *)
  let size := size_mul nlines sizeof_ptr in
  let! y := malloc size (BLines (replicate (size / sizeof_ptr) NULL)) in
  let! _ := store_win win (with_y y s) in
  if decide (y = NULL) then reject
  else
    (* the minchng and maxchng arrays *)
    let size := size_mul nlines sizeof_int in
    let! fc := malloc size (BInts (replicate (size / sizeof_int) 0%Z)) in
    let! _ := store_win win (with_firstch fc (with_y y s)) in
    if decide (fc = NULL) then
      let! _ := free y in reject
    else
      let! lc := malloc size (BInts (replicate (size / sizeof_int) 0%Z)) in
      let! _ := store_win win (with_lastch lc (with_firstch fc (with_y y s))) in
      if decide (lc = NULL) then
        let! _ := free fc in
        let! _ := free y in reject
      else
        (* the lines *)
        let! win := PDC_makelines win in
        if decide (win = NULL) then ret (NULL, Some f)
        else
          let! s := load_win win in
          let! (ok, f) :=
            getwin_lines (Z.to_nat nlines) (_y s) (size_mul ncols sizeof_chtype) 0 f in
          if ok then
            let! _ := touchwin win in
            ret (win, Some f)
          else
            let! _ := delwin win in
            ret (NULL, Some f).

Definition getwin (filep : option FILE) : M (addr * option FILE) :=
  let! win := malloc sizeof_WINDOW (BWindow WINDOW_fresh) in
  if decide (win = NULL) then ret (NULL, filep)
  else
    let reject (f : option FILE) : M (addr * option FILE) :=
      let! _ := free win in ret (NULL, f) in
    match filep with
    | None => reject None
    | Some f =>
        (* the marker and the version *)
        let! (mark, items, f) := fread 4 f in
        if decide (items = 0) then reject (Some f)
        else if decide (strncmp mark marker 3 ≠ 0%Z) then reject (Some f)
        else if decide (char_value (nth 3 mark "000"%byte) ≠ DUMPVER) then reject (Some f)
        else
          (* the WINDOW struct *)
          let! (image, items, f) := fread sizeof_WINDOW f in
          if decide (items = 0) then reject (Some f)
          else
            let! _ := store_win win (WINDOW_of_bytes image) in
            getwin_build win f
    end.

Definition scr_dump (filename : option string) : M status :=
  match filename with
  | None => ret ERR
  | Some name =>
      let! filep := fopen_wb name in
      match filep with
      | None => ret ERR
      | Some f =>
          let! scr := get_curscr in
          let! (result, filep) := putwin scr (Some f) in
          let! _ := fclose (default f filep) in
          ret result
      end
  end.

Definition scr_init (filename : option string) : M status := ret OK.

Definition scr_restore (filename : option string) : M status :=
  match filename with
  | None => ret ERR
  | Some name =>
      let! filep := fopen_rb name in
      match filep with
      | None => ret ERR
      | Some f =>
          let! (replacement, filep) := getwin (Some f) in
          let! _ := fclose (default f filep) in
          if decide (replacement = NULL) then ret ERR
          else
            let! scr := get_curscr in
            let! result := overwrite replacement scr in
            let! _ := delwin replacement in
            ret result
      end
  end.

Definition scr_set (filename : option string) : M status :=
  scr_restore filename.

End Program.

(** * Specification vocabulary

    The predicates and functions in which the properties of the four
    entry points are stated. *)

Section Specification.
Context {abi : ABI} {env : Env}.

(** [wp d m Q w]: running [m] from [w] ends in a result and a world that
    satisfy [Q], or it faults and [d] holds.  With [d := False] this is
    total correctness; with [d := True] it says nothing of faulting runs. *)
Definition wp {A} (d : Prop) (m : M A) (Q : A → world → Prop) (w : world) : Prop :=
  match m w with Some (a, w') => Q a w' | None => d end.

Definition logged_all (evs : list event) (w : world) : world :=
  mkWorld (heap w) (nmalloc w) (disk w) (curscr w) (trace w ++ evs).

(** The lines [putwin] writes: those before the first null line pointer. *)
Fixpoint lines_to_write (ptrs : list addr) : list addr :=
  match ptrs with
  | [] => []
  | a :: ptrs' => if decide (a = NULL) then [] else a :: lines_to_write ptrs'
  end.

(** The first [size] bytes of the line at [a]. *)
Definition line_bytes (h : gmap addr block) (size : nat) (a : addr) : option (list byte) :=
  match h !! a with
  | Some (BCells bs) => if decide (size ≤ length bs) then Some (take size bs) else None
  | _ => None
  end.

(** Writing a sequence of chunks to a stream with [room] bytes left, one
    [fwrite] per chunk, giving up at the first one that does not go out in
    full: the status, the bytes that reach the stream, the calls made. *)
Fixpoint write_status (chunks : list (list byte)) (room : nat) : status :=
  match chunks with
  | [] => OK
  | c :: cs =>
      if decide (0 < length c ∧ length c ≤ room)
      then write_status cs (room - length c) else ERR
  end.

Fixpoint write_put (chunks : list (list byte)) (room : nat) : list byte :=
  match chunks with
  | [] => []
  | c :: cs =>
      if decide (0 < length c ∧ length c ≤ room)
      then c ++ write_put cs (room - length c) else take room c
  end.

Fixpoint write_log (chunks : list (list byte)) (room : nat) : list event :=
  match chunks with
  | [] => []
  | c :: cs =>
      if decide (0 < length c ∧ length c ≤ room)
      then EvFwrite (length c) 1 :: write_log cs (room - length c)
      else [EvFwrite (length c) 0]
  end.

(** What a call may do to a world in which the addresses in [D] belong to
    somebody else: it leaves those blocks, the disk and the current screen
    alone, and only adds to the trace. *)
Record steps (D : gset addr) (w w' : world) : Prop := {
  st_frame : ∀ a, a ∈ D → heap w' !! a = heap w !! a;
  st_disk : disk w' = disk w;
  st_curscr : curscr w' = curscr w;
  st_trace : ∃ evs, trace w' = trace w ++ evs;
  st_count : nmalloc w ≤ nmalloc w'
}.

(** A window that a call has built, or is building, outside [D]: its
    struct [s] at [win], its line pointer array holding [ptrs] followed by
    [tail], the lines at [ptrs] holding [rows], and its two int arrays. *)
Record owned (D : gset addr) (h : gmap addr block) (win : addr) (s : WINDOW)
    (ptrs tail : list addr) (rows : list (list byte)) (fs ls : list Z) : Prop := {
  ow_dom : ∀ a, a ∈ D → is_Some (h !! a);
  ow_win : h !! win = Some (BWindow s);
  ow_y : h !! _y s = Some (BLines (ptrs ++ tail));
  ow_fc : h !! _firstch s = Some (BInts fs);
  ow_lc : h !! _lastch s = Some (BInts ls);
  ow_rows : Forall2 (λ a r, h !! a = Some (BCells r)) ptrs rows;
  ow_nodup : NoDup ptrs;
  ow_fresh : Forall (λ a, a ≠ NULL ∧ a ∉ D)
                    (win :: _y s :: _firstch s :: _lastch s :: ptrs);
  ow_distinct : _firstch s ≠ _lastch s
}.

Definition nlines (s : WINDOW) : nat := Z.to_nat (_maxy s).
Definition row_size (s : WINDOW) : nat := size_mul (_maxx s) sizeof_chtype.
Definition blank_row (s : WINDOW) : list byte := replicate (row_size s) "000"%byte.

(** What [k] reads of [size] bytes each take off a stream. *)
Fixpoint split_rows (k size : nat) (bs : list byte) : list (list byte) :=
  match k with
  | O => []
  | S k' => take size bs :: split_rows k' size (drop size bs)
  end.

(** The entries [getwin] gets for its line pointer array and for each of its
    int arrays: the byte counts are computed in [size_t]. *)
Definition lines_cap (s : WINDOW) : nat := size_mul (_maxy s) sizeof_ptr / sizeof_ptr.
Definition ints_cap (s : WINDOW) : nat := size_mul (_maxy s) sizeof_int / sizeof_int.

(** The arrays hold an entry per line: no product wrapped around. *)
Definition arrays_fit (s : WINDOW) : Prop :=
  nlines s ≤ lines_cap s ∧ nlines s ≤ ints_cap s.

(** The malloc requests [getwin] makes once the struct is read, in order. *)
Definition build_requests (s : WINDOW) : list nat :=
  [size_mul (_maxy s) sizeof_ptr; size_mul (_maxy s) sizeof_int;
   size_mul (_maxy s) sizeof_int] ++ replicate (nlines s) (row_size s).

(** Requests number [n0], [n0 + 1], ... of the given sizes are all granted. *)
Definition granted (n0 : nat) (sizes : list nat) : Prop :=
  ∀ j size, sizes !! j = Some size → malloc_ok (n0 + j) size = true.

(** The stream holds every line in full. *)
Definition body_ok (s : WINDOW) (unread : list byte) : Prop :=
  nlines s * row_size s ≤ length unread ∧ (0 < nlines s → 0 < row_size s).

Definition dump_struct (unread : list byte) : WINDOW :=
  WINDOW_of_bytes (take sizeof_WINDOW (drop 4 unread)).
Definition dump_body (unread : list byte) : list byte :=
  drop sizeof_WINDOW (drop 4 unread).

(** The stream starts with the marker and the current version. *)
Definition header_ok (unread : list byte) : Prop :=
  take 4 unread = marker ++ [version].

(** What makes [getwin] return a window: the header, a whole struct
    image, every line in full, and every request granted. *)
Definition accepted (n0 : nat) (unread : list byte) : Prop :=
  header_ok unread ∧
  4 + sizeof_WINDOW ≤ length unread ∧
  granted n0 (sizeof_WINDOW :: build_requests (dump_struct unread)) ∧
  body_ok (dump_struct unread) (dump_body unread).

(** A fully allocated window as a client sees it: the struct [s] at [p],
    its lines at [ptrs] holding [rows], and the dirty ranges [fs], [ls] of
    its lines. *)
Record window_at (h : gmap addr block) (p : addr) (s : WINDOW)
    (ptrs : list addr) (rows : list (list byte)) (fs ls : list Z) : Prop := {
  wa_win : h !! p = Some (BWindow s);
  wa_y : ∃ tail, h !! _y s = Some (BLines (ptrs ++ tail));
  wa_nlines : length ptrs = nlines s;
  wa_rows : Forall2 (λ a r, h !! a = Some (BCells r)) ptrs rows;
  wa_firstch : ∃ tail, h !! _firstch s = Some (BInts (fs ++ tail));
  wa_lastch : ∃ tail, h !! _lastch s = Some (BInts (ls ++ tail));
  wa_dirty : length fs = nlines s ∧ length ls = nlines s
}.

(** What a run of [getwin] from [w] ends in. *)
Definition getwin_post (w : world) (filep : option FILE)
    (r : addr * option FILE) (w' : world) : Prop :=
  steps (dom (heap w)) w w' ∧
  ((r.1 = NULL ∧ (r.2 = filep ∨ ∃ u, r.2 = Some (FileR u)) ∧
    ∀ unread, filep = Some (FileR unread) → ¬ accepted (nmalloc w) unread) ∨
   (∃ unread y fc lc ptrs ytail ftail ltail,
      let s := dump_struct unread in
      filep = Some (FileR unread) ∧ accepted (nmalloc w) unread ∧
      r.1 ≠ NULL ∧
      r.2 = Some (FileR (drop (nlines s * row_size s) (dump_body unread))) ∧
      owned (dom (heap w)) (heap w') r.1
            (with_lastch lc (with_firstch fc (with_y y s))) ptrs ytail
            (split_rows (nlines s) (row_size s) (dump_body unread))
            (replicate (nlines s) 0%Z ++ ftail)
            (replicate (nlines s) (_maxx s - 1)%Z ++ ltail) ∧
      length ptrs = nlines s ∧
      nmalloc w' = nmalloc w + 4 + nlines s ∧
      trace w' = trace w ++
        [EvMalloc sizeof_WINDOW r.1; EvFread 4 1; EvFread sizeof_WINDOW 1;
         EvMalloc (size_mul (_maxy s) sizeof_ptr) y;
         EvMalloc (size_mul (_maxy s) sizeof_int) fc;
         EvMalloc (size_mul (_maxy s) sizeof_int) lc] ++
        (EvMalloc (row_size s) <$> ptrs) ++
        replicate (nlines s) (EvFread (row_size s) 1))).

(** Line [dr] after the first [n] bytes of [sr] were copied over it. *)
Definition merge_row (n : nat) (sr dr : list byte) : list byte :=
  take n sr ++ drop n dr.

(** The lines of a window after [overwrite] copied the lines [srows] over
    them, [n] bytes each. *)
Definition overwritten (n : nat) (srows drows : list (list byte)) : list (list byte) :=
  zip_with (merge_row n) srows drows ++ drop (length srows) drows.

(** The destination's lines when lines below [i] have been copied. *)
Definition copied (n i : nat) (srows drows : list (list byte)) : list (list byte) :=
  zip_with (merge_row n) (take i srows) (take i drows) ++ drop i drows.

(** A dump of a window of at least one line and one column that fits the
    address space, complete. *)
Definition well_formed_dump (dump : list byte) : Prop :=
  header_ok dump ∧ 4 + sizeof_WINDOW ≤ length dump ∧
  (1 ≤ _maxy (dump_struct dump))%Z ∧ (1 ≤ _maxx (dump_struct dump))%Z ∧
  (_maxx (dump_struct dump) * Z.of_nat sizeof_chtype < SIZE_MOD)%Z ∧
  (_maxy (dump_struct dump) * Z.of_nat sizeof_ptr < SIZE_MOD)%Z ∧
  (_maxy (dump_struct dump) * Z.of_nat sizeof_int < SIZE_MOD)%Z ∧
  nlines (dump_struct dump) * row_size (dump_struct dump) ≤ length (dump_body dump).

(** The current screen is a window with lines of its own, [_maxx] cells
    each. *)
Definition screen_ok (w : world) (sd : WINDOW) (dptrs : list addr)
    (drows : list (list byte)) (fs ls : list Z) : Prop :=
  curscr w ≠ NULL ∧
  window_at (heap w) (curscr w) sd dptrs drows fs ls ∧
  NoDup dptrs ∧
  Forall (λ r, length r = Z.to_nat (_maxx sd) * sizeof_chtype) drows.

(** What [scr_restore] leaves on the screen. *)
Definition restored (dump : list byte) (sd : WINDOW) (drows : list (list byte))
  : list (list byte) :=
  overwritten
    (Z.to_nat (Z.min (_maxx (dump_struct dump)) (_maxx sd)) * sizeof_chtype)
    (split_rows (nlines (dump_struct dump)) (row_size (dump_struct dump))
                (dump_body dump))
    drows.

(** The events of [fwrite]. *)
Definition is_fwrite (e : event) : Prop :=
  match e with EvFwrite _ _ => True | _ => False end.

(** What writing does to a stream: the name stays, bytes are added behind
    those already there, no more of them than the device had room for. *)
Definition extends (f f' : FILE) : Prop :=
  match f, f' with
  | FileW name written room, FileW name' written' room' =>
      name' = name ∧
      ∃ out, written' = written ++ out ∧ length out ≤ room ∧
             room' = room - length out
  | FileR unread, FileR unread' => unread' = unread
  | _, _ => False
  end.

(** How [getwin] leaves the world when it gives up before any line is
    allocated: nothing returned, the heap as it found it. *)
Definition early_exit (w : world) (r : addr * option FILE) (w' : world) : Prop :=
  r.1 = NULL ∧ heap w' = heap w ∧ disk w' = disk w ∧ curscr w' = curscr w ∧
  nmalloc w' ≤ nmalloc w + 4.

(** A computation that leaves the files and the screen pointer alone. *)
Definition keeps {A} (m : M A) : Prop :=
  ∀ w r w', m w = Some (r, w') → disk w' = disk w ∧ curscr w' = curscr w.

(** A result of [getwin] that, when null, comes with a heap holding
    exactly the blocks at [D]. *)
Definition released (D : gset addr) (r : addr * option FILE) (w' : world) : Prop :=
  r.1 = NULL → dom (heap w') = D.

(** The dump of a window with struct [s] and lines [rows]. *)
Definition dump_of (s : WINDOW) (rows : list (list byte)) : list byte :=
  marker ++ [version] ++ WINDOW_bytes s ++ concat rows.

(** A window that [putwin] writes in full and [getwin] reads back: at
    least one line and one column, every line there with [_maxx] cells,
    and array sizes that [size_t] holds. *)
Definition dumpable (s : WINDOW) (ptrs : list addr) (rows : list (list byte)) : Prop :=
  (1 ≤ _maxy s ≤ INT_MAX)%Z ∧ (1 ≤ _maxx s ≤ INT_MAX)%Z ∧
  (NULL ∉ ptrs) ∧
  Forall (λ r, length r = Z.to_nat (_maxx s) * sizeof_chtype) rows ∧
  (_maxx s * Z.of_nat sizeof_chtype < SIZE_MOD)%Z ∧
  (_maxy s * Z.of_nat sizeof_ptr < SIZE_MOD)%Z ∧
  (_maxy s * Z.of_nat sizeof_int < SIZE_MOD)%Z.

(** The lines of a window under construction: the first entries of its
    table. *)
Definition table_holds (h : gmap addr block) (y : addr) (lines : list addr) : Prop :=
  ∃ ys, h !! y = Some (BLines ys) ∧ take (length lines) ys = lines.

End Specification.

(** ** Reasoning about runs *)

Ltac wsimpl :=
  cbn [heap nmalloc disk curscr trace with_heap with_disk counted logged
       _maxy _maxx _y _firstch _lastch _others with_y with_firstch with_lastch
       fst snd] in *.

Section Logic.
Context {abi : ABI} {env : Env}.

Lemma wp_ret {A} d (a : A) (Q : A → world → Prop) w : Q a w → wp d (ret a) Q w.
Proof. done. Qed.

Lemma wp_bind {A B} d (m : M A) (k : A → M B) (Q : B → world → Prop) w :
  wp d m (λ a w', wp d (k a) Q w') w → wp d (bind m k) Q w.
Proof. unfold wp, bind. by destruct (m w) as [[a w']|]. Qed.

Lemma wp_mono {A} d (m : M A) (Q Q' : A → world → Prop) w :
  wp d m Q w → (∀ a w', Q a w' → Q' a w') → wp d m Q' w.
Proof. unfold wp. destruct (m w) as [[a w']|]; auto. Qed.

Lemma wp_excuse {A} (d d' : Prop) (m : M A) (Q : A → world → Prop) w :
  wp d m Q w → (d → d') → wp d' m Q w.
Proof. unfold wp. destruct (m w) as [[a w']|]; auto. Qed.

Lemma wp_result {A} d (m : M A) (Q : A → world → Prop) w a w' :
  wp d m Q w → m w = Some (a, w') → Q a w'.
Proof. unfold wp. intros H E. by rewrite E in H. Qed.

Lemma wp_total {A} (m : M A) (Q : A → world → Prop) w :
  wp False m Q w → ∃ a w', m w = Some (a, w') ∧ Q a w'.
Proof. unfold wp. destruct (m w) as [[a w']|]; [eauto | done]. Qed.

Lemma wp_of_run {A} d (m : M A) (Q : A → world → Prop) w a w' :
  m w = Some (a, w') → Q a w' → wp d m Q w.
Proof. unfold wp. by intros ->. Qed.

(** *** Rules for the primitives *)

Lemma fresh_addr_spec (h : gmap addr block) :
  fresh_addr h ≠ NULL ∧ h !! fresh_addr h = None.
Proof.
  unfold fresh_addr.
  pose proof (is_fresh ({[NULL]} ∪ dom h)) as Hf.
  split; [set_solver|]. apply not_elem_of_dom. set_solver.
Qed.

Lemma wp_malloc d size init (Q : addr → world → Prop) w :
  (malloc_ok (nmalloc w) size = true → ∀ p, p ≠ NULL → heap w !! p = None →
     Q p (logged (EvMalloc size p) (counted (with_heap (<[p := init]> (heap w)) w)))) →
  (malloc_ok (nmalloc w) size = false → Q NULL (logged (EvMalloc size NULL) (counted w))) →
  wp d (malloc size init) Q w.
Proof.
  intros Hok Hfail. unfold wp, malloc.
  destruct (malloc_ok (nmalloc w) size).
  - destruct (fresh_addr_spec (heap w)). by apply Hok.
  - by apply Hfail.
Qed.

Lemma wp_free d p b (Q : unit → world → Prop) w :
  p ≠ NULL → heap w !! p = Some b →
  Q tt (logged (EvFree p) (with_heap (delete p (heap w)) w)) →
  wp d (free p) Q w.
Proof.
  intros Hp Hb HQ. unfold wp, free. rewrite decide_False by done. by rewrite Hb.
Qed.

Lemma wp_load_win d p s (Q : WINDOW → world → Prop) w :
  heap w !! p = Some (BWindow s) → Q s w → wp d (load_win p) Q w.
Proof. intros Hp HQ. unfold wp, load_win. by rewrite Hp. Qed.

Lemma wp_store_win d p s0 s (Q : unit → world → Prop) w :
  heap w !! p = Some (BWindow s0) →
  Q tt (with_heap (<[p := BWindow s]> (heap w)) w) →
  wp d (store_win p s) Q w.
Proof. intros Hp HQ. unfold wp, store_win. by rewrite Hp. Qed.

Lemma wp_load_line d p ys i (Q : addr → world → Prop) w :
  heap w !! p = Some (BLines ys) →
  (∀ a, ys !! i = Some a → Q a w) →
  (length ys ≤ i → d) →
  wp d (load_line p i) Q w.
Proof.
  intros Hp HQ Hd. unfold wp, load_line. rewrite Hp.
  destruct (ys !! i) as [a|] eqn:Hi; [by apply HQ|].
  apply Hd. by apply lookup_ge_None.
Qed.

Lemma wp_store_line d p ys i a (Q : unit → world → Prop) w :
  heap w !! p = Some (BLines ys) →
  (i < length ys → Q tt (with_heap (<[p := BLines (<[i := a]> ys)]> (heap w)) w)) →
  (length ys ≤ i → d) →
  wp d (store_line p i a) Q w.
Proof.
  intros Hp HQ Hd. unfold wp, store_line. rewrite Hp.
  case_decide; [by apply HQ | apply Hd; lia].
Qed.

Lemma wp_store_int d p xs i x (Q : unit → world → Prop) w :
  heap w !! p = Some (BInts xs) →
  (i < length xs → Q tt (with_heap (<[p := BInts (<[i := x]> xs)]> (heap w)) w)) →
  (length xs ≤ i → d) →
  wp d (store_int p i x) Q w.
Proof.
  intros Hp HQ Hd. unfold wp, store_int. rewrite Hp.
  case_decide; [by apply HQ | apply Hd; lia].
Qed.

Lemma wp_load_cells d p bs n (Q : list byte → world → Prop) w :
  heap w !! p = Some (BCells bs) → n ≤ length bs →
  Q (take n bs) w → wp d (load_cells p n) Q w.
Proof.
  intros Hp Hn HQ. unfold wp, load_cells. rewrite Hp. by rewrite decide_True.
Qed.

Lemma wp_store_cells d p bs data (Q : unit → world → Prop) w :
  heap w !! p = Some (BCells bs) → length data ≤ length bs →
  Q tt (with_heap (<[p := BCells (data ++ drop (length data) bs)]> (heap w)) w) →
  wp d (store_cells p data) Q w.
Proof.
  intros Hp Hn HQ. unfold wp, store_cells. rewrite Hp. by rewrite decide_True.
Qed.

Lemma wp_fread d size unread (Q : list byte * nat * FILE → world → Prop) w :
  (∀ items, items = (if decide (0 < size ∧ size ≤ length unread) then 1 else 0) →
     Q (take size unread, items, FileR (drop size unread)) (logged (EvFread size items) w)) →
  wp d (fread size (FileR unread)) Q w.
Proof.
  intros HQ. unfold wp, fread, bind, emit, ret.
  apply HQ. rewrite length_take.
  destruct (decide (0 < size ∧ size `min` length unread = size)) as [[? ?]|Hn];
    destruct (decide (0 < size ∧ size ≤ length unread)) as [[? ?]|Hm];
    try done; exfalso; [apply Hm | apply Hn]; lia.
Qed.

Lemma wp_fwrite d data name written room (Q : nat * FILE → world → Prop) w :
  (∀ items, items = (if decide (0 < length data ∧ length data ≤ room) then 1 else 0) →
     Q (items, FileW name (written ++ take room data) (room - length (take room data)))
       (logged (EvFwrite (length data) items) w)) →
  wp d (fwrite data (FileW name written room)) Q w.
Proof. intros HQ. unfold wp, fwrite, bind, emit, ret. by apply HQ. Qed.

End Logic.

(** ** putwin *)

Lemma logged_logged_all e evs w :
  logged_all evs (logged e w) = logged_all (e :: evs) w.
Proof. unfold logged_all, logged. cbn. by rewrite <- app_assoc. Qed.

Lemma logged_all_nil w : logged_all [] w = w.
Proof. destruct w. unfold logged_all. cbn. by rewrite app_nil_r. Qed.

Lemma logged_all_one e w : logged e w = logged_all [e] w.
Proof. done. Qed.

Lemma write_status_OK chunks room :
  write_status chunks room = OK ↔
  Forall (λ c, 0 < length c) chunks ∧ length (concat chunks) ≤ room.
Proof.
  revert room. induction chunks as [|c cs IH]; intros room; cbn.
  - split; [intros _; split; [constructor | lia] | done].
  - rewrite length_app. case_decide as Hc.
    + specialize (IH (room - length c)). destruct IH as [IH1 IH2]. split.
      * intros H. destruct (IH1 H). split; [constructor; [lia|done] | lia].
      * intros [Hall Hlen]. inversion Hall; subst. apply IH2. split; [done | lia].
    + split; [done|]. intros [Hall Hlen]. inversion Hall; subst.
      exfalso. apply Hc. lia.
Qed.

Lemma write_put_all chunks room :
  write_status chunks room = OK → write_put chunks room = concat chunks.
Proof.
  revert room. induction chunks as [|c cs IH]; intros room; cbn; [done|].
  case_decide; [|done]. intros Hok. by rewrite IH.
Qed.

Lemma write_put_prefix chunks room :
  ∃ rest, concat chunks = write_put chunks room ++ rest.
Proof.
  revert room. induction chunks as [|c cs IH]; intros room; cbn.
  - by exists [].
  - case_decide.
    + destruct (IH (room - length c)) as [rest Hr]. exists rest.
      by rewrite Hr at 1; rewrite app_assoc.
    + exists (drop room c ++ concat cs). by rewrite app_assoc, take_drop.
Qed.

Lemma write_put_length chunks room : length (write_put chunks room) ≤ room.
Proof.
  revert room. induction chunks as [|c cs IH]; intros room; cbn; [lia|].
  case_decide.
  - rewrite length_app. specialize (IH (room - length c)). lia.
  - rewrite length_take. lia.
Qed.

(** After a failed call no further call is made. *)
Lemma write_log_shape chunks room :
  ∃ n, write_log chunks room =
       map (λ c, EvFwrite (length c) 1) (take n chunks) ++
       match chunks !! n with Some c => [EvFwrite (length c) 0] | None => [] end
     ∧ (write_status chunks room = OK ↔ length chunks ≤ n).
Proof.
  revert room. induction chunks as [|c cs IH]; intros room; cbn.
  - exists 0. split; [done|]. split; [lia|done].
  - case_decide.
    + destruct (IH (room - length c)) as (n & Hn & Hs).
      exists (S n). cbn. rewrite Hn. split; [done|]. rewrite Hs. lia.
    + exists 0. cbn. split; [done|]. split; [done|lia].
Qed.

Section Putwin.
Context {abi : ABI}.

Lemma putwin_lines_run k : ∀ s i name written room w ys rows,
  heap w !! _y s = Some (BLines ys) →
  i + k ≤ length ys →
  mapM (line_bytes (heap w) (size_mul (_maxx s) sizeof_chtype))
       (lines_to_write (take k (drop i ys))) = Some rows →
  putwin_lines k s i (FileW name written room) w =
    Some ((write_status rows room,
           FileW name (written ++ write_put rows room)
                 (room - length (write_put rows room))),
          logged_all (write_log rows room) w).
Proof.
  induction k as [|k IH]; intros s i name written room w ys rows Hy Hlen Hrows.
  - rewrite take_0 in Hrows. cbn in Hrows. injection Hrows as <-.
    cbn. unfold ret. rewrite app_nil_r, Nat.sub_0_r, logged_all_nil. done.
  - destruct (lookup_lt_is_Some_2 ys i) as [a Ha]; [lia|].
    rewrite (drop_S _ _ _ Ha) in Hrows. cbn [take lines_to_write] in Hrows.
    cbn [putwin_lines]. unfold bind at 1. unfold load_line. rewrite Hy, Ha.
    destruct (decide (a = NULL)) as [->|Hnn].
    + cbn in Hrows. injection Hrows as <-.
      cbn. unfold ret. rewrite app_nil_r, Nat.sub_0_r, logged_all_nil. done.
    + simpl in Hrows.
      destruct (line_bytes (heap w) _ a) as [r|] eqn:Hr; [|done].
      simpl in Hrows.
      destruct (mapM _ (lines_to_write (take k (drop (S i) ys)))) as [rs|] eqn:Hrs;
        [|done].
      simpl in Hrows. injection Hrows as <-.
      unfold line_bytes in Hr.
      destruct (heap w !! a) as [[| | |bs]|] eqn:Hbs; try done.
      case_decide as Hsz; [|done]. injection Hr as <-.
      unfold bind at 1. unfold load_cells. rewrite Hbs, decide_True by done.
      set (c := take (size_mul (_maxx s) sizeof_chtype) bs) in *.
      unfold bind at 1. unfold fwrite, bind, emit, ret.
      cbn [write_status write_put write_log].
      destruct (decide (0 < length c ∧ length c ≤ room)) as [[Hpos Hfit]|Hshort].
      * rewrite decide_False by done.
        rewrite (IH s (S i) name _ _ (logged _ w) ys rs); [|done|lia|done].
        rewrite logged_logged_all. rewrite (take_ge c room) by lia.
        by rewrite length_app, Nat.sub_add_distr, <- app_assoc.
      * rewrite decide_True by done. done.
Qed.

Lemma putwin_run w p s ys rows name written room :
  heap w !! p = Some (BWindow s) →
  heap w !! _y s = Some (BLines ys) →
  Z.to_nat (_maxy s) ≤ length ys →
  mapM (line_bytes (heap w) (size_mul (_maxx s) sizeof_chtype))
       (lines_to_write (take (Z.to_nat (_maxy s)) ys)) = Some rows →
  let chunks := marker :: [version] :: WINDOW_bytes s :: rows in
  putwin p (Some (FileW name written room)) w =
    Some ((write_status chunks room,
           Some (FileW name (written ++ write_put chunks room)
                       (room - length (write_put chunks room)))),
          logged_all (write_log chunks room) w).
Proof.
  intros Hp Hy Hlen Hrows chunks. subst chunks.
  unfold putwin. unfold bind at 1. unfold fwrite at 1. unfold bind at 1, emit, ret.
  cbn [write_status write_put write_log].
  destruct (decide (0 < length marker ∧ length marker ≤ room)) as [[_ H1]|H1];
    [rewrite decide_False by done | rewrite decide_True by done; done].
  rewrite (take_ge marker room) by done.
  unfold bind at 1. unfold fwrite at 1. unfold bind at 1, emit, ret.
  destruct (decide (0 < length [version] ∧ length [version] ≤ room - length marker))
    as [[_ H2]|H2]; [rewrite decide_False by done|].
  2: { rewrite decide_True by done. rewrite <- !logged_logged_all, logged_all_nil.
       by rewrite length_app, Nat.sub_add_distr, <- app_assoc. }
  rewrite (take_ge [version]) by done.
  unfold bind at 1. unfold load_win. cbn [heap logged]. rewrite Hp.
  unfold bind at 1. unfold fwrite at 1. unfold bind at 1, emit, ret.
  destruct (decide (0 < length (WINDOW_bytes s) ∧
                    length (WINDOW_bytes s) ≤ room - length marker - length [version]))
    as [[_ H3]|H3]; [rewrite decide_False by done|].
  2: { rewrite decide_True by done. rewrite <- !logged_logged_all, logged_all_nil.
       by rewrite !length_app, !Nat.sub_add_distr, <- !app_assoc. }
  rewrite (take_ge (WINDOW_bytes s)) by done.
  unfold bind at 1.
  erewrite putwin_lines_run; [|done|cbn; lia|done].
  unfold ret. rewrite <- !logged_logged_all.
  by rewrite !length_app, !Nat.sub_add_distr, <- !app_assoc.
Qed.

Lemma putwin_null_stream p w : putwin p None w = Some ((ERR, None), w).
Proof. done. Qed.

End Putwin.

(** ** The claims about putwin *)

Section PutwinClaims.
Context {abi : ABI}.

Lemma line_bytes_sizes (h : gmap addr block) size ptrs rows :
  mapM (line_bytes h size) ptrs = Some rows →
  Forall (λ r, length r = size) rows ∧ length rows = length ptrs.
Proof.
  intros Hm. apply mapM_Some in Hm. split.
  - induction Hm as [|a r ptrs rows Ha _ IH]; constructor; [|done].
    unfold line_bytes in Ha. destruct (h !! a) as [[| | |bs]|]; try done.
    case_decide; [|done]. injection Ha as <-. rewrite length_take. lia.
  - symmetry. by eapply Forall2_length.
Qed.

(** Claim C4 (putwin write contract).  For a window that is in the heap
    with its line table, called on a stream open for writing, [putwin]
    returns, and what it does is the chunk writer run over the marker (3
    bytes), the version (1 byte), the struct image ([sizeof_WINDOW] bytes)
    and then the lines' cells in ascending order, up to the height or the
    first null line pointer, each line contributing [_maxx * sizeof_chtype]
    bytes.  The status is [OK] exactly when every chunk is non-empty and
    all of them fit in the stream, in which case the stream has received
    their concatenation; the calls of [fwrite] are one successful call for
    each of the first [n] chunks followed, when a chunk [n] exists, by a
    single failed call on it and nothing after it. *)
Theorem putwin_write_contract w p s ys rows name written room :
  heap w !! p = Some (BWindow s) →
  heap w !! _y s = Some (BLines ys) →
  Z.to_nat (_maxy s) ≤ length ys →
  mapM (line_bytes (heap w) (size_mul (_maxx s) sizeof_chtype))
       (lines_to_write (take (Z.to_nat (_maxy s)) ys)) = Some rows →
  putwin p (Some (FileW name written room)) w =
    Some ((write_status (marker :: [version] :: WINDOW_bytes s :: rows) room,
           Some (FileW name
                   (written ++ write_put (marker :: [version] :: WINDOW_bytes s :: rows) room)
                   (room - length (write_put (marker :: [version] :: WINDOW_bytes s :: rows) room)))),
          logged_all (write_log (marker :: [version] :: WINDOW_bytes s :: rows) room) w) ∧
  length (WINDOW_bytes s) = sizeof_WINDOW ∧
  Forall (λ r, length r = size_mul (_maxx s) sizeof_chtype) rows ∧
  length rows = length (lines_to_write (take (Z.to_nat (_maxy s)) ys)) ∧
  (write_status (marker :: [version] :: WINDOW_bytes s :: rows) room = OK ↔
     Forall (λ c, 0 < length c) (marker :: [version] :: WINDOW_bytes s :: rows) ∧
     length (concat (marker :: [version] :: WINDOW_bytes s :: rows)) ≤ room) ∧
  (write_status (marker :: [version] :: WINDOW_bytes s :: rows) room = OK →
     write_put (marker :: [version] :: WINDOW_bytes s :: rows) room =
     marker ++ [version] ++ WINDOW_bytes s ++ concat rows) ∧
  (∃ n,
     write_log (marker :: [version] :: WINDOW_bytes s :: rows) room =
       map (λ c, EvFwrite (length c) 1)
           (take n (marker :: [version] :: WINDOW_bytes s :: rows)) ++
       match (marker :: [version] :: WINDOW_bytes s :: rows) !! n with
       | Some c => [EvFwrite (length c) 0]
       | None => []
       end ∧
     (write_status (marker :: [version] :: WINDOW_bytes s :: rows) room = OK ↔
        length (marker :: [version] :: WINDOW_bytes s :: rows) ≤ n)).
Proof.
  intros Hp Hy Hlen Hrows.
  destruct (line_bytes_sizes _ _ _ _ Hrows) as [Hsz Hn].
  split; [by apply (putwin_run w p s ys rows)|].
  split; [apply WINDOW_bytes_length|].
  split; [done|]. split; [done|].
  split; [apply write_status_OK|].
  split; [|apply write_log_shape].
  intros Hok. rewrite (write_put_all _ _ Hok). cbn [concat]. done.
Qed.

(** [putwin] returns for every window that is there with its lines, on
    every stream. *)
Lemma putwin_returns w p s ys rows filep :
  heap w !! p = Some (BWindow s) →
  heap w !! _y s = Some (BLines ys) →
  Z.to_nat (_maxy s) ≤ length ys →
  mapM (line_bytes (heap w) (size_mul (_maxx s) sizeof_chtype))
       (lines_to_write (take (Z.to_nat (_maxy s)) ys)) = Some rows →
  is_Some (putwin p filep w).
Proof.
  intros Hp Hy Hlen Hrows. destruct filep as [[u|name written room]|].
  - by eexists.
  - rewrite (putwin_run w p s ys rows) by done. by eexists.
  - by eexists.
Qed.

(** With a stream that takes the marker and the version, [putwin] reads
    the struct through its window argument, null or not. *)
Lemma putwin_reads_window w p name written room :
  4 ≤ room → heap w !! p = None →
  putwin p (Some (FileW name written room)) w = None.
Proof.
  intros Hroom Hp. unfold putwin.
  unfold bind at 1. unfold fwrite at 1. unfold bind at 1, emit, ret.
  rewrite decide_False by (rewrite decide_True by (cbn; lia); done).
  unfold bind at 1. unfold fwrite at 1. unfold bind at 1, emit, ret.
  rewrite decide_False
    by (rewrite decide_True by (rewrite length_take; cbn; lia); done).
  unfold bind at 1. unfold load_win. cbn [heap logged]. by rewrite Hp.
Qed.

End PutwinClaims.

(** ** Windows in the heap *)

Lemma steps_refl D w : steps D w w.
Proof. split; try done. by exists []; rewrite app_nil_r. Qed.

Lemma steps_trans D w1 w2 w3 : steps D w1 w2 → steps D w2 w3 → steps D w1 w3.
Proof.
  intros [F1 D1 C1 [e1 T1] N1] [F2 D2 C2 [e2 T2] N2]. split.
  - intros a Ha. rewrite F2, F1; done.
  - congruence.
  - congruence.
  - exists (e1 ++ e2). rewrite T2, T1. by rewrite app_assoc.
  - lia.
Qed.

Lemma steps_logged D e w : steps D w (logged e w).
Proof. split; cbn; first [done | lia | by exists [e]]. Qed.

Lemma steps_counted D w : steps D w (counted w).
Proof. split; cbn; first [done | lia | by exists []; rewrite app_nil_r]. Qed.

Lemma steps_insert D p b w : p ∉ D → steps D w (with_heap (<[p := b]> (heap w)) w).
Proof.
  intros Hp. split; cbn; try done.
  - intros a Ha. apply lookup_insert_ne. intros ->. done.
  - by exists []; rewrite app_nil_r.
Qed.

Lemma steps_delete D p w : p ∉ D → steps D w (with_heap (delete p (heap w)) w).
Proof.
  intros Hp. split; cbn; try done.
  - intros a Ha. apply lookup_delete_ne. intros ->. done.
  - by exists []; rewrite app_nil_r.
Qed.

(** [steps] between a world and one obtained from it by inserting and
    deleting blocks outside [D], counting and logging. *)
Ltac steps_tac :=
  split; cbn;
  [ let a := fresh "a" in let Ha := fresh "Ha" in
    intros a Ha;
    repeat first [ rewrite lookup_insert_ne by congruence
                 | rewrite lookup_delete_ne by congruence ];
    reflexivity
  | reflexivity
  | reflexivity
  | first [ by exists []; rewrite app_nil_r
          | eexists; rewrite <- ?app_assoc; reflexivity ]
  | lia ].

Section Release.
Context {abi : ABI} {env : Env}.

Lemma wp_free_lines d D k : ∀ j y ys w (Q : unit → world → Prop),
  heap w !! y = Some (BLines ys) →
  j + k ≤ length ys →
  NoDup (take k (drop j ys)) →
  Forall (λ a, a ≠ NULL ∧ (a ∉ D) ∧ (∃ r, heap w !! a = Some (BCells r)))
         (take k (drop j ys)) →
  (∀ w', steps D w w' →
         (∀ a, a ∉ take k (drop j ys) → heap w' !! a = heap w !! a) → Q tt w') →
  wp d (free_lines k y j) Q w.
Proof.
  induction k as [|k IH]; intros j y ys w Q Hy Hlen Hnd Hall HQ.
  - apply wp_ret. apply HQ; [apply steps_refl | done].
  - destruct (lookup_lt_is_Some_2 ys j) as [a Ha]; [lia|].
    rewrite (drop_S _ _ _ Ha) in *. cbn [take] in *.
    pose proof (NoDup_cons_1_1 _ _ Hnd) as Hna. apply NoDup_cons_1_2 in Hnd.
    apply Forall_cons_1 in Hall as [(Hnn & HaD & r & Hr) Hall].
    cbn [free_lines]. apply wp_bind.
    eapply wp_load_line; [done| |intros; lia].
    intros a' Ha'. assert (a' = a) as -> by congruence.
    apply wp_bind. eapply wp_free; [done..|].
    assert (Hya : y ≠ a) by congruence.
    eapply (IH (S j) y ys); wsimpl.
    + by rewrite lookup_delete_ne.
    + lia.
    + done.
    + rewrite Forall_forall in Hall |- *. intros x Hx.
      destruct (Hall x Hx) as (? & ? & r' & Hr'). repeat split; try done.
      exists r'. rewrite lookup_delete_ne; [done|]. intros ->. done.
    + intros w' Hst Hsame. apply HQ.
      * eapply steps_trans; [|exact Hst]. steps_tac.
      * intros x Hx. rewrite Hsame; wsimpl.
        -- apply lookup_delete_ne. intros ->. apply Hx. left.
        -- intros Hin. apply Hx. by right.
Qed.

Lemma wp_release_arrays d D win s tail fs ls w (Q : unit → world → Prop) :
  owned D (heap w) win s [] tail [] fs ls →
  (∀ w', steps D w w' → Q tt w') →
  wp d (release_arrays win s) Q w.
Proof.
  intros [Hdom Hwin Hy Hfc Hlc _ _ Hfresh Hne] HQ.
  apply Forall_cons_1 in Hfresh as [[? ?] Hfresh].
  apply Forall_cons_1 in Hfresh as [[? ?] Hfresh].
  apply Forall_cons_1 in Hfresh as [[? ?] Hfresh].
  apply Forall_cons_1 in Hfresh as [[? ?] Hfresh].
  unfold release_arrays.
  apply wp_bind. eapply wp_free; [done..|].
  apply wp_bind. eapply wp_free; [done| |]; wsimpl.
  { by rewrite lookup_delete_ne. }
  apply wp_bind. eapply wp_free; [done| |]; wsimpl.
  { rewrite !lookup_delete_ne by congruence. done. }
  eapply wp_free; [done| |]; wsimpl.
  { rewrite !lookup_delete_ne by congruence. done. }
  apply HQ. steps_tac.
Qed.

Lemma owned_line D h win s ptrs tail rows fs ls a :
  owned D h win s ptrs tail rows fs ls → a ∈ ptrs →
  ∃ r, h !! a = Some (BCells r).
Proof.
  intros Ho Ha. apply list_elem_of_lookup in Ha as [i Hi].
  destruct (Forall2_lookup_l _ _ _ _ _ (ow_rows _ _ _ _ _ _ _ _ _ Ho) Hi) as (r & _ & Hr).
  by exists r.
Qed.

Lemma owned_fresh_line D h win s ptrs tail rows fs ls a :
  owned D h win s ptrs tail rows fs ls → a ∈ ptrs → a ≠ NULL ∧ a ∉ D.
Proof.
  intros Ho Ha. pose proof (ow_fresh _ _ _ _ _ _ _ _ _ Ho) as Hf.
  rewrite Forall_forall in Hf. apply Hf. by do 4 right.
Qed.

(** Releasing a window: its lines, then its arrays and the struct. *)
Lemma wp_release {A} d D win s ptrs tail rows fs ls w (K : M A) (Q : A → world → Prop) :
  owned D (heap w) win s ptrs tail rows fs ls →
  (∀ w', steps D w w' → wp d K Q w') →
  wp d (let! _ := free_lines (length ptrs) (_y s) 0 in
        let! _ := release_arrays win s in K) Q w.
Proof.
  intros Ho HQ. apply wp_bind.
  assert (Htk : take (length ptrs) (drop 0 (ptrs ++ tail)) = ptrs).
  { by rewrite drop_0, take_app_length. }
  eapply (wp_free_lines d D); [apply (ow_y _ _ _ _ _ _ _ _ _ Ho)| | | |].
  - rewrite length_app. lia.
  - rewrite Htk. apply (ow_nodup _ _ _ _ _ _ _ _ _ Ho).
  - rewrite Htk. apply Forall_forall. intros a Ha.
    destruct (owned_fresh_line _ _ _ _ _ _ _ _ _ _ Ho Ha).
    destruct (owned_line _ _ _ _ _ _ _ _ _ _ Ho Ha). eauto.
  - rewrite Htk. intros w' Hst Hsame.
    assert (Hother : ∀ a b, heap w !! a = Some b →
              (∀ r, b ≠ BCells r) → heap w' !! a = Some b).
    { intros a b Hab Hb. rewrite Hsame; [done|]. intros Hin.
      destruct (owned_line _ _ _ _ _ _ _ _ _ _ Ho Hin) as [r Hr].
      apply (Hb r). congruence. }
    destruct Ho as [Hdom Hwin Hy Hfc Hlc _ _ Hfresh Hne].
    apply wp_bind.
    eapply (wp_release_arrays d D win s (ptrs ++ tail) fs ls).
    + split.
      * intros a Ha. rewrite (st_frame _ _ _ Hst a Ha). by apply Hdom.
      * by apply Hother.
      * by apply Hother.
      * by apply Hother.
      * by apply Hother.
      * constructor.
      * constructor.
      * repeat (apply Forall_cons_1 in Hfresh as [? Hfresh]).
        repeat (constructor; [done|]). constructor.
      * done.
    + intros w'' Hst'. apply HQ. by eapply steps_trans.
Qed.

End Release.

Section Owned.

Lemma rows_frame (h h' : gmap addr block) ptrs rows :
  Forall2 (λ a r, h !! a = Some (BCells r)) ptrs rows →
  (∀ a, a ∈ ptrs → h' !! a = h !! a) →
  Forall2 (λ a r, h' !! a = Some (BCells r)) ptrs rows.
Proof.
  induction 1 as [|a r ptrs rows Ha _ IH]; intros Hsame; constructor.
  - rewrite Hsame; [done | left].
  - apply IH. intros b Hb. apply Hsame. by right.
Qed.

Lemma owned_new_line D h win s ptrs t tail rows fs ls p r :
  owned D h win s ptrs (t :: tail) rows fs ls →
  h !! p = None → p ≠ NULL →
  owned D (<[_y s := BLines (<[length ptrs := p]> (ptrs ++ t :: tail))]>
             (<[p := BCells r]> h))
        win s (ptrs ++ [p]) tail (rows ++ [r]) fs ls.
Proof.
  intros Ho Hp Hnn.
  assert (Hline : ∀ a, a ∈ ptrs → a ≠ p ∧ a ≠ _y s).
  { intros a Ha. destruct (owned_line _ _ _ _ _ _ _ _ _ _ Ho Ha) as [r' Hr'].
    pose proof (ow_y _ _ _ _ _ _ _ _ _ Ho). split; congruence. }
  destruct Ho as [Hdom Hwin Hy Hfc Hlc Hrows Hnd Hfresh Hne].
  assert (HpD : p ∉ D).
  { intros HD. destruct (Hdom p HD) as [b Hb]. congruence. }
  split.
  - intros a Ha. rewrite !lookup_insert_is_Some'. right. right. by apply Hdom.
  - rewrite !lookup_insert_ne by congruence. done.
  - rewrite lookup_insert_eq. f_equal. f_equal.
    rewrite insert_app_r_alt by lia. rewrite Nat.sub_diag. cbn.
    by rewrite <- app_assoc.
  - rewrite !lookup_insert_ne by congruence. done.
  - rewrite !lookup_insert_ne by congruence. done.
  - apply Forall2_app.
    + eapply rows_frame; [exact Hrows|]. intros a Ha.
      destruct (Hline a Ha). by rewrite !lookup_insert_ne.
    + constructor; [|constructor].
      rewrite lookup_insert_ne by congruence. by rewrite lookup_insert_eq.
  - apply NoDup_app. split; [done|]. split; [|apply NoDup_singleton].
    intros a Ha Hin. apply list_elem_of_singleton in Hin. by destruct (Hline a Ha).
  - rewrite !app_comm_cons. apply Forall_app. split; [done|].
    constructor; [done | constructor].
  - done.
Qed.

Lemma owned_store_row D h win s ptrs tail pre r todo fs ls a r' :
  owned D h win s ptrs tail (pre ++ r :: todo) fs ls →
  ptrs !! length pre = Some a →
  owned D (<[a := BCells r']> h) win s ptrs tail (pre ++ r' :: todo) fs ls.
Proof.
  intros Ho Ha.
  destruct (owned_line _ _ _ _ _ _ _ _ _ _ Ho (list_elem_of_lookup_2 _ _ _ Ha))
    as [r0 Hr0].
  destruct Ho as [Hdom Hwin Hy Hfc Hlc Hrows Hnd Hfresh Hne].
  split; try done.
  - intros b Hb. rewrite lookup_insert_is_Some'. right. by apply Hdom.
  - rewrite lookup_insert_ne by congruence. done.
  - rewrite lookup_insert_ne by congruence. done.
  - rewrite lookup_insert_ne by congruence. done.
  - rewrite lookup_insert_ne by congruence. done.
  - apply Forall2_same_length_lookup. split.
    + apply Forall2_length in Hrows. rewrite Hrows, !length_app. done.
    + intros i b q Hb Hq.
      destruct (decide (i = length pre)) as [->|Hi].
      * assert (b = a) as -> by congruence.
        rewrite list_lookup_middle in Hq by done. injection Hq as <-.
        by rewrite lookup_insert_eq.
      * assert (Hq' : (pre ++ r :: todo) !! i = Some q).
        { destruct (decide (i < length pre)).
          - rewrite lookup_app_l in Hq |- * by done. done.
          - rewrite lookup_app_r in Hq |- * by lia.
            destruct (i - length pre) as [|m] eqn:E; [lia|]. done. }
        rewrite lookup_insert_ne.
        -- apply (Forall2_lookup_lr _ _ _ _ _ _ Hrows Hb Hq').
        -- intros <-. apply Hi. by eapply NoDup_lookup.
Qed.

Lemma owned_store_firstch D h win s ptrs tail rows fs ls fs' :
  owned D h win s ptrs tail rows fs ls →
  owned D (<[_firstch s := BInts fs']> h) win s ptrs tail rows fs' ls.
Proof.
  intros Ho.
  assert (Hline : ∀ a, a ∈ ptrs → a ≠ _firstch s).
  { intros a Ha. destruct (owned_line _ _ _ _ _ _ _ _ _ _ Ho Ha) as [r' Hr'].
    pose proof (ow_fc _ _ _ _ _ _ _ _ _ Ho). congruence. }
  destruct Ho as [Hdom Hwin Hy Hfc Hlc Hrows Hnd Hfresh Hne].
  split; try done.
  - intros b Hb. rewrite lookup_insert_is_Some'. right. by apply Hdom.
  - rewrite lookup_insert_ne by congruence. done.
  - rewrite lookup_insert_ne by congruence. done.
  - by rewrite lookup_insert_eq.
  - rewrite lookup_insert_ne by congruence. done.
  - eapply rows_frame; [exact Hrows|]. intros a Ha.
    rewrite lookup_insert_ne; [done|]. intros <-. by apply (Hline _ Ha).
Qed.

Lemma owned_store_lastch D h win s ptrs tail rows fs ls ls' :
  owned D h win s ptrs tail rows fs ls →
  owned D (<[_lastch s := BInts ls']> h) win s ptrs tail rows fs ls'.
Proof.
  intros Ho.
  assert (Hline : ∀ a, a ∈ ptrs → a ≠ _lastch s).
  { intros a Ha. destruct (owned_line _ _ _ _ _ _ _ _ _ _ Ho Ha) as [r' Hr'].
    pose proof (ow_lc _ _ _ _ _ _ _ _ _ Ho). congruence. }
  destruct Ho as [Hdom Hwin Hy Hfc Hlc Hrows Hnd Hfresh Hne].
  split; try done.
  - intros b Hb. rewrite lookup_insert_is_Some'. right. by apply Hdom.
  - rewrite lookup_insert_ne by congruence. done.
  - rewrite lookup_insert_ne by congruence. done.
  - rewrite lookup_insert_ne by congruence. done.
  - by rewrite lookup_insert_eq.
  - eapply rows_frame; [exact Hrows|]. intros a Ha.
    rewrite lookup_insert_ne; [done|]. intros <-. by apply (Hline _ Ha).
Qed.

(** Changes to other people's blocks leave an owned window as it is. *)
Lemma owned_foreign D h h' win s ptrs tail rows fs ls :
  owned D h win s ptrs tail rows fs ls →
  (∀ a, a ∉ D → h' !! a = h !! a) →
  (∀ a, a ∈ D → is_Some (h' !! a)) →
  owned D h' win s ptrs tail rows fs ls.
Proof.
  intros Ho Hsame Hdom'.
  assert (Hline : ∀ a, a ∈ ptrs → a ∉ D).
  { intros a Ha. by destruct (owned_fresh_line _ _ _ _ _ _ _ _ _ _ Ho Ha). }
  destruct Ho as [Hdom Hwin Hy Hfc Hlc Hrows Hnd Hfresh Hne].
  pose proof Hfresh as Hf.
  repeat (apply Forall_cons_1 in Hf as [[? ?] Hf]).
  split; try done; try (rewrite Hsame; done).
  eapply rows_frame; [exact Hrows|]. intros a Ha. apply Hsame. by apply Hline.
Qed.

End Owned.

Section Build.
Context {abi : ABI} {env : Env}.

Lemma wp_makelines d D k :
  ∀ (win : addr) s ptrs tail rows fs ls w (Q : addr → world → Prop),
  owned D (heap w) win s ptrs tail rows fs ls →
  (length tail < k → d) →
  (∀ w', steps D w w' →
         (∃ j, j < k ∧ malloc_ok (nmalloc w + j) (row_size s) = false) →
         Q NULL w') →
  (∀ w' new,
     steps D w w' →
     owned D (heap w') win s (ptrs ++ new) (drop k tail)
           (rows ++ replicate k (blank_row s)) fs ls →
     length new = k →
     nmalloc w' = nmalloc w + k →
     (∀ j, j < k → malloc_ok (nmalloc w + j) (row_size s) = true) →
     trace w' = trace w ++ (EvMalloc (row_size s) <$> new) →
     Q win w') →
  wp d (makelines_from k win s (length ptrs)) Q w.
Proof.
  induction k as [|k IH]; intros win s ptrs tail rows fs ls w Q Ho Hd Hfail Hok.
  - apply wp_ret. apply (Hok w []).
    + apply steps_refl.
    + by rewrite !app_nil_r, drop_0.
    + done.
    + lia.
    + intros; lia.
    + by rewrite app_nil_r.
  - cbn [makelines_from]. apply wp_bind. apply wp_malloc.
    + intros Hgrant p Hnn Hp. rewrite decide_False by done.
      apply wp_bind.
      assert (Hyp : _y s ≠ p).
      { pose proof (ow_y _ _ _ _ _ _ _ _ _ Ho). congruence. }
      eapply wp_store_line; wsimpl.
      { rewrite lookup_insert_ne by done. apply (ow_y _ _ _ _ _ _ _ _ _ Ho). }
      2: { rewrite length_app. intros Hle. apply Hd. lia. }
      rewrite length_app. intros Hlt.
      destruct tail as [|t tail]; [cbn in Hlt; lia|].
      pose proof (owned_new_line _ _ _ _ _ _ _ _ _ _ p (blank_row s) Ho Hp Hnn) as Ho'.
      assert (HpD : p ∉ D).
      { intros HD. destruct (ow_dom _ _ _ _ _ _ _ _ _ Ho p HD). congruence. }
      assert (HyD : _y s ∉ D).
      { pose proof (ow_fresh _ _ _ _ _ _ _ _ _ Ho) as Hf.
        apply Forall_cons_1 in Hf as [_ Hf]. by apply Forall_cons_1 in Hf as [[_ ?] _]. }
      replace (S (length ptrs)) with (length (ptrs ++ [p]))
        by (rewrite length_app; cbn; lia).
      eapply IH.
      * exact Ho'.
      * intros Hlt'. apply Hd. cbn. lia.
      * intros w' Hst [j [Hj Hm]]. apply Hfail.
        -- eapply steps_trans; [|exact Hst]. steps_tac.
        -- exists (S j). split; [lia|]. wsimpl.
           by replace (nmalloc w + S j) with (S (nmalloc w) + j) by lia.
      * intros w' new Hst Hown Hlen Hcnt Hall Htr. apply (Hok w' (p :: new)).
        -- eapply steps_trans; [|exact Hst]. steps_tac.
        -- cbn [drop replicate].
           rewrite <- !app_assoc in Hown. exact Hown.
        -- cbn. lia.
        -- wsimpl. lia.
        -- intros [|j] Hj.
           ++ by rewrite Nat.add_0_r.
           ++ wsimpl. replace (nmalloc w + S j) with (S (nmalloc w) + j) by lia.
              apply Hall. lia.
        -- wsimpl. rewrite Htr. rewrite <- app_assoc. done.
    + intros Hdeny. rewrite decide_True by done.
      eapply wp_release; [exact Ho|].
      intros w' Hst. apply wp_ret. apply Hfail.
      * eapply steps_trans; [|exact Hst]. steps_tac.
      * exists 0. split; [lia|]. by rewrite Nat.add_0_r.
Qed.

Lemma wp_getwin_lines d D k :
  ∀ (win : addr) s ptrs tail pre todo fs ls unread size w
    (Q : bool * FILE → world → Prop),
  owned D (heap w) win s ptrs tail (pre ++ todo) fs ls →
  k ≤ length todo →
  Forall (λ r, length r = size) todo →
  (∀ w' rows' u,
     steps D w w' →
     owned D (heap w') win s ptrs tail rows' fs ls →
     ¬ (k * size ≤ length unread ∧ (0 < k → 0 < size)) →
     Q (false, FileR u) w') →
  (∀ w',
     steps D w w' →
     owned D (heap w') win s ptrs tail
           (pre ++ split_rows k size unread ++ drop k todo) fs ls →
     k * size ≤ length unread → (0 < k → 0 < size) →
     nmalloc w' = nmalloc w →
     trace w' = trace w ++ replicate k (EvFread size 1) →
     Q (true, FileR (drop (k * size) unread)) w') →
  wp d (getwin_lines k (_y s) size (length pre) (FileR unread)) Q w.
Proof.
  induction k as [|k IH];
    intros win s ptrs tail pre todo fs ls unread size w Q Ho Hk Hsz Hfail Hok.
  - apply wp_ret. apply Hok.
    + apply steps_refl.
    + by rewrite drop_0.
    + lia.
    + lia.
    + done.
    + by rewrite app_nil_r.
  - destruct todo as [|r todo]; [cbn in Hk; lia|].
    apply Forall_cons_1 in Hsz as [Hr Hsz].
    pose proof (Forall2_length _ _ _ (ow_rows _ _ _ _ _ _ _ _ _ Ho)) as Hlen.
    rewrite length_app in Hlen. cbn in Hlen.
    destruct (lookup_lt_is_Some_2 ptrs (length pre)) as [a Ha]; [lia|].
    assert (Har : heap w !! a = Some (BCells r)).
    { pose proof (Forall2_lookup_l _ _ _ _ _ (ow_rows _ _ _ _ _ _ _ _ _ Ho) Ha)
        as (r0 & Hr0 & Hh).
      rewrite list_lookup_middle in Hr0 by done. congruence. }
    assert (HaD : a ∉ D).
    { by destruct (owned_fresh_line _ _ _ _ _ _ _ _ _ _ Ho
                     (list_elem_of_lookup_2 _ _ _ Ha)). }
    cbn [getwin_lines]. apply wp_bind.
    eapply wp_load_line; [apply (ow_y _ _ _ _ _ _ _ _ _ Ho)| |].
    2: { rewrite length_app. lia. }
    intros a' Ha'. rewrite lookup_app_l in Ha' by lia.
    assert (a' = a) as -> by congruence.
    apply wp_bind. apply wp_fread. intros items Hitems. cbn beta iota.
    apply wp_bind. eapply wp_store_cells; wsimpl; [exact Har| |].
    { rewrite length_take. lia. }
    pose proof (owned_store_row _ _ _ _ _ _ _ _ _ _ _ _
                  (take size unread ++ drop (length (take size unread)) r) Ho Ha)
      as Ho'.
    destruct (decide (0 < size ∧ size ≤ length unread)) as [[Hpos Hfit]|Hshort];
      subst items.
    + rewrite decide_False by done.
      assert (Hgot : take size unread ++ drop (length (take size unread)) r
                     = take size unread).
      { rewrite length_take, Nat.min_l by done.
        rewrite drop_ge by lia. by rewrite app_nil_r. }
      rewrite Hgot in *.
      replace (S (length pre)) with (length (pre ++ [take size unread]))
        by (rewrite length_app; cbn; lia).
      eapply IH.
      * rewrite <- app_assoc. exact Ho'.
      * cbn in Hk. lia.
      * exact Hsz.
      * intros w' rows' f' Hst Hown Hno. eapply Hfail; [|exact Hown|].
        -- eapply steps_trans; [|exact Hst]. steps_tac.
        -- intros [Hall _]. apply Hno. rewrite length_drop. split; [lia|done].
      * intros w' Hst Hown Hall Hp Hcnt Htr.
        rewrite length_drop in Hall.
        replace (drop (k * size) (drop size unread))
          with (drop (S k * size) unread)
          by (rewrite drop_drop; f_equal; lia).
        apply Hok.
        -- eapply steps_trans; [|exact Hst]. steps_tac.
        -- cbn [split_rows drop]. rewrite <- app_assoc in Hown. exact Hown.
        -- lia.
        -- done.
        -- done.
        -- rewrite Htr. wsimpl. by rewrite <- app_assoc.
    + rewrite decide_True by done. apply wp_ret.
      eapply Hfail; [|exact Ho'|].
      * steps_tac.
      * intros [Hall Hp]. apply Hshort. split; [apply Hp; lia | lia].
Qed.

Lemma wp_touch d D k :
  ∀ (win : addr) s ptrs tail rows fpre ftodo lpre ltodo w
    (Q : unit → world → Prop),
  owned D (heap w) win s ptrs tail rows (fpre ++ ftodo) (lpre ++ ltodo) →
  length lpre = length fpre →
  (length ftodo < k ∨ length ltodo < k → d) →
  (∀ w',
     steps D w w' →
     owned D (heap w') win s ptrs tail rows
           (fpre ++ replicate k 0%Z ++ drop k ftodo)
           (lpre ++ replicate k (_maxx s - 1)%Z ++ drop k ltodo) →
     nmalloc w' = nmalloc w → trace w' = trace w →
     Q tt w') →
  wp d (touch_from k s (length fpre)) Q w.
Proof.
  induction k as [|k IH];
    intros win s ptrs tail rows fpre ftodo lpre ltodo w Q Ho Hl Hd HQ.
  - apply wp_ret. apply HQ; [apply steps_refl| |done|done].
    by rewrite !drop_0.
  - cbn [touch_from].
    pose proof (ow_fresh _ _ _ _ _ _ _ _ _ Ho) as Hf.
    apply Forall_cons_1 in Hf as [_ Hf]. apply Forall_cons_1 in Hf as [_ Hf].
    apply Forall_cons_1 in Hf as [[_ HfD] Hf].
    apply Forall_cons_1 in Hf as [[_ HlD] _].
    apply wp_bind. eapply wp_store_int; [apply (ow_fc _ _ _ _ _ _ _ _ _ Ho)| |].
    2: { rewrite length_app. intros Hle. apply Hd. left. lia. }
    rewrite length_app. intros Hlt.
    destruct ftodo as [|f0 ftodo]; [cbn in Hlt; lia|].
    rewrite insert_app_r_alt, Nat.sub_diag by lia. cbn [insert list_insert].
    apply (owned_store_firstch _ _ _ _ _ _ _ _ _ (fpre ++ 0%Z :: ftodo)) in Ho.
    apply wp_bind. eapply wp_store_int; wsimpl; [apply (ow_lc _ _ _ _ _ _ _ _ _ Ho)| |].
    2: { rewrite length_app. intros Hle. apply Hd. right. lia. }
    rewrite length_app. intros Hlt'.
    destruct ltodo as [|l0 ltodo]; [cbn in Hlt'; lia|].
    rewrite insert_app_r_alt, <- Hl, Nat.sub_diag by lia. cbn [insert list_insert].
    apply (owned_store_lastch _ _ _ _ _ _ _ _ _
             (lpre ++ (_maxx s - 1)%Z :: ltodo)) in Ho.
    rewrite Hl.
    replace (S (length fpre)) with (length (fpre ++ [0%Z]))
      by (rewrite length_app; cbn; lia).
    eapply (IH win s ptrs tail rows (fpre ++ [0%Z]) ftodo
               (lpre ++ [(_maxx s - 1)%Z]) ltodo).
    + rewrite <- !app_assoc. exact Ho.
    + rewrite !length_app. cbn. lia.
    + intros Hc. apply Hd. cbn. lia.
    + intros w' Hst Hown Hcnt Htr. apply HQ.
      * eapply steps_trans; [|exact Hst]. steps_tac.
      * rewrite <- !app_assoc in Hown. exact Hown.
      * done.
      * done.
Qed.

End Build.

(** ** getwin *)

Section Getwin.
Context {abi : ABI} {env : Env}.

Lemma wp_getwin_build d D win s0 unread w (Q : addr * option FILE → world → Prop) :
  (∀ a, a ∈ D → is_Some (heap w !! a)) →
  heap w !! win = Some (BWindow s0) → win ≠ NULL → win ∉ D →
  (¬ arrays_fit s0 → d) →
  (∀ w' u,
     steps D w w' →
     ¬ (granted (nmalloc w) (build_requests s0) ∧ body_ok s0 unread) →
     Q (NULL, Some (FileR u)) w') →
  (∀ w' y fc lc ptrs ytail ftail ltail,
     steps D w w' →
     owned D (heap w') win (with_lastch lc (with_firstch fc (with_y y s0)))
           ptrs ytail (split_rows (nlines s0) (row_size s0) unread)
           (replicate (nlines s0) 0%Z ++ ftail)
           (replicate (nlines s0) (_maxx s0 - 1)%Z ++ ltail) →
     length ptrs = nlines s0 →
     granted (nmalloc w) (build_requests s0) → body_ok s0 unread →
     nmalloc w' = nmalloc w + 3 + nlines s0 →
     trace w' = trace w ++
       [EvMalloc (size_mul (_maxy s0) sizeof_ptr) y;
        EvMalloc (size_mul (_maxy s0) sizeof_int) fc;
        EvMalloc (size_mul (_maxy s0) sizeof_int) lc] ++
       (EvMalloc (row_size s0) <$> ptrs) ++
       replicate (nlines s0) (EvFread (row_size s0) 1) →
     Q (win, Some (FileR (drop (nlines s0 * row_size s0) unread))) w') →
  wp d (getwin_build win (FileR unread)) Q w.
Proof.
  intros Hdom Hwin Hnn HwD Hd Hfail Hok.
  assert (Hnot0 : ∀ j size, build_requests s0 !! j = Some size →
            malloc_ok (nmalloc w + j) size = false →
            ¬ (granted (nmalloc w) (build_requests s0) ∧ body_ok s0 unread)).
  { intros j size Hj Hm [Hg _]. rewrite (Hg j size Hj) in Hm. done. }
  unfold getwin_build. apply wp_bind. eapply wp_load_win; [exact Hwin|].
  (* the line pointer array *)
  apply wp_bind. apply wp_malloc.
  2: { intros Hdeny. apply wp_bind. eapply wp_store_win; wsimpl; [exact Hwin|].
       rewrite decide_True by done.
       apply wp_bind. eapply wp_free; wsimpl; [done|by rewrite lookup_insert_eq|].
       apply wp_ret. apply Hfail; [steps_tac|].
       apply (Hnot0 0 _ eq_refl). by rewrite Nat.add_0_r. }
  intros Hg0 y Hynn Hy.
  apply wp_bind. eapply wp_store_win; wsimpl.
  { rewrite lookup_insert_ne by congruence. exact Hwin. }
  rewrite decide_False by done.
  assert (HyD : y ∉ D). { intros HD. destruct (Hdom y HD). congruence. }
  (* the minchng and maxchng arrays *)
  apply wp_bind. apply wp_malloc; wsimpl.
  2: { intros Hdeny. apply wp_bind. eapply wp_store_win; wsimpl.
       { by rewrite lookup_insert_eq. }
       rewrite decide_True by done.
       apply wp_bind. eapply wp_free; wsimpl; [exact Hynn| |].
       { rewrite !lookup_insert_ne by congruence. by rewrite lookup_insert_eq. }
       apply wp_bind. eapply wp_free; wsimpl; [exact Hnn| |].
       { rewrite lookup_delete_ne by congruence. by rewrite lookup_insert_eq. }
       apply wp_ret. apply Hfail; [steps_tac|].
       apply (Hnot0 1 _ eq_refl). by rewrite Nat.add_1_r. }
  intros Hg1 fc Hfnn Hfc.
  repeat (apply lookup_insert_None in Hfc as [Hfc ?]).
  assert (HfD : fc ∉ D). { intros HD. destruct (Hdom fc HD). congruence. }
  apply wp_bind. eapply wp_store_win; wsimpl.
  { rewrite lookup_insert_ne by congruence. by rewrite lookup_insert_eq. }
  rewrite decide_False by done.
  apply wp_bind. apply wp_malloc; wsimpl.
  2: { intros Hdeny. apply wp_bind. eapply wp_store_win; wsimpl.
       { by rewrite lookup_insert_eq. }
       rewrite decide_True by done.
       apply wp_bind. eapply wp_free; wsimpl; [exact Hfnn| |].
       { rewrite !lookup_insert_ne by congruence. by rewrite lookup_insert_eq. }
       apply wp_bind. eapply wp_free; wsimpl; [exact Hynn| |].
       { rewrite lookup_delete_ne by congruence.
         rewrite !lookup_insert_ne by congruence. by rewrite lookup_insert_eq. }
       apply wp_bind. eapply wp_free; wsimpl; [exact Hnn| |].
       { rewrite !lookup_delete_ne by congruence. by rewrite lookup_insert_eq. }
       apply wp_ret. apply Hfail; [steps_tac|].
       apply (Hnot0 2 _ eq_refl). by replace (nmalloc w + 2) with (S (S (nmalloc w))) by lia. }
  intros Hg2 lc Hlnn Hlc.
  repeat (apply lookup_insert_None in Hlc as [Hlc ?]).
  assert (HlD : lc ∉ D). { intros HD. destruct (Hdom lc HD). congruence. }
  apply wp_bind. eapply wp_store_win; wsimpl.
  { rewrite lookup_insert_ne by congruence. by rewrite lookup_insert_eq. }
  rewrite decide_False by done.
  set (s3 := with_lastch lc (with_firstch fc (with_y y s0))).
  match goal with |- wp _ _ _ ?W => set (w3 := W) end.
  assert (Hst3 : steps D w w3) by (subst w3; steps_tac).
  assert (Hcnt3 : nmalloc w3 = nmalloc w + 3) by (subst w3; cbn; lia).
  assert (Htr3 : trace w3 = trace w ++
            [EvMalloc (size_mul (_maxy s0) sizeof_ptr) y;
             EvMalloc (size_mul (_maxy s0) sizeof_int) fc;
             EvMalloc (size_mul (_maxy s0) sizeof_int) lc])
    by (subst w3; cbn; by rewrite <- !app_assoc).
  assert (Hown3 : owned D (heap w3) win s3 [] (replicate (lines_cap s0) NULL) []
                        (replicate (ints_cap s0) 0%Z) (replicate (ints_cap s0) 0%Z)).
  { subst w3 s3. split; wsimpl.
    - intros a Ha. rewrite !lookup_insert_is_Some'. do 6 right. by apply Hdom.
    - by rewrite lookup_insert_eq.
    - rewrite !lookup_insert_ne by congruence. by rewrite lookup_insert_eq.
    - rewrite !lookup_insert_ne by congruence. by rewrite lookup_insert_eq.
    - rewrite !lookup_insert_ne by congruence. by rewrite lookup_insert_eq.
    - constructor.
    - constructor.
    - repeat (constructor; [done|]). constructor.
    - done. }
  clearbody w3.
  (* the lines *)
  apply wp_bind. unfold PDC_makelines. rewrite decide_False by done.
  apply wp_bind. eapply wp_load_win; [apply (ow_win _ _ _ _ _ _ _ _ _ Hown3)|].
  apply (wp_makelines d D (Z.to_nat (_maxy s3)) win s3 [] _ _ _ _ w3 _ Hown3).
  { rewrite length_replicate. intros Hlt. apply Hd. intros [Hfit _].
    unfold nlines in Hfit. subst s3. wsimpl. lia. }
  { intros w' Hst [j [Hj Hm]]. rewrite decide_True by done. apply wp_ret.
    apply Hfail; [by eapply steps_trans|].
    apply (Hnot0 (3 + j) (row_size s0)).
    - unfold build_requests. rewrite lookup_app_r by (cbn; lia).
      cbn [length]. replace (3 + j - 3) with j by lia.
      apply lookup_replicate_2. exact Hj.
    - rewrite Hcnt3 in Hm. by replace (nmalloc w + (3 + j)) with (nmalloc w + 3 + j) by lia. }
  intros w4 ptrs Hst4 Hown4 Hlen4 Hcnt4 Hall4 Htr4.
  rewrite decide_False by done.
  apply wp_bind. eapply wp_load_win; [apply (ow_win _ _ _ _ _ _ _ _ _ Hown4)|].
  change (_y s3) with y.
  change (_maxy s3) with (_maxy s0) in *. change (row_size s3) with (row_size s0) in *.
  change (blank_row s3) with (blank_row s0) in *. fold (nlines s0) in *.
  fold (row_size s0). cbn [app] in Hown4.
  assert (Hgr : granted (nmalloc w) (build_requests s0)).
  { intros j size Hj. unfold build_requests in Hj.
    destruct j as [|[|[|j]]]; cbn in Hj.
    - injection Hj as <-. by rewrite Nat.add_0_r.
    - injection Hj as <-. by rewrite Nat.add_1_r.
    - injection Hj as <-. by replace (nmalloc w + 2) with (S (S (nmalloc w))) by lia.
    - apply lookup_replicate in Hj as [-> Hj].
      replace (nmalloc w + S (S (S j))) with (nmalloc w3 + j) by lia.
      by apply Hall4. }
  apply wp_bind.
  apply (wp_getwin_lines d D (nlines s0) win s3 ptrs _ [] (replicate (nlines s0) (blank_row s0))
           _ _ unread (row_size s0) w4 _ Hown4).
  { by rewrite length_replicate. }
  { apply Forall_replicate. apply length_replicate. }
  { (* a line came short *)
    intros w5 rows5 f' Hst5 Hown5 Hshort. cbn beta iota.
    apply wp_bind. unfold delwin. rewrite decide_False by done.
    apply wp_bind. eapply wp_load_win; [apply (ow_win _ _ _ _ _ _ _ _ _ Hown5)|].
    change (_maxy s3) with (_maxy s0). fold (nlines s0). rewrite <- Hlen4.
    eapply wp_release; [exact Hown5|].
    intros w6 Hst6. apply wp_ret. apply wp_ret. apply Hfail.
    - eapply steps_trans; [exact Hst3|]. eapply steps_trans; [exact Hst4|].
      by eapply steps_trans.
    - intros [_ Hbody]. by apply Hshort. }
  intros w5 Hst5 Hown5 Hall5 Hpos5 Hcnt5 Htr5. cbn beta iota.
  cbn [app] in Hown5.
  rewrite (drop_ge (replicate (nlines s0) (blank_row s0))) in Hown5
    by (rewrite length_replicate; lia).
  rewrite app_nil_r in Hown5.
  apply wp_bind. unfold touchwin. rewrite decide_False by done.
  apply wp_bind. eapply wp_load_win; [apply (ow_win _ _ _ _ _ _ _ _ _ Hown5)|].
  change (_maxy s3) with (_maxy s0). fold (nlines s0).
  apply wp_bind.
  apply (wp_touch d D (nlines s0) win s3 ptrs _ _ [] (replicate (ints_cap s0) 0%Z)
           [] (replicate (ints_cap s0) 0%Z) w5 _ Hown5 eq_refl).
  { rewrite !length_replicate. intros Hlt. apply Hd. intros [_ Hfit]. lia. }
  intros w6 Hst6 Hown6 Hcnt6 Htr6. apply wp_ret. apply wp_ret.
  cbn [app] in Hown6. rewrite !drop_replicate in Hown6.
  eapply Hok.
  - eapply steps_trans; [exact Hst3|]. eapply steps_trans; [exact Hst4|].
    by eapply steps_trans.
  - exact Hown6.
  - exact Hlen4.
  - exact Hgr.
  - split; [exact Hall5 | exact Hpos5].
  - lia.
  - rewrite Htr6, Htr5, Htr4, Htr3. by rewrite <- !app_assoc.
Qed.

(** *** The header *)

Lemma to_N_inj (b c : byte) : Byte.to_N b = Byte.to_N c → b = c.
Proof.
  intros H. pose proof (Byte.of_to_N b) as Hb. rewrite H, Byte.of_to_N in Hb.
  congruence.
Qed.

Lemma strncmp_cons c1 s1 c2 s2 n :
  c2 ≠ "000"%byte →
  strncmp (c1 :: s1) (c2 :: s2) (S n) = 0%Z ↔ c1 = c2 ∧ strncmp s1 s2 n = 0%Z.
Proof.
  intros Hc2. cbn. destruct (decide (c1 = c2)) as [->|Hne].
  - rewrite decide_False by done. tauto.
  - split; [|tauto]. intros H. exfalso. apply Hne. apply to_N_inj. lia.
Qed.

Lemma header_check b0 b1 b2 b3 :
  strncmp [b0; b1; b2; b3] marker 3 = 0%Z ∧ char_value b3 = DUMPVER ↔
  [b0; b1; b2; b3] = marker ++ [version].
Proof.
  change marker with ["P"%byte; "D"%byte; "C"%byte]. cbn [app].
  rewrite !strncmp_cons by done. cbn [strncmp].
  unfold char_value, DUMPVER, version. split.
  - intros ((-> & -> & -> & _) & H3). do 3 f_equal.
    f_equal. apply to_N_inj. cbn. lia.
  - intros [= -> -> -> ->]. done.
Qed.

Lemma granted_cons n0 size sizes :
  granted n0 (size :: sizes) ↔ malloc_ok n0 size = true ∧ granted (S n0) sizes.
Proof.
  unfold granted. split.
  - intros H. split.
    + specialize (H 0 size eq_refl). by rewrite Nat.add_0_r in H.
    + intros j sz Hj. specialize (H (S j) sz Hj).
      by replace (n0 + S j) with (S n0 + j) in H by lia.
  - intros [H0 H] [|j] sz Hj.
    + injection Hj as <-. by rewrite Nat.add_0_r.
    + replace (n0 + S j) with (S n0 + j) by lia. by apply H.
Qed.

Lemma wp_getwin d D filep w (Q : addr * option FILE → world → Prop) :
  (∀ a, a ∈ D → is_Some (heap w !! a)) →
  (∀ unread, filep = Some (FileR unread) → ¬ arrays_fit (dump_struct unread) → d) →
  (∀ w' f',
     steps D w w' →
     f' = filep ∨ (∃ u, f' = Some (FileR u)) →
     (∀ unread, filep = Some (FileR unread) → ¬ accepted (nmalloc w) unread) →
     Q (NULL, f') w') →
  (∀ w' unread win y fc lc ptrs ytail ftail ltail,
     let s := dump_struct unread in
     filep = Some (FileR unread) →
     accepted (nmalloc w) unread →
     steps D w w' →
     owned D (heap w') win (with_lastch lc (with_firstch fc (with_y y s)))
           ptrs ytail (split_rows (nlines s) (row_size s) (dump_body unread))
           (replicate (nlines s) 0%Z ++ ftail)
           (replicate (nlines s) (_maxx s - 1)%Z ++ ltail) →
     length ptrs = nlines s →
     nmalloc w' = nmalloc w + 4 + nlines s →
     trace w' = trace w ++
       [EvMalloc sizeof_WINDOW win; EvFread 4 1; EvFread sizeof_WINDOW 1;
        EvMalloc (size_mul (_maxy s) sizeof_ptr) y;
        EvMalloc (size_mul (_maxy s) sizeof_int) fc;
        EvMalloc (size_mul (_maxy s) sizeof_int) lc] ++
       (EvMalloc (row_size s) <$> ptrs) ++
       replicate (nlines s) (EvFread (row_size s) 1) →
     Q (win, Some (FileR (drop (nlines s * row_size s) (dump_body unread)))) w') →
  wp d (getwin filep) Q w.
Proof.
  intros Hdom Hd Hfail Hok.
  unfold getwin. apply wp_bind. apply wp_malloc.
  2: { intros Hdeny. rewrite decide_True by done. apply wp_ret.
       apply Hfail; [steps_tac|by left|]. intros unread _ (_ & _ & Hg & _).
       apply granted_cons in Hg as [Hg _]. congruence. }
  intros Hg0 win Hnn Hwin. rewrite decide_False by done.
  assert (HwD : win ∉ D). { intros HD. destruct (Hdom win HD). congruence. }
  destruct filep as [[unread|name written room]|].
  3: { apply wp_bind. eapply wp_free; wsimpl; [done|by rewrite lookup_insert_eq|].
       apply wp_ret. apply Hfail; [steps_tac|by left|]. intros unread [=]. }
  2: { apply wp_bind. unfold fread. apply wp_bind. apply wp_of_run with (a := tt)
         (w' := logged (EvFread 4 0) (logged (EvMalloc sizeof_WINDOW win)
                  (counted (with_heap (<[win := BWindow WINDOW_fresh]> (heap w)) w))));
         [done|].
       apply wp_ret. cbn beta iota. rewrite decide_True by done.
       apply wp_bind. eapply wp_free; wsimpl; [done|by rewrite lookup_insert_eq|].
       apply wp_ret. apply Hfail; [steps_tac|by left|]. intros unread [=]. }
  specialize (Hd unread eq_refl).
  assert (Hfail' : ∀ w' u, steps D w w' → ¬ accepted (nmalloc w) unread →
            Q (NULL, Some (FileR u)) w').
  { intros w' u Hst Hno. apply Hfail; [done|right; eauto|]. by intros ? [= <-]. }
  clear Hfail.
  (* the marker and the version *)
  apply wp_bind. apply wp_fread. intros items Hitems. cbn beta iota.
  assert (Hreject : ∀ u, ¬ accepted (nmalloc w) unread →
    wp d (let! _ := free win in ret (NULL, Some (FileR u))) Q
       (logged (EvFread 4 items) (logged (EvMalloc sizeof_WINDOW win)
          (counted (with_heap (<[win := BWindow WINDOW_fresh]> (heap w)) w))))).
  { intros f' Hno. apply wp_bind.
    eapply wp_free; wsimpl; [done|by rewrite lookup_insert_eq|].
    apply wp_ret. apply Hfail'; [steps_tac|done]. }
  destruct (decide (0 < 4 ∧ 4 ≤ length unread)) as [[_ Hlen4]|Hshort]; subst items.
  2: { rewrite decide_True by done. apply Hreject.
       intros (_ & Hl & _). apply Hshort. lia. }
  rewrite decide_False by done.
  destruct unread as [|b0 [|b1 [|b2 [|b3 rest]]]]; try (cbn in Hlen4; lia).
  cbn [firstn skipn nth]. rewrite ?take_0, ?drop_0.
  destruct (decide (strncmp [b0; b1; b2; b3] marker 3 ≠ 0%Z)) as [Hm|Hm].
  { apply Hreject. intros (Hh & _). unfold header_ok in Hh. cbn [firstn] in Hh.
    apply header_check in Hh as [? _]. done. }
  destruct (decide (char_value b3 ≠ DUMPVER)) as [Hv|Hv].
  { apply Hreject. intros (Hh & _). unfold header_ok in Hh. cbn [firstn] in Hh.
    apply header_check in Hh as [_ ?]. done. }
  assert (Hhead : header_ok (b0 :: b1 :: b2 :: b3 :: rest)).
  { unfold header_ok. cbn [firstn]. apply header_check.
    split; [by destruct (decide (strncmp [b0; b1; b2; b3] marker 3 = 0%Z)); [|exfalso; auto]
           |by destruct (decide (char_value b3 = DUMPVER)); [|exfalso; auto]]. }
  (* the WINDOW struct *)
  apply wp_bind. apply wp_fread. intros items Hitems. cbn beta iota.
  destruct (decide (0 < sizeof_WINDOW ∧ sizeof_WINDOW ≤ length rest))
    as [[_ Hlen]|Hshort]; subst items.
  2: { rewrite decide_True by done. apply wp_bind.
       eapply wp_free; wsimpl; [done|by rewrite lookup_insert_eq|].
       apply wp_ret. apply Hfail'; [steps_tac|].
       intros (_ & Hl & _). apply Hshort. pose proof sizeof_WINDOW_pos.
       cbn in Hl. lia. }
  rewrite decide_False by done.
  apply wp_bind. eapply wp_store_win; wsimpl; [by rewrite lookup_insert_eq|].
  change (take sizeof_WINDOW rest) with (take sizeof_WINDOW (drop 4 (b0 :: b1 :: b2 :: b3 :: rest))).
  change (drop sizeof_WINDOW rest) with (dump_body (b0 :: b1 :: b2 :: b3 :: rest)).
  fold (dump_struct (b0 :: b1 :: b2 :: b3 :: rest)).
  set (unread := b0 :: b1 :: b2 :: b3 :: rest) in *.
  match goal with |- wp _ _ _ ?W => set (w1 := W) end.
  assert (Hst1 : steps D w w1) by (subst w1; steps_tac).
  assert (Hcnt1 : nmalloc w1 = S (nmalloc w)) by done.
  assert (Htr1 : trace w1 = trace w ++
            [EvMalloc sizeof_WINDOW win; EvFread 4 1; EvFread sizeof_WINDOW 1])
    by (subst w1; cbn; by rewrite <- !app_assoc).
  assert (Hwin1 : heap w1 !! win = Some (BWindow (dump_struct unread)))
    by (subst w1; cbn; by rewrite lookup_insert_eq).
  assert (Hdom1 : ∀ a, a ∈ D → is_Some (heap w1 !! a)).
  { intros a Ha. rewrite (st_frame _ _ _ Hst1 a Ha). by apply Hdom. }
  clearbody w1.
  apply (wp_getwin_build d D win (dump_struct unread) (dump_body unread) w1 Q
           Hdom1 Hwin1 Hnn HwD Hd).
  - intros w' f' Hst Hno. apply Hfail'; [by eapply steps_trans|].
    intros (_ & _ & Hg & Hb). apply Hno. split; [|done].
    apply granted_cons in Hg as [_ Hg]. by rewrite Hcnt1.
  - intros w' y fc lc ptrs ytail ftail ltail Hst Hown Hlen' Hg Hb Hcnt Htr.
    eapply (Hok w' unread win y fc lc ptrs ytail ftail ltail eq_refl).
    + split; [done|]. split; [subst unread; cbn; lia|]. split; [|done].
      apply granted_cons. split; [done|]. by rewrite <- Hcnt1.
    + by eapply steps_trans.
    + exact Hown.
    + exact Hlen'.
    + lia.
    + rewrite Htr, Htr1. by rewrite <- !app_assoc.
Qed.

End Getwin.

(** ** The claims about getwin *)

Section GetwinClaims.
Context {abi : ABI} {env : Env}.

Lemma owned_window_at D h win s ptrs tail rows fs ftail ls ltail :
  owned D h win s ptrs tail rows (fs ++ ftail) (ls ++ ltail) →
  length ptrs = nlines s → length fs = nlines s → length ls = nlines s →
  window_at h win s ptrs rows fs ls.
Proof.
  intros [Hdom Hwin Hy Hfc Hlc Hrows Hnd Hfresh Hne] Hp Hf Hl.
  split; eauto.
Qed.

Lemma dom_is_Some (h : gmap addr block) a : a ∈ dom h → is_Some (h !! a).
Proof. by rewrite elem_of_dom. Qed.

(** Claim C3 (header hard-reject).  Once the first allocation is granted,
    a stream that starts with four bytes other than the marker followed by
    the version makes [getwin] return [NULL]: it has made exactly one read,
    of these four bytes, the rest of the stream is left unread whatever it
    holds, and the one block allocated has been freed.  When the four bytes
    are the marker and the version, every run of [getwin] goes on to read
    the struct image from the stream. *)
Theorem getwin_header_reject w b0 b1 b2 b3 rest :
  malloc_ok (nmalloc w) sizeof_WINDOW = true →
  ([b0; b1; b2; b3] ≠ marker ++ [version] →
   ∃ win, win ≠ NULL ∧ heap w !! win = None ∧
     getwin (Some (FileR (b0 :: b1 :: b2 :: b3 :: rest))) w =
       Some ((NULL, Some (FileR rest)),
             logged_all [EvMalloc sizeof_WINDOW win; EvFread 4 1; EvFree win]
                        (counted w))) ∧
  ([b0; b1; b2; b3] = marker ++ [version] →
   ∀ r w', getwin (Some (FileR (b0 :: b1 :: b2 :: b3 :: rest))) w = Some (r, w') →
     ∃ win items evs,
       trace w' = trace w ++
         [EvMalloc sizeof_WINDOW win; EvFread 4 1; EvFread sizeof_WINDOW items] ++ evs).
Proof.
  intros Hg. split.
  - intros Hbad. exists (fresh_addr (heap w)).
    destruct (fresh_addr_spec (heap w)) as [Hnn Hfresh].
    split; [done|]. split; [done|].
    assert (Hrej : ∀ w1, heap w1 = <[fresh_addr (heap w) := BWindow WINDOW_fresh]> (heap w) →
      (let! _ := free (fresh_addr (heap w)) in ret (NULL, Some (FileR rest))) w1
      = Some ((NULL, Some (FileR rest)),
              logged (EvFree (fresh_addr (heap w))) (with_heap (heap w) w1))).
    { intros w1 Hw1. unfold bind, free. rewrite decide_False by done.
      rewrite Hw1, lookup_insert_eq. unfold ret.
      by rewrite delete_insert_eq, delete_id. }
    unfold getwin. unfold bind at 1. unfold malloc. rewrite Hg.
    rewrite decide_False by done.
    unfold bind at 1. unfold fread. unfold bind at 1, emit, ret.
    cbn [firstn skipn length nth]. rewrite ?take_0, ?drop_0.
    rewrite decide_False by (rewrite decide_True by (cbn; lia); done).
    destruct (decide (strncmp [b0; b1; b2; b3] marker 3 ≠ 0%Z)) as [Hm|Hm].
    { rewrite Hrej by done. unfold logged_all, logged, with_heap, counted.
      cbn. by rewrite <- !app_assoc. }
    destruct (decide (char_value b3 ≠ DUMPVER)) as [Hv|Hv].
    { rewrite Hrej by done. unfold logged_all, logged, with_heap, counted.
      cbn. by rewrite <- !app_assoc. }
    exfalso. apply Hbad. apply header_check. split.
    + by destruct (decide (strncmp [b0; b1; b2; b3] marker 3 = 0%Z)); [|exfalso; auto].
    + by destruct (decide (char_value b3 = DUMPVER)); [|exfalso; auto].
  - intros Hgood r w' Hrun.
    apply header_check in Hgood as [Hm Hv].
    destruct (fresh_addr_spec (heap w)) as [Hnn Hfresh].
    unfold getwin in Hrun. unfold bind at 1 in Hrun. unfold malloc in Hrun.
    rewrite Hg in Hrun. rewrite decide_False in Hrun by done.
    unfold bind at 1 in Hrun. unfold fread at 1 in Hrun.
    unfold bind at 1, emit, ret in Hrun.
    cbn [firstn skipn length nth] in Hrun. rewrite ?take_0, ?drop_0 in Hrun.
    rewrite decide_False in Hrun by (rewrite decide_True by (cbn; lia); done).
    destruct (decide (strncmp [b0; b1; b2; b3] marker 3 ≠ 0%Z)) as [Hx|_]; [done|].
    destruct (decide (char_value b3 ≠ DUMPVER)) as [Hx|_]; [done|].
    unfold bind at 1 in Hrun. unfold fread at 1 in Hrun.
    unfold bind at 1, emit, ret in Hrun.
    match type of Hrun with context [EvFread sizeof_WINDOW ?i] => set (items := i) in * end.
    exists (fresh_addr (heap w)), items.
    destruct (decide (items = 0)) as [Hi|Hi].
    + unfold bind, free in Hrun. rewrite decide_False in Hrun by done.
      cbn [heap logged counted with_heap] in Hrun.
      rewrite lookup_insert_eq in Hrun. unfold ret in Hrun.
      injection Hrun as <- <-.
      eexists. cbn. rewrite <- !app_assoc. reflexivity.
    + unfold bind at 1 in Hrun. unfold store_win in Hrun.
      cbn [heap logged counted with_heap] in Hrun.
      rewrite lookup_insert_eq in Hrun. unfold put_heap in Hrun.
      match type of Hrun with getwin_build _ _ ?W = _ => set (w1 := W) in * end.
      assert (Hw1 : heap w1 !! fresh_addr (heap w)
                    = Some (BWindow (WINDOW_of_bytes (take sizeof_WINDOW rest)))).
      { subst w1. cbn. by rewrite lookup_insert_eq. }
      assert (Htr1 : trace w1 = trace w ++
                [EvMalloc sizeof_WINDOW (fresh_addr (heap w)); EvFread 4 1;
                 EvFread sizeof_WINDOW items]).
      { subst w1. cbn. by rewrite <- !app_assoc. }
      clearbody w1.
      assert (Hwp : wp True (getwin_build (fresh_addr (heap w)) (FileR (drop sizeof_WINDOW rest)))
                       (λ _ w', steps ∅ w1 w') w1).
      { eapply wp_getwin_build; try done.
        - intros a Ha. set_solver.
        - set_solver. }
      pose proof (wp_result _ _ _ _ _ _ Hwp Hrun) as [_ _ _ [evs Hevs] _].
      exists evs. rewrite Hevs, Htr1. by rewrite <- !app_assoc.
Qed.

Lemma getwin_wp d w filep :
  (∀ unread, filep = Some (FileR unread) → ¬ arrays_fit (dump_struct unread) → d) →
  wp d (getwin filep) (getwin_post w filep) w.
Proof.
  intros Hd. apply (wp_getwin d (dom (heap w))).
  - intros a. apply dom_is_Some.
  - exact Hd.
  - intros w' f' Hst Hf Hno. split; [done|]. by left.
  - intros w' unread win y fc lc ptrs ytail ftail ltail s Hf Hacc Hst Hown Hlen Hcnt Htr.
    split; [done|]. right.
    exists unread, y, fc, lc, ptrs, ytail, ftail, ltail. cbn zeta.
    split; [done|]. split; [exact Hacc|].
    split; [|split; [done|]; split; [exact Hown|]; split; [done|]; split; done].
    pose proof (ow_fresh _ _ _ _ _ _ _ _ _ Hown) as Hfr.
    by apply Forall_cons_1 in Hfr as [[? _] _].
Qed.

Lemma split_rows_length k size bs : length (split_rows k size bs) = k.
Proof. revert bs. induction k as [|k IH]; intros bs; cbn; [done|by rewrite IH]. Qed.

Lemma split_rows_sizes k size bs :
  k * size ≤ length bs → Forall (λ r, length r = size) (split_rows k size bs).
Proof.
  revert bs. induction k as [|k IH]; intros bs Hlen; cbn; constructor.
  - rewrite length_take. lia.
  - apply IH. rewrite length_drop. lia.
Qed.

(** Claim C2 (all-or-nothing reconstruction).  [getwin] returns on every
    stream whose announced line count leaves the sizes of its three arrays
    within [size_t].  Whenever it returns, its result is non-null exactly
    when the stream is accepted: the header matches, the struct image is
    all there, every allocation is granted and every line is read in full.
    A run in which some [malloc] returned null or some [fread] read no item
    returns [NULL].  A non-null result is a complete window in the heap:
    the dimensions are those of the struct image, every line has its cells
    from the stream, and the dirty ranges cover every line. *)
Theorem getwin_all_or_nothing w filep :
  ((∀ unread, filep = Some (FileR unread) → arrays_fit (dump_struct unread)) →
   ∃ r w', getwin filep w = Some (r, w')) ∧
  (∀ q f' w', getwin filep w = Some ((q, f'), w') →
     (q ≠ NULL ↔ ∃ unread, filep = Some (FileR unread) ∧ accepted (nmalloc w) unread) ∧
     (∀ evs, trace w' = trace w ++ evs →
        (∃ size, EvMalloc size NULL ∈ evs ∨ EvFread size 0 ∈ evs) → q = NULL) ∧
     (q ≠ NULL →
        ∃ unread s ptrs,
          filep = Some (FileR unread) ∧
          _maxy s = _maxy (dump_struct unread) ∧
          _maxx s = _maxx (dump_struct unread) ∧
          window_at (heap w') q s ptrs
                    (split_rows (nlines s) (row_size s) (dump_body unread))
                    (replicate (nlines s) 0%Z)
                    (replicate (nlines s) (_maxx s - 1)%Z) ∧
          Forall (λ r, length r = row_size s)
                 (split_rows (nlines s) (row_size s) (dump_body unread)))).
Proof.
  split.
  - intros Hfit.
    destruct (wp_total _ _ _ (getwin_wp False w filep
                (λ unread Hf Hno, Hno (Hfit unread Hf)))) as (r & w' & Hrun & _).
    eauto.
  - intros q f' w' Hrun.
    pose proof (wp_result _ _ _ _ _ _ (getwin_wp True w filep (λ _ _ _, I)) Hrun)
      as [Hst Hpost].
    cbn [fst snd] in Hpost.
    destruct Hpost as [(-> & _ & Hno)|
      (unread & y & fc & lc & ptrs & ytail & ftail & ltail & Hpost)].
    + split; [|split]; try done.
      split; [done|]. intros (unread & Hf & Hacc). by destruct (Hno unread Hf).
    + cbn zeta in Hpost.
      destruct Hpost as (Hf & Hacc & Hq & Hf' & Hown & Hlen & Hcnt & Htr).
      split; [|split].
      * split; [eauto | done].
      * intros evs Hevs [size Hbad]. exfalso.
        rewrite Htr in Hevs. apply app_inv_head in Hevs. subst evs.
        pose proof (ow_fresh _ _ _ _ _ _ _ _ _ Hown) as Hfr.
        rewrite Forall_forall in Hfr.
        assert (Hnn : ∀ sz p, EvMalloc sz p ∈
                  ([EvMalloc sizeof_WINDOW q; EvFread 4 1; EvFread sizeof_WINDOW 1;
                    EvMalloc (size_mul (_maxy (dump_struct unread)) sizeof_ptr) y;
                    EvMalloc (size_mul (_maxy (dump_struct unread)) sizeof_int) fc;
                    EvMalloc (size_mul (_maxy (dump_struct unread)) sizeof_int) lc] ++
                   (EvMalloc (row_size (dump_struct unread)) <$> ptrs) ++
                   replicate (nlines (dump_struct unread))
                             (EvFread (row_size (dump_struct unread)) 1)) →
                  p ∈ q :: y :: fc :: lc :: ptrs).
        { intros sz p Hin.
          rewrite !elem_of_app, !elem_of_cons, elem_of_nil, list_elem_of_fmap,
            elem_of_replicate in Hin.
          rewrite !elem_of_cons.
          destruct Hin as [[Hin|[Hin|[Hin|[Hin|[Hin|[Hin|[]]]]]]]|[(a & Hin & Ha)|[Hin _]]];
            try done; injection Hin as _ ->; tauto. }
        destruct Hbad as [Hbad|Hbad].
        -- apply Hnn in Hbad. by destruct (Hfr NULL Hbad).
        -- rewrite !elem_of_app in Hbad. destruct Hbad as [Hbad|[Hbad|Hbad]].
           ++ repeat (apply elem_of_cons in Hbad as [Hbad|Hbad]; [done|]).
              by apply elem_of_nil in Hbad.
           ++ by apply list_elem_of_fmap in Hbad as (a & ? & _).
           ++ by apply elem_of_replicate in Hbad as [? _].
      * intros _.
        exists unread, (with_lastch lc (with_firstch fc (with_y y (dump_struct unread)))), ptrs.
        destruct Hacc as (_ & _ & _ & [Hbody _]).
        split; [done|]. split; [done|]. split; [done|]. split.
        -- eapply owned_window_at; [exact Hown|done|..]; by rewrite length_replicate.
        -- by apply split_rows_sizes.
Qed.

(** *** Dumps of a known shape *)

Lemma size_mul_exact (n : Z) (size : nat) :
  (0 ≤ n)%Z → (n * Z.of_nat size < SIZE_MOD)%Z →
  size_mul n size = Z.to_nat n * size.
Proof.
  intros Hn Hlt. unfold size_mul. rewrite Z.mod_small by lia. lia.
Qed.

Lemma size_mul_cap (n : Z) (size : nat) :
  0 < size → (0 ≤ n)%Z → (n * Z.of_nat size < SIZE_MOD)%Z →
  size_mul n size / size = Z.to_nat n.
Proof.
  intros Hs Hn Hlt. rewrite size_mul_exact by done. apply Nat.div_mul. lia.
Qed.

Lemma arrays_fit_nonpositive s : (_maxy s ≤ 0)%Z → arrays_fit s.
Proof. intros H. unfold arrays_fit, nlines. rewrite Z2Nat.nonpos by done. lia. Qed.

Lemma arrays_fit_exact s :
  (0 ≤ _maxy s)%Z →
  (_maxy s * Z.of_nat sizeof_ptr < SIZE_MOD)%Z →
  (_maxy s * Z.of_nat sizeof_int < SIZE_MOD)%Z →
  arrays_fit s.
Proof.
  intros H0 Hp Hi. unfold arrays_fit, lines_cap, ints_cap, nlines.
  rewrite !size_mul_cap; auto using sizeof_ptr_pos, sizeof_int_pos.
Qed.

Lemma dump_parts image body :
  length image = sizeof_WINDOW →
  let unread := marker ++ [version] ++ image ++ body in
  header_ok unread ∧ 4 + sizeof_WINDOW ≤ length unread ∧
  dump_struct unread = WINDOW_of_bytes image ∧ dump_body unread = body.
Proof.
  intros Hlen unread. subst unread. unfold header_ok, dump_struct, dump_body.
  change (marker ++ [version] ++ image ++ body)
    with ("P"%byte :: "D"%byte :: "C"%byte :: version :: image ++ body).
  cbn [firstn skipn]. rewrite take_0, drop_0.
  rewrite take_app_length', drop_app_length' by done.
  repeat split; try done. cbn. rewrite length_app. lia.
Qed.

Lemma split_rows_concat rows size rest :
  Forall (λ r, length r = size) rows →
  split_rows (length rows) size (concat rows ++ rest) = rows ∧
  drop (length rows * size) (concat rows ++ rest) = rest.
Proof.
  induction 1 as [|r rows Hr _ [IH1 IH2]]; [done|].
  cbn [length split_rows concat]. rewrite <- app_assoc.
  rewrite take_app_length', drop_app_length' by done. rewrite IH1. split; [done|].
  replace (S (length rows) * size) with (length r + length rows * size) by lia.
  by rewrite <- drop_drop, drop_app_length.
Qed.

Lemma concat_length_sizes (rows : list (list byte)) size :
  Forall (λ r, length r = size) rows → length (concat rows) = length rows * size.
Proof.
  induction 1 as [|r rows Hr _ IH]; [done|]. cbn. rewrite length_app. lia.
Qed.

(** Claim C9 (a non-positive height is accepted).  For a stream with
    the right marker and version whose struct image announces a height of
    zero or less, [getwin] returns a non-null window as soon as its four
    allocations are granted: the window struct is the image with its three
    array fields replaced, and the calls made are these four [malloc]s and
    the reads of the header and of the struct image, with no read of any
    line. *)
Theorem getwin_nonpositive_height w image rest :
  length image = sizeof_WINDOW →
  (_maxy (WINDOW_of_bytes image) ≤ 0)%Z →
  granted (nmalloc w)
    [sizeof_WINDOW;
     size_mul (_maxy (WINDOW_of_bytes image)) sizeof_ptr;
     size_mul (_maxy (WINDOW_of_bytes image)) sizeof_int;
     size_mul (_maxy (WINDOW_of_bytes image)) sizeof_int] →
  ∃ win y fc lc w',
    getwin (Some (FileR (marker ++ [version] ++ image ++ rest))) w =
      Some ((win, Some (FileR rest)), w') ∧
    win ≠ NULL ∧
    heap w' !! win =
      Some (BWindow (with_lastch lc (with_firstch fc (with_y y (WINDOW_of_bytes image))))) ∧
    trace w' = trace w ++
      [EvMalloc sizeof_WINDOW win; EvFread 4 1; EvFread sizeof_WINDOW 1;
       EvMalloc (size_mul (_maxy (WINDOW_of_bytes image)) sizeof_ptr) y;
       EvMalloc (size_mul (_maxy (WINDOW_of_bytes image)) sizeof_int) fc;
       EvMalloc (size_mul (_maxy (WINDOW_of_bytes image)) sizeof_int) lc].
Proof.
  intros Hlen Hneg Hgr.
  destruct (dump_parts image rest Hlen) as (Hh & Hl & Hs & Hb).
  set (unread := marker ++ [version] ++ image ++ rest) in *.
  assert (Hn : nlines (dump_struct unread) = 0).
  { unfold nlines. rewrite Hs. by apply Z2Nat.nonpos. }
  assert (Hacc : accepted (nmalloc w) unread).
  { split; [done|]. split; [done|]. split.
    - unfold build_requests. rewrite Hn, Hs. cbn [replicate app]. exact Hgr.
    - unfold body_ok. rewrite Hn. lia. }
  destruct (wp_total _ _ _ (getwin_wp False w (Some (FileR unread))
    (λ u Hf Hno, Hno ltac:(injection Hf as <-; apply arrays_fit_nonpositive; by rewrite Hs))))
    as ([q f'] & w' & Hrun & Hst & Hpost).
  cbn [fst snd] in Hpost.
  destruct Hpost as [(-> & _ & Hno)|
    (u & y & fc & lc & ptrs & ytail & ftail & ltail & Hpost)].
  { by destruct (Hno unread eq_refl). }
  cbn zeta in Hpost.
  destruct Hpost as ([= <-] & _ & Hq & -> & Hown & Hlenp & Hcnt & Htr).
  rewrite Hn in *. rewrite Hs, Hb in *.
  apply nil_length_inv in Hlenp. subst ptrs.
  exists q, y, fc, lc, w'. rewrite Hrun. cbn [Nat.mul drop]. rewrite drop_0.
  split; [done|]. split; [done|]. split; [apply (ow_win _ _ _ _ _ _ _ _ _ Hown)|].
  rewrite Htr. done.
Qed.

(** *** Writing a window and reading it back *)

Lemma lines_to_write_all ptrs : NULL ∉ ptrs → lines_to_write ptrs = ptrs.
Proof.
  induction ptrs as [|a ptrs IH]; intros Hn; [done|]. cbn.
  rewrite not_elem_of_cons in Hn. destruct Hn as [Ha Hn].
  rewrite decide_False by done. by rewrite IH.
Qed.

Lemma line_bytes_rows (h : gmap addr block) size ptrs rows :
  Forall2 (λ a r, h !! a = Some (BCells r)) ptrs rows →
  Forall (λ r, length r = size) rows →
  mapM (line_bytes h size) ptrs = Some rows.
Proof.
  induction 1 as [|a r ptrs rows Ha _ IH]; intros Hsz; [done|].
  apply Forall_cons_1 in Hsz as [Hr Hsz].
  assert (Hl : line_bytes h size a = Some r).
  { unfold line_bytes. rewrite Ha, decide_True by lia. by rewrite take_ge by lia. }
  simpl. rewrite Hl. simpl. rewrite IH by done. done.
Qed.

Lemma build_requests_ext s s' :
  _maxy s' = _maxy s → _maxx s' = _maxx s → build_requests s' = build_requests s.
Proof. unfold build_requests, nlines, row_size. by intros -> ->. Qed.

(** Claim C1 (round-trip identity).  Take a window of height and width
    at least one, all of whose line pointers are non-null and whose lines
    hold [_maxx] cells each, with array sizes within [size_t], and a stream
    with room for the dump.  Then [putwin] returns [OK] and leaves the heap
    as it was, and [getwin] on the bytes written, in any world that grants
    its allocations, consumes all of them and returns a non-null window of
    the same height and width whose lines hold the same cells, line by
    line, and whose dirty ranges are [0 .. _maxx - 1] on every line,
    whatever those of the original were. *)
Theorem putwin_getwin_roundtrip w p s ptrs rows fs ls name room :
  window_at (heap w) p s ptrs rows fs ls →
  (1 ≤ _maxy s ≤ INT_MAX)%Z → (1 ≤ _maxx s ≤ INT_MAX)%Z →
  NULL ∉ ptrs →
  Forall (λ r, length r = Z.to_nat (_maxx s) * sizeof_chtype) rows →
  (_maxx s * Z.of_nat sizeof_chtype < SIZE_MOD)%Z →
  (_maxy s * Z.of_nat sizeof_ptr < SIZE_MOD)%Z →
  (_maxy s * Z.of_nat sizeof_int < SIZE_MOD)%Z →
  4 + sizeof_WINDOW + Z.to_nat (_maxy s) * (Z.to_nat (_maxx s) * sizeof_chtype) ≤ room →
  ∃ dump w1,
    putwin p (Some (FileW name [] room)) w =
      Some ((OK, Some (FileW name dump (room - length dump))), w1) ∧
    heap w1 = heap w ∧
    ∀ w2, granted (nmalloc w2) (sizeof_WINDOW :: build_requests s) →
      ∃ q s' ptrs' w3,
        getwin (Some (FileR dump)) w2 = Some ((q, Some (FileR [])), w3) ∧
        q ≠ NULL ∧ _maxy s' = _maxy s ∧ _maxx s' = _maxx s ∧
        window_at (heap w3) q s' ptrs' rows
                  (replicate (Z.to_nat (_maxy s)) 0%Z)
                  (replicate (Z.to_nat (_maxy s)) (_maxx s - 1)%Z).
Proof.
  intros [Hwin [tail Hy] Hn Hrows _ _ _] Hmaxy Hmaxx Hnn Hsz Hfx Hfp Hfi Hroom.
  assert (Hrs : row_size s = Z.to_nat (_maxx s) * sizeof_chtype).
  { unfold row_size. apply size_mul_exact; lia. }
  assert (Hpos : 0 < row_size s).
  { rewrite Hrs. pose proof sizeof_chtype_pos. nia. }
  rewrite <- Hrs in Hsz, Hroom. fold (nlines s) in Hroom.
  pose proof (Forall2_length _ _ _ Hrows) as Hlen.
  (* writing *)
  assert (Hput := putwin_run w p s (ptrs ++ tail) rows name [] room Hwin Hy).
  rewrite take_app_length' in Hput by done.
  rewrite lines_to_write_all in Hput by done.
  specialize (Hput ltac:(rewrite length_app; unfold nlines in Hn; lia)
                   (line_bytes_rows _ _ _ _ Hrows Hsz)).
  cbn zeta in Hput.
  set (chunks := marker :: [version] :: WINDOW_bytes s :: rows) in *.
  assert (Hok : write_status chunks room = OK).
  { apply write_status_OK. split.
    - subst chunks. repeat (constructor; [cbn; try lia|]).
      + rewrite WINDOW_bytes_length. apply sizeof_WINDOW_pos.
      + eapply Forall_impl; [exact Hsz|]. cbn. intros r ->. done.
    - subst chunks. cbn [concat]. rewrite !length_app, WINDOW_bytes_length.
      rewrite (concat_length_sizes rows (row_size s)) by done. cbn. lia. }
  rewrite Hok, (write_put_all _ _ Hok) in Hput. cbn [app] in Hput.
  exists (concat chunks), (logged_all (write_log chunks room) w).
  split; [exact Hput|]. split; [done|].
  (* reading back *)
  intros w2 Hgr.
  assert (Hdump : concat chunks =
            marker ++ [version] ++ WINDOW_bytes s ++ (concat rows ++ [])).
  { subst chunks. cbn [concat]. by rewrite app_nil_r. }
  rewrite Hdump.
  destruct (dump_parts (WINDOW_bytes s) (concat rows ++ []) (WINDOW_bytes_length s))
    as (Hh & Hl & Hs & Hb).
  set (unread := marker ++ [version] ++ WINDOW_bytes s ++ (concat rows ++ [])) in *.
  assert (Hy' : _maxy (dump_struct unread) = _maxy s)
    by (rewrite Hs; apply WINDOW_image_maxy; lia).
  assert (Hx' : _maxx (dump_struct unread) = _maxx s)
    by (rewrite Hs; apply WINDOW_image_maxx; lia).
  assert (Hn' : nlines (dump_struct unread) = nlines s) by (unfold nlines; by rewrite Hy').
  assert (Hr' : row_size (dump_struct unread) = row_size s)
    by (unfold row_size; by rewrite Hx').
  assert (Hfit : arrays_fit (dump_struct unread)).
  { apply arrays_fit_exact; rewrite Hy'; lia. }
  assert (Hacc : accepted (nmalloc w2) unread).
  { split; [done|]. split; [done|]. split.
    - by rewrite (build_requests_ext s).
    - unfold body_ok. rewrite Hb, Hn', Hr'. split; [|done].
      rewrite length_app, (concat_length_sizes rows (row_size s)) by done.
      rewrite <- Hlen, Hn. cbn. lia. }
  destruct (wp_total _ _ _ (getwin_wp False w2 (Some (FileR unread))
    (λ u Hf Hno, Hno ltac:(by injection Hf as <-))))
    as ([q f'] & w3 & Hrun & Hst & Hpost).
  cbn [fst snd] in Hpost.
  destruct Hpost as [(-> & _ & Hno)|
    (u & y & fc & lc & ptrs' & ytail & ftail & ltail & Hpost)].
  { by destruct (Hno unread eq_refl). }
  cbn zeta in Hpost.
  destruct Hpost as ([= <-] & _ & Hq & -> & Hown & Hlenp & Hcnt & Htr).
  rewrite Hb, Hn', Hr', Hx' in *.
  assert (Hnr : nlines s = length rows) by (rewrite <- Hlen; done).
  rewrite Hnr in Hown at 1. rewrite Hnr in Hrun at 1.
  destruct (split_rows_concat rows (row_size s) [] Hsz) as [Hsplit Hdrop].
  rewrite Hsplit in Hown. rewrite Hdrop in Hrun.
  exists q, (with_lastch lc (with_firstch fc (with_y y (dump_struct unread)))), ptrs', w3.
  split; [exact Hrun|]. split; [done|]. split; [done|]. split; [done|].
  fold (nlines s).
  eapply owned_window_at; [exact Hown| | |].
  - by rewrite Hlenp.
  - rewrite length_replicate. done.
  - rewrite length_replicate. done.
Qed.

End GetwinClaims.

(** ** scr_restore *)

Section Restore.
Context {abi : ABI} {env : Env}.

Lemma wp_delwin d D win s ptrs tail rows fs ls w (Q : status → world → Prop) :
  owned D (heap w) win s ptrs tail rows fs ls →
  length ptrs = nlines s →
  (∀ w', steps D w w' → Q OK w') →
  wp d (delwin win) Q w.
Proof.
  intros Ho Hlen HQ. unfold delwin.
  pose proof (ow_fresh _ _ _ _ _ _ _ _ _ Ho) as Hfr.
  apply Forall_cons_1 in Hfr as [[Hnn _] _].
  rewrite decide_False by done.
  apply wp_bind. eapply wp_load_win; [apply (ow_win _ _ _ _ _ _ _ _ _ Ho)|].
  fold (nlines s). rewrite <- Hlen.
  eapply wp_release; [exact Ho|].
  intros w' Hst. apply wp_ret. by apply HQ.
Qed.

(** [overwrite] fails only on a null window, and then does nothing. *)
Lemma overwrite_result src dst w r w' :
  overwrite src dst w = Some (r, w') →
  (r = ERR ∧ w' = w ∧ (src = NULL ∨ dst = NULL)) ∨ r = OK.
Proof.
  unfold overwrite. case_decide as Hn.
  - intros [= <- <-]. by left.
  - unfold bind, ret. intros Hrun. right.
    repeat match type of Hrun with
           | match ?m with _ => _ end = _ => destruct m as [[? ?]|]; [|done]
           end.
    by injection Hrun as <- _.
Qed.

Lemma window_at_frame (h h' : gmap addr block) p s ptrs rows fs ls :
  window_at h p s ptrs rows fs ls →
  (∀ a, is_Some (h !! a) → h' !! a = h !! a) →
  window_at h' p s ptrs rows fs ls.
Proof.
  intros [Hwin [yt Hy] Hn Hrows [ft Hf] [lt Hl] Hd] Hsame.
  split; try done.
  - rewrite Hsame; [done | by rewrite Hwin].
  - exists yt. rewrite Hsame; [done | by rewrite Hy].
  - eapply rows_frame; [exact Hrows|]. intros a Ha.
    apply list_elem_of_lookup in Ha as [i Hi].
    destruct (Forall2_lookup_l _ _ _ _ _ Hrows Hi) as (r & _ & Hr).
    apply Hsame. by rewrite Hr.
  - exists ft. rewrite Hsame; [done | by rewrite Hf].
  - exists lt. rewrite Hsame; [done | by rewrite Hl].
Qed.

Lemma window_at_transfer (h0 h' : gmap addr block) p s ptrs rows0 rows fs ls :
  window_at h0 p s ptrs rows0 fs ls →
  (∀ a, is_Some (h0 !! a) → a ∉ ptrs → h' !! a = h0 !! a) →
  Forall2 (λ a r, h' !! a = Some (BCells r)) ptrs rows →
  window_at h' p s ptrs rows fs ls.
Proof.
  intros [Hwin [yt Hy] Hn Hrows [ft Hf] [lt Hl] Hd] Hsame Hrows'.
  assert (Hother : ∀ a b, h0 !! a = Some b → (∀ r, b ≠ BCells r) → h' !! a = Some b).
  { intros a b Hab Hb. rewrite Hsame; [done|by rewrite Hab|].
    intros Hin. apply list_elem_of_lookup in Hin as [i Hi].
    destruct (Forall2_lookup_l _ _ _ _ _ Hrows Hi) as (r & _ & Hr).
    apply (Hb r). congruence. }
  split; try done.
  - by apply Hother.
  - exists yt. by apply Hother.
  - exists ft. by apply Hother.
  - exists lt. by apply Hother.
Qed.

Lemma steps_window_at w w' p s ptrs rows fs ls :
  steps (dom (heap w)) w w' →
  window_at (heap w) p s ptrs rows fs ls →
  window_at (heap w') p s ptrs rows fs ls.
Proof.
  intros Hst Hw. eapply window_at_frame; [exact Hw|].
  intros a Ha. apply (st_frame _ _ _ Hst). by apply elem_of_dom.
Qed.

Lemma steps_subseteq w w' : steps (dom (heap w)) w w' → heap w ⊆ heap w'.
Proof.
  intros Hst. apply map_subseteq_spec. intros a b Hab.
  rewrite (st_frame _ _ _ Hst); [done|]. apply elem_of_dom. by rewrite Hab.
Qed.

(** A failed [scr_restore] has only taken [steps] that leave every block
    that was live before the call as it was. *)
Lemma scr_restore_failure_steps filename w w' :
  scr_restore filename w = Some (ERR, w') → steps (dom (heap w)) w w'.
Proof.
  intros Hrun.
  cut (wp True (scr_restore filename) (λ r w', r = ERR → steps (dom (heap w)) w w') w).
  { intros Hwp. by apply (wp_result _ _ _ _ _ _ Hwp Hrun). }
  clear Hrun. unfold scr_restore. destruct filename as [name|].
  2: { apply wp_ret. intros _. apply steps_refl. }
  apply wp_bind. unfold fopen_rb at 1. unfold wp at 1.
  destruct (if fopen_ok name then disk w !! name else None) as [content|].
  2: { apply wp_ret. intros _. apply steps_logged. }
  apply wp_bind.
  set (w0 := logged (EvFopen name false true) w).
  assert (Hst0 : steps (dom (heap w)) w w0) by apply steps_logged.
  eapply wp_mono; [apply (getwin_wp True w0 (Some (FileR content)) (λ _ _ _, I))|].
  intros [q f'] w1 [Hst1 Hpost]. cbn [fst snd] in Hpost. cbn beta iota.
  change (dom (heap w0)) with (dom (heap w)) in *.
  destruct Hpost as [(-> & Hf' & _)|
    (u & y & fc & lc & ptrs & ytail & ftail & ltail & Hpost)].
  - (* no window *)
    assert (∃ u, default (FileR content) f' = FileR u) as [u Hu].
    { destruct Hf' as [->|[u ->]]; cbn; eauto. }
    apply wp_bind. unfold fclose, wp. rewrite Hu.
    rewrite decide_True by done. unfold ret. intros _.
    eapply steps_trans; [exact Hst0|]. eapply steps_trans; [exact Hst1|].
    split; cbn; first [done | lia | by exists [EvFclose]].
  - cbn zeta in Hpost.
    destruct Hpost as (_ & _ & Hq & -> & Hown & Hlen & _ & _).
    apply wp_bind. unfold fclose at 1. unfold wp at 1. cbn [default].
    rewrite decide_False by done.
    match goal with |- wp _ _ _ ?W => set (w2 := W) end.
    assert (Hst2 : steps (dom (heap w)) w1 w2).
    { subst w2. split; cbn; first [done | lia | by exists [EvFclose]]. }
    assert (Hown2 : owned (dom (heap w)) (heap w2) q
              (with_lastch lc (with_firstch fc (with_y y (dump_struct u)))) ptrs ytail
              (split_rows (nlines (dump_struct u)) (row_size (dump_struct u)) (dump_body u))
              (replicate (nlines (dump_struct u)) 0%Z ++ ftail)
              (replicate (nlines (dump_struct u)) (_maxx (dump_struct u) - 1)%Z ++ ltail))
      by exact Hown.
    clearbody w2.
    apply wp_bind. apply wp_ret. apply wp_bind. unfold wp at 1.
    destruct (overwrite q (curscr w2) w2) as [[r w3]|] eqn:Hov; [|done].
    apply overwrite_result in Hov as [(-> & -> & _) | ->].
    + apply wp_bind. eapply wp_delwin; [exact Hown2|exact Hlen|].
      intros w4 Hst4. apply wp_ret. intros _.
      eapply steps_trans; [exact Hst0|]. eapply steps_trans; [exact Hst1|].
      by eapply steps_trans.
    + unfold wp, bind. destruct (delwin q w3) as [[? ?]|]; done.
Qed.

(** Claim C5 (a failed restore leaves the screen alone).  Whenever
    [scr_restore] returns [ERR], for whatever reason, [curscr] is the same
    pointer as before, every block of the heap is still there with the
    same content, and so the screen window is the same window with the
    same cells and dirty ranges. *)
Theorem scr_restore_failure_atomic filename w w' :
  scr_restore filename w = Some (ERR, w') →
  curscr w' = curscr w ∧ heap w ⊆ heap w' ∧
  ∀ s ptrs rows fs ls,
    window_at (heap w) (curscr w) s ptrs rows fs ls →
    window_at (heap w') (curscr w') s ptrs rows fs ls.
Proof.
  intros Hrun. apply scr_restore_failure_steps in Hrun.
  split; [apply (st_curscr _ _ _ Hrun)|]. split; [by apply steps_subseteq|].
  intros s ptrs rows fs ls Hw. rewrite (st_curscr _ _ _ Hrun).
  by eapply steps_window_at.
Qed.

(** Claim C10 (null filename).  With a null filename [scr_dump],
    [scr_restore] and [scr_set] return [ERR] in the world they were called
    in: no call of [fopen], [fread], [fwrite] or [malloc] is logged, the
    disk is the same, and the heap and [curscr] are untouched. *)
Theorem null_filename_is_rejected w :
  scr_dump None w = Some (ERR, w) ∧
  scr_restore None w = Some (ERR, w) ∧
  scr_set None w = Some (ERR, w).
Proof. done. Qed.

(** Claim C7 (scr_set is scr_restore).  On every filename and in every
    world, [scr_set] has the outcome of [scr_restore]: the same status and
    the same final world, or a fault where it faults. *)
Theorem scr_set_is_scr_restore filename w :
  scr_set filename w = scr_restore filename w.
Proof. done. Qed.

(** *** A successful restore *)

Lemma copied_0 n srows drows : copied n 0 srows drows = drows.
Proof. unfold copied. by rewrite !take_0, drop_0. Qed.

Lemma copied_lookup n i srows drows dr :
  i ≤ length srows → drows !! i = Some dr → copied n i srows drows !! i = Some dr.
Proof.
  intros Hs Hd. unfold copied. pose proof (lookup_lt_Some _ _ _ Hd).
  rewrite lookup_app_r; rewrite length_zip_with, !length_take; [|lia].
  replace (i - _) with 0 by lia. by rewrite lookup_drop, Nat.add_0_r.
Qed.

Lemma copied_S n i srows drows sr dr :
  srows !! i = Some sr → drows !! i = Some dr →
  <[i := merge_row n sr dr]> (copied n i srows drows) = copied n (S i) srows drows.
Proof.
  intros Hs Hd. unfold copied.
  pose proof (lookup_lt_Some _ _ _ Hs). pose proof (lookup_lt_Some _ _ _ Hd).
  rewrite insert_app_r_alt; rewrite length_zip_with, !length_take; [|lia].
  replace (i - _) with 0 by lia.
  rewrite (drop_S _ _ _ Hd). cbn [insert list_insert].
  rewrite (take_S_r _ _ _ Hs), (take_S_r _ _ _ Hd).
  rewrite zip_with_app by (rewrite !length_take; lia).
  by rewrite <- app_assoc.
Qed.

Lemma copied_all n k srows drows :
  k = length srows `min` length drows →
  copied n k srows drows = overwritten n srows drows.
Proof.
  intros ->. unfold copied, overwritten.
  rewrite zip_with_take_both' by lia. f_equal.
  destruct (decide (length srows ≤ length drows)).
  - by rewrite Nat.min_l.
  - rewrite Nat.min_r by lia. by rewrite !drop_ge by lia.
Qed.

Lemma copied_length n i srows drows :
  i ≤ length srows → length (copied n i srows drows) = length drows.
Proof.
  intros Hi. unfold copied. rewrite length_app, length_zip_with, !length_take, length_drop. lia.
Qed.

Lemma rows_store (h : gmap addr block) ptrs rows i b r' :
  Forall2 (λ a r, h !! a = Some (BCells r)) ptrs rows →
  NoDup ptrs → ptrs !! i = Some b →
  Forall2 (λ a r, <[b := BCells r']> h !! a = Some (BCells r)) ptrs (<[i := r']> rows).
Proof.
  intros Hrows Hnd Hb. apply Forall2_same_length_lookup. split.
  - rewrite length_insert. by eapply Forall2_length.
  - intros j a r Ha Hr. destruct (decide (j = i)) as [->|Hne].
    + assert (a = b) as -> by congruence.
      rewrite list_lookup_insert_eq in Hr.
      * injection Hr as <-. by rewrite lookup_insert_eq.
      * rewrite <- (Forall2_length _ _ _ Hrows). by eapply lookup_lt_Some.
    + rewrite list_lookup_insert_ne in Hr by done.
      rewrite lookup_insert_ne.
      * apply (Forall2_lookup_lr _ _ _ _ _ _ Hrows Ha Hr).
      * intros <-. apply Hne. by eapply NoDup_lookup.
Qed.

Lemma wp_overwrite_from d sy dy n sptrs stail srows dptrs dtail drows k :
  ∀ i w (Q : unit → world → Prop),
  heap w !! sy = Some (BLines (sptrs ++ stail)) →
  heap w !! dy = Some (BLines (dptrs ++ dtail)) →
  Forall2 (λ a r, heap w !! a = Some (BCells r)) sptrs srows →
  Forall2 (λ a r, heap w !! a = Some (BCells r)) dptrs (copied n i srows drows) →
  (∀ a, a ∈ sptrs → a ∉ dptrs) → NoDup dptrs →
  Forall (λ r, n ≤ length r) srows → Forall (λ r, n ≤ length r) drows →
  i + k ≤ length srows → i + k ≤ length drows →
  (∀ h',
     (∀ a, a ∉ dptrs → h' !! a = heap w !! a) →
     Forall2 (λ a r, h' !! a = Some (BCells r)) dptrs (copied n (i + k) srows drows) →
     Q tt (with_heap h' w)) →
  wp d (overwrite_from k sy dy n i) Q w.
Proof.
  induction k as [|k IH]; intros i w Q Hsy Hdy Hsrc Hdst Hdisj Hnd Hsn Hdn Hsl Hdl HQ.
  - apply wp_ret. rewrite Nat.add_0_r in HQ.
    replace w with (with_heap (heap w) w) by (by destruct w). by apply HQ.
  - pose proof (Forall2_length _ _ _ Hsrc) as Hls.
    pose proof (Forall2_length _ _ _ Hdst) as Hld. rewrite copied_length in Hld by lia.
    destruct (lookup_lt_is_Some_2 sptrs i) as [a Ha]; [lia|].
    destruct (lookup_lt_is_Some_2 dptrs i) as [b Hb]; [lia|].
    destruct (lookup_lt_is_Some_2 srows i) as [sr Hsr]; [lia|].
    destruct (lookup_lt_is_Some_2 drows i) as [dr Hdr]; [lia|].
    pose proof (Forall2_lookup_lr _ _ _ _ _ _ Hsrc Ha Hsr) as Hha.
    pose proof (Forall2_lookup_lr _ _ _ _ _ _ Hdst Hb
                  (copied_lookup n i srows drows dr ltac:(lia) Hdr)) as Hhb.
    pose proof (Forall_lookup_1 _ _ _ _ Hsn Hsr) as Hnsr.
    pose proof (Forall_lookup_1 _ _ _ _ Hdn Hdr) as Hndr.
    cbv beta in Hha, Hhb, Hnsr, Hndr.
    cbn [overwrite_from].
    apply wp_bind. eapply wp_load_line; [exact Hsy| |rewrite length_app; intros; lia].
    intros a' Ha'. rewrite lookup_app_l in Ha' by lia. assert (a' = a) as -> by congruence.
    apply wp_bind. eapply wp_load_line; [exact Hdy| |rewrite length_app; intros; lia].
    intros b' Hb'. rewrite lookup_app_l in Hb' by lia. assert (b' = b) as -> by congruence.
    apply wp_bind. eapply wp_load_cells; [exact Hha|exact Hnsr|].
    apply wp_bind. eapply wp_store_cells; [exact Hhb| |].
    { rewrite length_take. lia. }
    rewrite length_take, Nat.min_l by done. fold (merge_row n sr dr).
    assert (Hba : ∀ x, x ∈ sptrs → x ≠ b).
    { intros x Hx ->. apply (Hdisj b Hx). by eapply list_elem_of_lookup_2. }
    eapply (IH (S i)); wsimpl.
    + rewrite lookup_insert_ne by congruence. exact Hsy.
    + rewrite lookup_insert_ne by congruence. exact Hdy.
    + eapply rows_frame; [exact Hsrc|]. intros x Hx.
      apply lookup_insert_ne. intros <-. by apply (Hba _ Hx).
    + rewrite <- (copied_S n i srows drows sr dr Hsr Hdr).
      by apply rows_store.
    + exact Hdisj.
    + exact Hnd.
    + exact Hsn.
    + exact Hdn.
    + lia.
    + lia.
    + intros h' Hsame Hrows'. apply (HQ h').
      * intros x Hx. rewrite Hsame by done. apply lookup_insert_ne.
        intros <-. apply Hx. by eapply list_elem_of_lookup_2.
      * by replace (i + S k) with (S i + k) by lia.
Qed.

Lemma merge_row_length n sr dr :
  n ≤ length sr → n ≤ length dr → length (merge_row n sr dr) = length dr.
Proof.
  intros Hs Hd. unfold merge_row. rewrite length_app, length_take, length_drop. lia.
Qed.

Lemma merge_row_idem n sr dr :
  n ≤ length sr → merge_row n sr (merge_row n sr dr) = merge_row n sr dr.
Proof.
  intros Hs. unfold merge_row. f_equal.
  rewrite drop_app_length'; [done|]. rewrite length_take. lia.
Qed.

Lemma overwritten_cons n sr srows dr drows :
  overwritten n (sr :: srows) (dr :: drows) = merge_row n sr dr :: overwritten n srows drows.
Proof. done. Qed.

Lemma overwritten_idem n srows : ∀ drows,
  Forall (λ r, n ≤ length r) srows →
  overwritten n srows (overwritten n srows drows) = overwritten n srows drows.
Proof.
  induction srows as [|sr srows IH]; intros drows Hs; [done|].
  apply Forall_cons_1 in Hs as [Hsr Hs].
  destruct drows as [|dr drows]; [done|].
  rewrite !overwritten_cons, merge_row_idem by done. by rewrite IH.
Qed.

Lemma overwritten_sizes n size srows : ∀ drows,
  Forall (λ r, n ≤ length r) srows → n ≤ size →
  Forall (λ r, length r = size) drows →
  Forall (λ r, length r = size) (overwritten n srows drows).
Proof.
  induction srows as [|sr srows IH]; intros drows Hs Hn Hd; [done|].
  apply Forall_cons_1 in Hs as [Hsr Hs].
  destruct drows as [|dr drows]; [done|].
  apply Forall_cons_1 in Hd as [Hdr Hd].
  rewrite overwritten_cons. constructor; [|by apply IH].
  rewrite merge_row_length; [done|done|lia].
Qed.

Lemma scr_restore_ok w name dump sd dptrs drows fs ls :
  screen_ok w sd dptrs drows fs ls →
  disk w !! name = Some dump → fopen_ok name = true →
  well_formed_dump dump →
  (∀ n size, malloc_ok n size = true) →
  ∃ w',
    scr_restore (Some name) w = Some (OK, w') ∧
    screen_ok w' sd dptrs (restored dump sd drows) fs ls ∧
    curscr w' = curscr w ∧ disk w' = disk w.
Proof.
  intros (Hscr & Hwa & Hnd & Hdsz) Hdisk Hopen
         (Hh & Hl & Hy1 & Hx1 & Hfx & Hfp & Hfi & Hbody) Hmalloc.
  set (s := dump_struct dump) in *.
  assert (Hrs : row_size s = Z.to_nat (_maxx s) * sizeof_chtype).
  { unfold row_size. apply size_mul_exact; lia. }
  assert (Hfit : arrays_fit s) by (apply arrays_fit_exact; lia).
  assert (Hacc : ∀ n0, accepted n0 dump).
  { intros n0. split; [done|]. split; [done|]. split.
    - intros j size _. apply Hmalloc.
    - unfold body_ok. fold s. split; [done|]. intros _. rewrite Hrs.
      pose proof sizeof_chtype_pos. nia. }
  cut (wp False (scr_restore (Some name))
         (λ r w', r = OK ∧ screen_ok w' sd dptrs (restored dump sd drows) fs ls ∧
                  curscr w' = curscr w ∧ disk w' = disk w) w).
  { intros Hwp. apply wp_total in Hwp as (r & w' & Hrun & -> & Hpost). eauto. }
  unfold scr_restore.
  apply wp_bind. unfold fopen_rb at 1. unfold wp at 1. rewrite Hopen, Hdisk.
  set (w0 := logged (EvFopen name false true) w).
  apply wp_bind.
  eapply wp_mono; [apply (getwin_wp False w0 (Some (FileR dump)))|].
  { intros u [= <-] Hno. by apply Hno. }
  intros [q f'] w1 [Hst1 Hpost]. cbn [fst snd] in Hpost. cbn beta iota.
  destruct Hpost as [(-> & _ & Hno)|
    (u & y & fc & lc & sptrs & ytail & ftail & ltail & Hpost)].
  { by destruct (Hno dump eq_refl (Hacc _)). }
  cbn zeta in Hpost.
  destruct Hpost as ([= <-] & _ & Hq & -> & Hown & Hlen & _ & _).
  fold s in Hown, Hlen.
  apply wp_bind. unfold fclose at 1. unfold wp at 1. cbn [default].
  rewrite decide_False by done.
  match goal with |- wp _ _ _ ?W => set (w2 := W) end.
  assert (Hst2 : steps (dom (heap w)) w w2).
  { eapply steps_trans; [apply (steps_logged _ (EvFopen name false true))|].
    eapply steps_trans; [exact Hst1|].
    subst w2. split; cbn; first [done | lia | by exists [EvFclose]]. }
  assert (Hheap2 : heap w2 = heap w1) by done.
  clearbody w2.
  pose proof (steps_window_at _ _ _ _ _ _ _ _ Hst2 Hwa) as Hwa2.
  rewrite <- Hheap2 in Hown.
  change (dom (heap w0)) with (dom (heap w)) in Hown.
  (* the copy *)
  apply wp_bind. apply wp_ret. rewrite (st_curscr _ _ _ Hst2).
  apply wp_bind. unfold overwrite.
  rewrite decide_False by (intros [?|?]; done).
  apply wp_bind. eapply wp_load_win; [apply (ow_win _ _ _ _ _ _ _ _ _ Hown)|].
  apply wp_bind. eapply wp_load_win; [apply (wa_win _ _ _ _ _ _ _ Hwa2)|].
  wsimpl.
  destruct Hwa2 as [Hdwin [dtail Hdy] Hdn Hdrows Hdf Hdl Hdd].
  pose proof (Forall2_length _ _ _ Hdrows) as Hdlen.
  pose proof (Forall2_length _ _ _ (ow_rows _ _ _ _ _ _ _ _ _ Hown)) as Hslen.
  set (n := Z.to_nat (Z.min (_maxx s) (_maxx sd)) * sizeof_chtype).
  set (srows := split_rows (nlines s) (row_size s) (dump_body dump)) in *.
  assert (Hsn : Forall (λ r, n ≤ length r) srows).
  { eapply Forall_impl; [apply split_rows_sizes; exact Hbody|].
    cbn. intros r ->. rewrite Hrs. subst n. apply Nat.mul_le_mono_r. lia. }
  assert (Hdn' : Forall (λ r, n ≤ length r) drows).
  { eapply Forall_impl; [exact Hdsz|].
    cbn. intros r ->. subst n. apply Nat.mul_le_mono_r. lia. }
  assert (Hk : Z.to_nat (Z.min (_maxy s) (_maxy sd)) = length srows `min` length drows).
  { rewrite Z2Nat.inj_min. rewrite <- Hslen, <- Hdlen, Hlen, Hdn. done. }
  assert (HdD : ∀ a, a ∈ dptrs → a ∈ dom (heap w)).
  { intros a Ha. apply list_elem_of_lookup in Ha as [i Hi].
    destruct (Forall2_lookup_l _ _ _ _ _ (wa_rows _ _ _ _ _ _ _ Hwa) Hi) as (r & _ & Hr).
    apply elem_of_dom. by rewrite Hr. }
  apply wp_bind.
  eapply (wp_overwrite_from False y (_y sd) n sptrs ytail srows dptrs dtail drows
            _ 0 w2).
  { apply (ow_y _ _ _ _ _ _ _ _ _ Hown). }
  { exact Hdy. }
  { apply (ow_rows _ _ _ _ _ _ _ _ _ Hown). }
  { by rewrite copied_0. }
  { intros a Ha HaD. apply HdD in HaD.
    by destruct (owned_fresh_line _ _ _ _ _ _ _ _ _ _ Hown Ha). }
  { exact Hnd. }
  { exact Hsn. }
  { exact Hdn'. }
  { rewrite Hk. lia. }
  { rewrite Hk. lia. }
  intros h3 Hsame Hrows3. cbn [Nat.add] in Hrows3.
  rewrite (copied_all n _ srows drows Hk) in Hrows3.
  apply wp_ret.
  (* the temporary window goes *)
  assert (Hown3 : owned (dom (heap w)) h3 q
            (with_lastch lc (with_firstch fc (with_y y s))) sptrs ytail srows
            (replicate (nlines s) 0%Z ++ ftail)
            (replicate (nlines s) (_maxx s - 1)%Z ++ ltail)).
  { eapply owned_foreign; [exact Hown| |].
    - intros a Ha. apply Hsame. intros Hin. by apply Ha, HdD.
    - intros a Ha. destruct (decide (a ∈ dptrs)) as [Hin|Hin].
      + apply list_elem_of_lookup in Hin as [i Hi].
        destruct (Forall2_lookup_l _ _ _ _ _ Hrows3 Hi) as (r & _ & Hr). by rewrite Hr.
      + rewrite Hsame by done. apply (ow_dom _ _ _ _ _ _ _ _ _ Hown a Ha). }
  apply wp_bind.
  eapply (wp_delwin False (dom (heap w)) q _ sptrs ytail srows _ _ (with_heap h3 w2));
    [exact Hown3|exact Hlen|].
  intros w4 Hst4. apply wp_ret.
  assert (Hold : ∀ a, is_Some (heap w !! a) → a ∉ dptrs → heap w4 !! a = heap w !! a).
  { intros a Ha Hin. apply elem_of_dom in Ha.
    rewrite (st_frame _ _ _ Hst4 a Ha). cbn [heap with_heap].
    rewrite Hsame by done. apply (st_frame _ _ _ Hst2 a Ha). }
  assert (Hrows4 : Forall2 (λ a r, heap w4 !! a = Some (BCells r)) dptrs
                           (overwritten n srows drows)).
  { eapply rows_frame; [exact Hrows3|]. intros a Ha.
    apply (st_frame _ _ _ Hst4 a (HdD a Ha)). }
  split; [done|]. split; [|split].
  - split; [|split; [|split]].
    + rewrite (st_curscr _ _ _ Hst4). cbn [curscr with_heap].
      by rewrite (st_curscr _ _ _ Hst2).
    + rewrite (st_curscr _ _ _ Hst4). cbn [curscr with_heap].
      rewrite (st_curscr _ _ _ Hst2).
      eapply window_at_transfer; [exact Hwa|exact Hold|exact Hrows4].
    + exact Hnd.
    + apply overwritten_sizes; [exact Hsn| |exact Hdsz].
      subst n. apply Nat.mul_le_mono_r. lia.
  - rewrite (st_curscr _ _ _ Hst4). cbn [curscr with_heap].
    by rewrite (st_curscr _ _ _ Hst2).
  - rewrite (st_disk _ _ _ Hst4). cbn [disk with_heap].
    by rewrite (st_disk _ _ _ Hst2).
Qed.

(** Claim C8 (idempotent restore).  With a screen window in place, a
    well-formed dump on the disk under a name that [fopen] accepts, and
    allocations granted, two calls of [scr_restore] in a row both return
    [OK], both leave [curscr] where it was, and the screen window after the
    second call has exactly the cells and dirty ranges it had after the
    first: the dump's lines copied over the top left corner of the
    screen's. *)
Theorem scr_restore_idempotent w name dump sd dptrs drows fs ls :
  screen_ok w sd dptrs drows fs ls →
  disk w !! name = Some dump → fopen_ok name = true →
  well_formed_dump dump →
  (∀ n size, malloc_ok n size = true) →
  ∃ w1 w2,
    scr_restore (Some name) w = Some (OK, w1) ∧
    scr_restore (Some name) w1 = Some (OK, w2) ∧
    curscr w1 = curscr w ∧ curscr w2 = curscr w ∧
    window_at (heap w1) (curscr w) sd dptrs (restored dump sd drows) fs ls ∧
    window_at (heap w2) (curscr w) sd dptrs (restored dump sd drows) fs ls.
Proof.
  intros Hscr Hdisk Hopen Hwf Hmalloc.
  destruct (scr_restore_ok w name dump sd dptrs drows fs ls Hscr Hdisk Hopen Hwf Hmalloc)
    as (w1 & Hrun1 & Hscr1 & Hc1 & Hd1).
  rewrite <- Hd1 in Hdisk.
  destruct (scr_restore_ok w1 name dump sd dptrs _ fs ls Hscr1 Hdisk Hopen Hwf Hmalloc)
    as (w2 & Hrun2 & Hscr2 & Hc2 & Hd2).
  exists w1, w2. split; [done|]. split; [done|]. split; [done|].
  split; [congruence|].
  destruct Hscr1 as (_ & Hw1 & _). destruct Hscr2 as (_ & Hw2 & _).
  rewrite Hc1 in Hw1. rewrite Hc2, Hc1 in Hw2.
  split; [done|].
  unfold restored in *. rewrite overwritten_idem in Hw2; [done|].
  destruct Hwf as (_ & _ & Hy1 & Hx1 & Hfx & _ & _ & Hbody).
  eapply Forall_impl; [apply split_rows_sizes; exact Hbody|].
  cbn. intros r ->. unfold row_size. rewrite size_mul_exact by lia.
  apply Nat.mul_le_mono_r. lia.
Qed.

End Restore.

(** ** More about putwin *)

Section PutwinFrame.
Context {abi : ABI}.

Ltac log_eq := unfold logged_all, logged; cbn; rewrite <- ?app_assoc; reflexivity.

Lemma extends_refl f : extends f f.
Proof.
  destruct f as [u|name written room]; cbn; [done|].
  split; [done|]. exists []. rewrite app_nil_r. cbn. split; [done|]. split; lia.
Qed.

Lemma extends_trans f1 f2 f3 : extends f1 f2 → extends f2 f3 → extends f1 f3.
Proof.
  destruct f1 as [u1|n1 wr1 r1], f2 as [u2|n2 wr2 r2], f3 as [u3|n3 wr3 r3];
    cbn; try done; [congruence|].
  intros (-> & o1 & -> & H1 & ->) (-> & o2 & -> & H2 & ->).
  split; [done|]. exists (o1 ++ o2). rewrite length_app, app_assoc.
  split; [done|]. split; lia.
Qed.

Lemma fwrite_run data f w :
  ∃ items f',
    fwrite data f w = Some ((items, f'), logged (EvFwrite (length data) items) w) ∧
    extends f f'.
Proof.
  destruct f as [u|name written room]; cbn.
  - by exists 0, (FileR u).
  - eexists _, _. split; [done|]. cbn. split; [done|].
    exists (take room data). rewrite length_take. split; [done|]. split; [lia|done].
Qed.

Lemma putwin_lines_quiet k : ∀ s i f w r f' w',
  putwin_lines k s i f w = Some ((r, f'), w') →
  extends f f' ∧ ∃ evs, w' = logged_all evs w ∧ Forall is_fwrite evs.
Proof.
  induction k as [|k IH]; intros s i f w r f' w' Hrun; cbn in Hrun.
  - injection Hrun as <- <- <-. split; [apply extends_refl|].
    exists []. by rewrite logged_all_nil.
  - unfold bind at 1 in Hrun. unfold load_line in Hrun.
    destruct (heap w !! _y s) as [[|ys| |]|]; try done.
    destruct (ys !! i) as [a|]; [|done].
    destruct (decide (a = NULL)) as [_|_].
    { injection Hrun as <- <- <-. split; [apply extends_refl|].
      exists []. by rewrite logged_all_nil. }
    unfold bind at 1 in Hrun. unfold load_cells in Hrun.
    destruct (heap w !! a) as [[| | |bs]|]; try done.
    case_decide; [|done].
    unfold bind at 1 in Hrun.
    destruct (fwrite_run (take (size_mul (_maxx s) sizeof_chtype) bs) f w)
      as (items & f1 & Hw & Hext).
    rewrite Hw in Hrun.
    destruct (decide (items = 0)) as [_|_].
    + injection Hrun as <- <- <-. split; [done|].
      eexists [_]. split; [log_eq|by repeat constructor].
    + apply IH in Hrun as (Hext' & evs & -> & Hevs).
      split; [by eapply extends_trans|].
      eexists (_ :: evs). split; [log_eq|by constructor].
Qed.

Lemma putwin_quiet win f w r fr w' :
  putwin win (Some f) w = Some ((r, fr), w') →
  (∃ evs, w' = logged_all evs w ∧ Forall is_fwrite evs) ∧
  ∃ f', fr = Some f' ∧ extends f f'.
Proof.
  intros Hrun.
  unfold putwin in Hrun. unfold bind at 1 in Hrun.
  destruct (fwrite_run marker f w) as (i1 & f1 & Hw1 & E1).
  rewrite Hw1 in Hrun.
  destruct (decide (i1 = 0)) as [_|_].
  { injection Hrun as <- <- <-. split; [|by exists f1].
    eexists [_]. split; [log_eq|by repeat constructor]. }
  unfold bind at 1 in Hrun.
  destruct (fwrite_run [version] f1 (logged (EvFwrite (length marker) i1) w))
    as (i2 & f2 & Hw2 & E2).
  rewrite Hw2 in Hrun.
  destruct (decide (i2 = 0)) as [_|_].
  { injection Hrun as <- <- <-.
    split; [|exists f2; split; [done|by eapply extends_trans]].
    eexists [_; _]. split; [log_eq|by repeat constructor]. }
  unfold bind at 1 in Hrun. unfold load_win in Hrun. cbn [heap logged] in Hrun.
  destruct (heap w !! win) as [[s| | |]|]; try done.
  unfold bind at 1 in Hrun.
  match type of Hrun with context [fwrite ?d ?g ?v] =>
    destruct (fwrite_run d g v) as (i3 & f3 & Hw3 & E3) end.
  rewrite Hw3 in Hrun.
  destruct (decide (i3 = 0)) as [_|_].
  { injection Hrun as <- <- <-.
    split; [|exists f3; split; [done|]; eapply extends_trans; [|exact E3];
             by eapply extends_trans].
    eexists [_; _; _]. split; [log_eq|by repeat constructor]. }
  unfold bind at 1 in Hrun.
  destruct (putwin_lines _ _ _ _ _) as [[[r' f4] w4]|] eqn:Hl; [|done].
  injection Hrun as <- <- <-.
  apply putwin_lines_quiet in Hl as (E4 & evs & -> & Hevs).
  split.
  - eexists (_ :: _ :: _ :: evs). split; [log_eq|by repeat constructor].
  - exists f4. split; [done|].
    eapply extends_trans; [|exact E4].
    eapply extends_trans; [|exact E3].
    by eapply extends_trans.
Qed.


(** What [putwin] comes to once the marker, the version and the struct
    have gone out. *)
Lemma putwin_header_run w p s name written room :
  heap w !! p = Some (BWindow s) →
  4 + sizeof_WINDOW ≤ room →
  putwin p (Some (FileW name written room)) w =
    (let! (r, f) :=
       putwin_lines (Z.to_nat (_maxy s)) s 0
         (FileW name (written ++ marker ++ [version] ++ WINDOW_bytes s)
                (room - (4 + sizeof_WINDOW))) in
     ret (r, Some f))
      (logged_all [EvFwrite 3 1; EvFwrite 1 1; EvFwrite sizeof_WINDOW 1] w).
Proof.
  intros Hp Hroom.
  pose proof (WINDOW_bytes_length s) as Hlen. pose proof sizeof_WINDOW_pos as Hpos.
  unfold putwin. unfold bind at 1. unfold fwrite at 1. unfold bind at 1, emit, ret.
  rewrite (decide_True (P := 0 < length marker ∧ length marker ≤ room))
    by (cbn; lia).
  rewrite decide_False by done.
  rewrite (take_ge marker room) by (cbn; lia).
  unfold bind at 1. unfold fwrite at 1. unfold bind at 1, emit, ret.
  rewrite (decide_True (P := 0 < length [version] ∧ _)) by (cbn; lia).
  rewrite decide_False by done.
  rewrite (take_ge [version]) by (cbn; lia).
  unfold bind at 1. unfold load_win. cbn [heap logged]. rewrite Hp.
  unfold bind at 1. unfold fwrite at 1. unfold bind at 1, emit, ret.
  rewrite (decide_True (P := 0 < length (WINDOW_bytes s) ∧ _))
    by (rewrite Hlen; cbn; lia).
  rewrite decide_False by done.
  rewrite (take_ge (WINDOW_bytes s)) by (rewrite Hlen; cbn; lia).
  rewrite Hlen, <- !app_assoc.
  replace (room - length marker - length [version] - sizeof_WINDOW)
    with (room - (4 + sizeof_WINDOW)) by (cbn; lia).
  rewrite <- !logged_logged_all, logged_all_nil. reflexivity.
Qed.

(** X3: a window of no width.  A window whose [_maxx] is 0 and which has
    a first line is not dumped: with room to spare [putwin] writes the
    marker, the version and the struct, the [fwrite] of the first line, of
    size 0, returns 0, and [putwin] returns [ERR]. *)
Theorem putwin_zero_width w p s a ys bs name written room :
  heap w !! p = Some (BWindow s) →
  _maxx s = 0%Z → (1 ≤ _maxy s)%Z →
  heap w !! _y s = Some (BLines (a :: ys)) → a ≠ NULL →
  heap w !! a = Some (BCells bs) →
  4 + sizeof_WINDOW ≤ room →
  putwin p (Some (FileW name written room)) w =
    Some ((ERR, Some (FileW name (written ++ marker ++ [version] ++ WINDOW_bytes s)
                            (room - (4 + sizeof_WINDOW)))),
          logged_all [EvFwrite 3 1; EvFwrite 1 1; EvFwrite sizeof_WINDOW 1;
                      EvFwrite 0 0] w).
Proof.
  intros Hp Hx Hy Hl Ha Hb Hroom.
  rewrite (putwin_header_run w p s) by done.
  destruct (Z.to_nat (_maxy s)) as [|k] eqn:Hk; [lia|].
  cbn [putwin_lines]. unfold bind at 1. unfold bind at 1.
  unfold load_line. cbn [heap logged_all]. rewrite Hl. cbn [lookup list_lookup].
  rewrite decide_False by done.
  unfold bind at 1. unfold load_cells. cbn [heap logged_all]. rewrite Hb.
  assert (Hs : size_mul (_maxx s) sizeof_chtype = 0).
  { unfold size_mul. rewrite Hx, Z.mul_0_l, Z.mod_0_l; [done|].
    pose proof SIZE_MOD_pos. lia. }
  rewrite Hs. rewrite decide_True by lia. rewrite take_0.
  unfold bind at 1. unfold fwrite. unfold bind at 1, emit, ret.
  rewrite (decide_False (P := 0 < length [] ∧ _)) by (cbn; lia).
  rewrite decide_True by done.
  rewrite take_nil, app_nil_r. cbn [length]. rewrite Nat.sub_0_r.
  do 2 f_equal. log_eq.
Qed.

(** X4: a window of no height.  For a window whose [_maxy] is zero or
    less, [putwin] writes the marker, the version and the struct and
    returns [OK]; it does not read [_y], which need not point anywhere. *)
Theorem putwin_no_lines w p s name written room :
  heap w !! p = Some (BWindow s) →
  (_maxy s ≤ 0)%Z →
  4 + sizeof_WINDOW ≤ room →
  putwin p (Some (FileW name written room)) w =
    Some ((OK, Some (FileW name (written ++ marker ++ [version] ++ WINDOW_bytes s)
                           (room - (4 + sizeof_WINDOW)))),
          logged_all [EvFwrite 3 1; EvFwrite 1 1; EvFwrite sizeof_WINDOW 1] w).
Proof.
  intros Hp Hy Hroom.
  rewrite (putwin_header_run w p s) by done.
  by rewrite Z2Nat.nonpos by done.
Qed.




End PutwinFrame.

(** ** scr_dump *)

Section ScrDump.
Context {abi : ABI} {env : Env}.

(** [scr_dump] on a screen window that is in the heap with its lines, to a
    file that can be opened: the run of [putwin] between [fopen] and
    [fclose]. *)
Lemma scr_dump_run w name s ys rows :
  fopen_ok name = true →
  heap w !! curscr w = Some (BWindow s) →
  heap w !! _y s = Some (BLines ys) →
  Z.to_nat (_maxy s) ≤ length ys →
  mapM (line_bytes (heap w) (size_mul (_maxx s) sizeof_chtype))
       (lines_to_write (take (Z.to_nat (_maxy s)) ys)) = Some rows →
  ∃ w',
    scr_dump (Some name) w =
      Some (write_status (marker :: [version] :: WINDOW_bytes s :: rows)
                         (disk_room name), w') ∧
    heap w' = heap w ∧ curscr w' = curscr w ∧ nmalloc w' = nmalloc w ∧
    disk w' =
      <[name := write_put (marker :: [version] :: WINDOW_bytes s :: rows)
                          (disk_room name)]> (disk w) ∧
    trace w' = trace w ++ [EvFopen name true true] ++
               write_log (marker :: [version] :: WINDOW_bytes s :: rows)
                         (disk_room name) ++ [EvFclose].
Proof.
  intros Hopen Hp Hy Hlen Hrows.
  unfold scr_dump. unfold bind at 1. unfold fopen_wb. rewrite Hopen.
  unfold bind at 1. unfold get_curscr. cbn [curscr logged with_disk].
  unfold bind at 1.
  rewrite (putwin_run _ (curscr w) s ys rows) by done.
  cbn [default]. unfold bind at 1. unfold fclose, ret.
  eexists. split; [reflexivity|].
  cbn [heap curscr nmalloc disk trace logged logged_all with_disk id].
  rewrite insert_insert_eq, app_nil_l, <- !app_assoc. done.
Qed.

(** X5: scr_dump writes the file.  When the file opens, the screen
    window is all there with a positive row size and the device has room,
    [scr_dump] returns [OK]; the file then holds the marker, the version,
    the struct and the lines, whatever it held before; the heap and
    [curscr] are as they were; and the calls are an [fopen], one successful
    [fwrite] for each of the 3 + lines chunks, and an [fclose]. *)
Theorem scr_dump_writes_file w name s ys rows :
  fopen_ok name = true →
  heap w !! curscr w = Some (BWindow s) →
  heap w !! _y s = Some (BLines ys) →
  Z.to_nat (_maxy s) ≤ length ys →
  mapM (line_bytes (heap w) (size_mul (_maxx s) sizeof_chtype))
       (lines_to_write (take (Z.to_nat (_maxy s)) ys)) = Some rows →
  0 < size_mul (_maxx s) sizeof_chtype →
  4 + sizeof_WINDOW + length (concat rows) ≤ disk_room name →
  ∃ w' evs,
    scr_dump (Some name) w = Some (OK, w') ∧
    disk w' = <[name := marker ++ [version] ++ WINDOW_bytes s ++ concat rows]> (disk w) ∧
    heap w' = heap w ∧ curscr w' = curscr w ∧
    trace w' = trace w ++ [EvFopen name true true] ++ evs ++ [EvFclose] ∧
    Forall (λ e, ∃ size, e = EvFwrite size 1) evs ∧
    length evs = 3 + length rows.
Proof.
  intros Hopen Hp Hy Hlen Hrows Hsize Hroom.
  destruct (scr_dump_run w name s ys rows) as (w' & Hrun & Hh & Hc & _ & Hd & Ht);
    try done.
  destruct (line_bytes_sizes _ _ _ _ Hrows) as [Hsz _].
  pose proof (WINDOW_bytes_length s) as Hwl. pose proof sizeof_WINDOW_pos as Hpos.
  set (chunks := marker :: [version] :: WINDOW_bytes s :: rows) in *.
  assert (Hok : write_status chunks (disk_room name) = OK).
  { apply write_status_OK. split.
    - repeat constructor; [cbn; lia..|rewrite Hwl; lia|].
      eapply Forall_impl; [exact Hsz|]. cbn. intros r ->. done.
    - subst chunks. cbn [concat]. rewrite !length_app, Hwl. cbn. lia. }
  destruct (write_log_shape chunks (disk_room name)) as (n & Hlog & Hn).
  apply Hn in Hok as Hall.
  rewrite take_ge, lookup_ge_None_2, app_nil_r in Hlog by done.
  exists w', (map (λ c, EvFwrite (length c) 1) chunks).
  rewrite Hok in Hrun. rewrite (write_put_all _ _ Hok) in Hd. rewrite Hlog in Ht.
  split; [done|]. split; [done|]. split; [done|]. split; [done|].
  split; [done|]. split.
  - clear. induction chunks as [|c cs IH]; cbn; constructor; [by eexists|done].
  - by rewrite length_map.
Qed.


(** X7: what scr_dump touches.  Every run of [scr_dump] that returns
    leaves the heap, [curscr] and the allocation count as they were and
    touches no file but the one named.  Its calls are none (null filename),
    a failed [fopen], or an [fopen], calls of [fwrite] and a closing
    [fclose]: a stream that was opened is closed, whatever [putwin]
    returned. *)
Theorem scr_dump_frame filename w r w' :
  scr_dump filename w = Some (r, w') →
  heap w' = heap w ∧ curscr w' = curscr w ∧ nmalloc w' = nmalloc w ∧
  (∀ other, filename ≠ Some other → disk w' !! other = disk w !! other) ∧
  ((r = ERR ∧ trace w' = trace w ∧ filename = None) ∨
   (∃ name, r = ERR ∧ filename = Some name ∧ fopen_ok name = false ∧
            trace w' = trace w ++ [EvFopen name true false]) ∨
   (∃ name evs out,
      filename = Some name ∧ fopen_ok name = true ∧
      trace w' = trace w ++ [EvFopen name true true] ++ evs ++ [EvFclose] ∧
      Forall is_fwrite evs ∧
      disk w' = <[name := out]> (disk w) ∧ length out ≤ disk_room name)).
Proof.
  intros Hrun. destruct filename as [name|]; unfold scr_dump in Hrun.
  2: { injection Hrun as <- <-. repeat split; try done. by left. }
  unfold bind at 1 in Hrun. unfold fopen_wb in Hrun.
  destruct (fopen_ok name) eqn:Hopen.
  2: { injection Hrun as <- <-. repeat split; try done.
       right. left. by exists name. }
  unfold bind at 1 in Hrun. unfold get_curscr in Hrun.
  unfold bind at 1 in Hrun.
  destruct (putwin _ _ _) as [[[st fr] w1]|] eqn:Hput; [|done].
  apply putwin_quiet in Hput as ((evs & -> & Hevs) & f' & -> & Hext).
  destruct f' as [u|name' out room']; [done|].
  destruct Hext as (-> & out' & Hout & Hlen & _). cbn in Hout. subst out.
  cbn [default from_option id] in Hrun. unfold bind at 1, fclose, ret in Hrun.
  injection Hrun as <- <-.
  cbn [heap curscr nmalloc disk trace logged logged_all with_disk].
  rewrite insert_insert_eq.
  split; [done|]. split; [done|]. split; [done|]. split.
  - intros other Hne. rewrite lookup_insert_ne by congruence. done.
  - right. right. exists name, evs, out'.
    rewrite <- !app_assoc. done.
Qed.

(** X8: scr_dump without a screen.  [scr_dump] passes [curscr] to
    [putwin] unchecked: when the file opens with room for the marker and
    the version and [curscr] is not the address of a live block, the run
    faults where [putwin] reads the struct; it does not return [ERR]. *)
Theorem scr_dump_without_screen w name :
  fopen_ok name = true → 4 ≤ disk_room name →
  heap w !! curscr w = None →
  scr_dump (Some name) w = None.
Proof.
  intros Hopen Hroom Hscr.
  unfold scr_dump. unfold bind at 1. unfold fopen_wb. rewrite Hopen.
  unfold bind at 1. unfold get_curscr. cbn [curscr logged with_disk].
  unfold bind at 1.
  by rewrite putwin_reads_window.
Qed.

End ScrDump.

(** ** More about getwin *)

Section GetwinExits.
Context {abi : ABI} {env : Env}.

Ltac heap_eq :=
  apply map_eq; intros ?a;
  repeat first
    [ rewrite lookup_delete_eq
    | rewrite lookup_insert_eq
    | match goal with
      | |- context [delete ?p _ !! ?a] =>
          destruct (decide (a = p)) as [->|];
          [rewrite lookup_delete_eq | rewrite lookup_delete_ne by done]
      | |- context [<[?p := _]> _ !! ?a] =>
          destruct (decide (a = p)) as [->|];
          [rewrite lookup_insert_eq | rewrite lookup_insert_ne by done]
      end ];
  try done; try congruence.

(** X9: getwin allocates first.  With a null stream and its allocation
    granted, [getwin] returns null after one [malloc] and the [free] of
    that block, and no read.  When the allocation is refused it returns
    null at once, for every stream, with the stream as it was. *)
Theorem getwin_null_stream w :
  (malloc_ok (nmalloc w) sizeof_WINDOW = true →
   ∃ win, win ≠ NULL ∧ heap w !! win = None ∧
     getwin None w =
       Some ((NULL, None),
             logged_all [EvMalloc sizeof_WINDOW win; EvFree win] (counted w))) ∧
  (malloc_ok (nmalloc w) sizeof_WINDOW = false →
   ∀ filep,
     getwin filep w =
       Some ((NULL, filep), logged (EvMalloc sizeof_WINDOW NULL) (counted w))).
Proof.
  split.
  - intros Hg. destruct (fresh_addr_spec (heap w)) as [Hnn Hfresh].
    exists (fresh_addr (heap w)). split; [done|]. split; [done|].
    unfold getwin. unfold bind at 1. unfold malloc. rewrite Hg.
    rewrite decide_False by done.
    unfold bind, free. rewrite decide_False by done.
    cbn [heap logged counted with_heap]. rewrite lookup_insert_eq.
    unfold ret. do 2 f_equal.
    unfold logged_all, logged, with_heap, counted. cbn.
    rewrite delete_insert_eq, delete_id by done. by rewrite <- !app_assoc.
  - intros Hg filep. unfold getwin. unfold bind at 1. unfold malloc. rewrite Hg.
    by rewrite decide_True by done.
Qed.

(** The first four requests of [getwin]: the struct, the line pointer
    array, and the two int arrays. *)
Lemma getwin_early_wp w filep :
  (∀ unread, filep = Some (FileR unread) →
     ¬ (header_ok unread ∧ 4 + sizeof_WINDOW ≤ length unread ∧
        granted (nmalloc w)
          [sizeof_WINDOW;
           size_mul (_maxy (dump_struct unread)) sizeof_ptr;
           size_mul (_maxy (dump_struct unread)) sizeof_int;
           size_mul (_maxy (dump_struct unread)) sizeof_int])) →
  wp False (getwin filep) (early_exit w) w.
Proof.
  intros Hno.
  unfold getwin. apply wp_bind. apply wp_malloc.
  2: { intros _. rewrite decide_True by done. apply wp_ret. unfold early_exit. cbn. repeat split; lia. }
  intros Hg0 win Hnn Hwin. rewrite decide_False by done.
  assert (Hreject : ∀ f' w1,
    heap w1 = <[win := BWindow WINDOW_fresh]> (heap w) →
    disk w1 = disk w → curscr w1 = curscr w → nmalloc w1 = S (nmalloc w) →
    wp False (let! _ := free win in ret (NULL, f')) (early_exit w) w1).
  { intros f' w1 Hh Hd Hc Hn. apply wp_bind.
    eapply wp_free; [done|by rewrite Hh, lookup_insert_eq|].
    apply wp_ret. unfold early_exit. wsimpl. rewrite Hh, Hd, Hc, Hn.
    repeat split; [|lia]. by rewrite delete_insert_eq, delete_id. }
  destruct filep as [[unread|name written room]|].
  3: { by apply Hreject. }
  2: { apply wp_bind. unfold fread. apply wp_bind. apply wp_of_run with (a := tt)
         (w' := logged (EvFread 4 0) (logged (EvMalloc sizeof_WINDOW win)
                  (counted (with_heap (<[win := BWindow WINDOW_fresh]> (heap w)) w))));
         [done|].
       apply wp_ret. cbn beta iota. rewrite decide_True by done.
       by apply Hreject. }
  specialize (Hno unread eq_refl).
  apply wp_bind. apply wp_fread. intros items Hitems. cbn beta iota.
  destruct (decide (0 < 4 ∧ 4 ≤ length unread)) as [[_ Hlen4]|Hshort]; subst items.
  2: { rewrite decide_True by done. by apply Hreject. }
  rewrite decide_False by done.
  destruct unread as [|b0 [|b1 [|b2 [|b3 rest]]]]; try (cbn in Hlen4; lia).
  cbn [firstn skipn nth]. rewrite ?take_0, ?drop_0.
  destruct (decide (strncmp [b0; b1; b2; b3] marker 3 ≠ 0%Z)) as [Hm|Hm];
    [by apply Hreject|].
  destruct (decide (char_value b3 ≠ DUMPVER)) as [Hv|Hv]; [by apply Hreject|].
  assert (Hhead : header_ok (b0 :: b1 :: b2 :: b3 :: rest)).
  { unfold header_ok. cbn [firstn]. apply header_check.
    split; [by destruct (decide (strncmp [b0; b1; b2; b3] marker 3 = 0%Z)); [|exfalso; auto]
           |by destruct (decide (char_value b3 = DUMPVER)); [|exfalso; auto]]. }
  apply wp_bind. apply wp_fread. intros items Hitems. cbn beta iota.
  destruct (decide (0 < sizeof_WINDOW ∧ sizeof_WINDOW ≤ length rest))
    as [[_ Hlen]|Hshort]; subst items.
  2: { rewrite decide_True by done. by apply Hreject. }
  rewrite decide_False by done.
  apply wp_bind. eapply wp_store_win; wsimpl; [by rewrite lookup_insert_eq|].
  change (take sizeof_WINDOW rest)
    with (take sizeof_WINDOW (drop 4 (b0 :: b1 :: b2 :: b3 :: rest))).
  fold (dump_struct (b0 :: b1 :: b2 :: b3 :: rest)).
  set (unread := b0 :: b1 :: b2 :: b3 :: rest) in *.
  set (s0 := dump_struct unread) in *.
  rewrite insert_insert_eq.
  unfold getwin_build. apply wp_bind.
  eapply wp_load_win; [by wsimpl; rewrite lookup_insert_eq|].
  (* the line pointer array *)
  apply wp_bind. apply wp_malloc; wsimpl.
  2: { intros _. apply wp_bind. eapply wp_store_win; wsimpl;
         [by rewrite lookup_insert_eq|].
       rewrite decide_True by done.
       apply wp_bind. eapply wp_free; wsimpl; [done|by rewrite lookup_insert_eq|].
       apply wp_ret. unfold early_exit. wsimpl. repeat split; [|lia]. heap_eq. }
  intros Hg1 y Hynn Hy. apply lookup_insert_None in Hy as [Hy Hyw].
  apply wp_bind. eapply wp_store_win; wsimpl.
  { rewrite lookup_insert_ne by congruence. by rewrite lookup_insert_eq. }
  rewrite decide_False by done.
  (* the minchng and maxchng arrays *)
  apply wp_bind. apply wp_malloc; wsimpl.
  2: { intros _. apply wp_bind. eapply wp_store_win; wsimpl.
       { by rewrite lookup_insert_eq. }
       rewrite decide_True by done.
       apply wp_bind. eapply wp_free; wsimpl; [exact Hynn| |].
       { rewrite !lookup_insert_ne by congruence. by rewrite lookup_insert_eq. }
       apply wp_bind. eapply wp_free; wsimpl; [exact Hnn| |].
       { rewrite lookup_delete_ne by congruence. by rewrite lookup_insert_eq. }
       apply wp_ret. unfold early_exit. wsimpl. repeat split; [|lia]. heap_eq. }
  intros Hg2 fc Hfnn Hfc.
  repeat (apply lookup_insert_None in Hfc as [Hfc ?]).
  apply wp_bind. eapply wp_store_win; wsimpl.
  { rewrite lookup_insert_ne by congruence. by rewrite lookup_insert_eq. }
  rewrite decide_False by done.
  apply wp_bind. apply wp_malloc; wsimpl.
  2: { intros _. apply wp_bind. eapply wp_store_win; wsimpl.
       { by rewrite lookup_insert_eq. }
       rewrite decide_True by done.
       apply wp_bind. eapply wp_free; wsimpl; [exact Hfnn| |].
       { rewrite !lookup_insert_ne by congruence. by rewrite lookup_insert_eq. }
       apply wp_bind. eapply wp_free; wsimpl; [exact Hynn| |].
       { rewrite lookup_delete_ne by congruence.
         rewrite !lookup_insert_ne by congruence. by rewrite lookup_insert_eq. }
       apply wp_bind. eapply wp_free; wsimpl; [exact Hnn| |].
       { rewrite !lookup_delete_ne by congruence. by rewrite lookup_insert_eq. }
       apply wp_ret. unfold early_exit. wsimpl. repeat split; [|lia]. heap_eq. }
  intros Hg3 lc _ _.
  exfalso. apply Hno. split; [done|]. split; [subst unread; cbn; lia|].
  intros j size Hj. destruct j as [|[|[|[|j]]]]; cbn in Hj; try done;
    injection Hj as <-.
  - by rewrite Nat.add_0_r.
  - by rewrite Nat.add_1_r.
  - by replace (nmalloc w + 2) with (S (S (nmalloc w))) by lia.
  - by replace (nmalloc w + 3) with (S (S (S (nmalloc w)))) by lia.
Qed.

(** X10: early exits are clean.  When the header does not match, or the
    stream ends before the struct image does, or one of the first four
    requests (the struct, the line pointer array, the two int arrays) is
    refused, [getwin] returns, the result is null, and the heap is the
    heap it started from: what was allocated has been freed.  The disk and
    [curscr] are as they were, and at most four requests were made. *)
Theorem getwin_early_failure w filep :
  (∀ unread, filep = Some (FileR unread) →
     ¬ (header_ok unread ∧ 4 + sizeof_WINDOW ≤ length unread ∧
        granted (nmalloc w)
          [sizeof_WINDOW;
           size_mul (_maxy (dump_struct unread)) sizeof_ptr;
           size_mul (_maxy (dump_struct unread)) sizeof_int;
           size_mul (_maxy (dump_struct unread)) sizeof_int])) →
  ∃ f' w',
    getwin filep w = Some ((NULL, f'), w') ∧
    heap w' = heap w ∧ disk w' = disk w ∧ curscr w' = curscr w ∧
    nmalloc w' ≤ nmalloc w + 4.
Proof.
  intros Hno. destruct (wp_total _ _ _ (getwin_early_wp w filep Hno))
    as ([q f'] & w' & Hrun & Hq & H).
  cbn in Hq. subst q. by exists f', w'.
Qed.

End GetwinExits.

Section GetwinRuns.
Context {abi : ABI} {env : Env}.

(** Every run of [getwin] that returns ends as [getwin_post] says. *)
Lemma getwin_outcome w filep r w' :
  getwin filep w = Some (r, w') → getwin_post w filep r w'.
Proof.
  intros Hrun.
  exact (wp_result _ _ _ _ _ _ (getwin_wp True w filep (λ _ _ _, I)) Hrun).
Qed.

(** What a successful run ends in. *)
Lemma getwin_success w filep q f' w' :
  getwin filep w = Some ((q, f'), w') → q ≠ NULL →
  ∃ unread y fc lc ptrs ytail ftail ltail,
    filep = Some (FileR unread) ∧ accepted (nmalloc w) unread ∧
    f' = Some (FileR (drop (nlines (dump_struct unread) * row_size (dump_struct unread))
                           (dump_body unread))) ∧
    owned (dom (heap w)) (heap w') q
          (with_lastch lc (with_firstch fc (with_y y (dump_struct unread)))) ptrs ytail
          (split_rows (nlines (dump_struct unread)) (row_size (dump_struct unread))
                      (dump_body unread))
          (replicate (nlines (dump_struct unread)) 0%Z ++ ftail)
          (replicate (nlines (dump_struct unread))
                     (_maxx (dump_struct unread) - 1)%Z ++ ltail) ∧
    length ptrs = nlines (dump_struct unread) ∧
    nmalloc w' = nmalloc w + 4 + nlines (dump_struct unread) ∧
    trace w' = trace w ++
      [EvMalloc sizeof_WINDOW q; EvFread 4 1; EvFread sizeof_WINDOW 1;
       EvMalloc (size_mul (_maxy (dump_struct unread)) sizeof_ptr) y;
       EvMalloc (size_mul (_maxy (dump_struct unread)) sizeof_int) fc;
       EvMalloc (size_mul (_maxy (dump_struct unread)) sizeof_int) lc] ++
      (EvMalloc (row_size (dump_struct unread)) <$> ptrs) ++
      replicate (nlines (dump_struct unread))
                (EvFread (row_size (dump_struct unread)) 1).
Proof.
  intros Hrun Hq. apply getwin_outcome in Hrun as [_ Hpost].
  cbn [fst snd] in Hpost.
  destruct Hpost as [(-> & _)|
    (unread & y & fc & lc & ptrs & ytail & ftail & ltail & Hpost)]; [done|].
  cbn zeta in Hpost.
  destruct Hpost as (Hf & Hacc & _ & Hf' & Hown & Hlen & Hcnt & Htr).
  by exists unread, y, fc, lc, ptrs, ytail, ftail, ltail.
Qed.

(** X11: what getwin touches.  Every run of [getwin] that returns leaves
    each block of the heap in place with its content, and the disk and
    [curscr] as they were; the trace and the allocation count only grow;
    and a result that is not null is the address of a block that was not
    there before. *)
Theorem getwin_frame w filep q f' w' :
  getwin filep w = Some ((q, f'), w') →
  heap w ⊆ heap w' ∧ disk w' = disk w ∧ curscr w' = curscr w ∧
  nmalloc w ≤ nmalloc w' ∧ (∃ evs, trace w' = trace w ++ evs) ∧
  (q ≠ NULL → heap w !! q = None ∧ is_Some (heap w' !! q)).
Proof.
  intros Hrun. pose proof (getwin_outcome _ _ _ _ Hrun) as [Hst _].
  split; [by apply steps_subseteq|].
  destruct Hst as [_ Hd Hc Ht Hn].
  split; [done|]. split; [done|]. split; [done|]. split; [done|].
  intros Hq.
  destruct (getwin_success _ _ _ _ _ Hrun Hq)
    as (unread & y & fc & lc & ptrs & ytail & ftail & ltail & _ & _ & _ & Hown & _).
  pose proof (ow_fresh _ _ _ _ _ _ _ _ _ Hown) as Hfr.
  apply Forall_cons_1 in Hfr as [[_ Hfr] _].
  split; [by apply not_elem_of_dom|].
  rewrite (ow_win _ _ _ _ _ _ _ _ _ Hown). by eexists.
Qed.

(** X12: pointers are never taken from the file.  The struct of the window
    a successful [getwin] returns is the struct image of the stream with
    [_y], [_firstch] and [_lastch] replaced by the arrays just allocated.
    The window, the three arrays and the lines are at addresses that are
    not null, differ from one another, and were not in use before the
    call. *)
Theorem getwin_fresh_pointers w unread q f' w' :
  getwin (Some (FileR unread)) w = Some ((q, f'), w') → q ≠ NULL →
  ∃ y fc lc ptrs tail,
    heap w' !! q =
      Some (BWindow (with_lastch lc (with_firstch fc (with_y y (dump_struct unread))))) ∧
    heap w' !! y = Some (BLines (ptrs ++ tail)) ∧
    length ptrs = nlines (dump_struct unread) ∧
    Forall (λ a, ∃ r, heap w' !! a = Some (BCells r)) ptrs ∧
    (∃ fs, heap w' !! fc = Some (BInts fs)) ∧
    (∃ ls, heap w' !! lc = Some (BInts ls)) ∧
    NoDup (q :: y :: fc :: lc :: ptrs) ∧
    Forall (λ a, a ≠ NULL ∧ heap w !! a = None) (q :: y :: fc :: lc :: ptrs).
Proof.
  intros Hrun Hq.
  destruct (getwin_success _ _ _ _ _ Hrun Hq)
    as (unread' & y & fc & lc & ptrs & ytail & ftail & ltail & [= <-] & _ & _ &
        Hown & Hlen & _).
  destruct Hown as [_ Hwin Hy Hfc Hlc Hrows Hnd Hfresh Hne]. wsimpl.
  assert (Hcells : Forall (λ a, ∃ r, heap w' !! a = Some (BCells r)) ptrs).
  { apply Forall_forall. intros a Ha.
    apply list_elem_of_lookup in Ha as [i Hi].
    destruct (Forall2_lookup_l _ _ _ _ _ Hrows Hi) as (r & _ & Hr). by exists r. }
  exists y, fc, lc, ptrs, ytail.
  split; [done|]. split; [done|]. split; [done|]. split; [done|].
  split; [by eexists|]. split; [by eexists|]. split.
  - rewrite Forall_forall in Hcells.
    repeat (apply NoDup_cons; split); try done.
    + rewrite !elem_of_cons. intros [->|[->|[->|Hin]]]; try congruence.
      destruct (Hcells _ Hin). congruence.
    + rewrite !elem_of_cons. intros [->|[->|Hin]]; try congruence.
      destruct (Hcells _ Hin). congruence.
    + rewrite !elem_of_cons. intros [->|Hin]; try congruence.
      destruct (Hcells _ Hin). congruence.
    + intros Hin. destruct (Hcells _ Hin). congruence.
  - eapply Forall_impl; [exact Hfresh|]. cbn. intros a [Ha Hd].
    split; [done|]. by apply not_elem_of_dom.
Qed.

(** X13: getwin reads one dump.  A successful [getwin] takes exactly
    4 + [sizeof_WINDOW] + lines x row size bytes off its stream and hands
    back the stream with what follows them. *)
Theorem getwin_consumes w unread q f' w' :
  getwin (Some (FileR unread)) w = Some ((q, f'), w') → q ≠ NULL →
  4 + sizeof_WINDOW +
    nlines (dump_struct unread) * row_size (dump_struct unread) ≤ length unread ∧
  f' = Some (FileR (drop (4 + sizeof_WINDOW +
                          nlines (dump_struct unread) * row_size (dump_struct unread))
                         unread)).
Proof.
  intros Hrun Hq.
  destruct (getwin_success _ _ _ _ _ Hrun Hq)
    as (unread' & y & fc & lc & ptrs & ytail & ftail & ltail & [= <-] & Hacc & -> & _).
  destruct Hacc as (_ & Hlen & _ & Hbody & _).
  unfold dump_body in *. rewrite !length_drop in Hbody. split; [lia|].
  rewrite !drop_drop. by rewrite Nat.add_assoc.
Qed.

(** X14: the calls of a successful getwin.  A successful [getwin] makes
    4 + lines requests and 2 + lines reads, each returning one item, and
    no [free]: the struct, the header, the struct image, the three arrays,
    then every line allocated, then every line read. *)
Theorem getwin_calls w unread q f' w' :
  getwin (Some (FileR unread)) w = Some ((q, f'), w') → q ≠ NULL →
  ∃ y fc lc ptrs,
    length ptrs = nlines (dump_struct unread) ∧
    nmalloc w' = nmalloc w + 4 + nlines (dump_struct unread) ∧
    trace w' = trace w ++
      [EvMalloc sizeof_WINDOW q; EvFread 4 1; EvFread sizeof_WINDOW 1;
       EvMalloc (size_mul (_maxy (dump_struct unread)) sizeof_ptr) y;
       EvMalloc (size_mul (_maxy (dump_struct unread)) sizeof_int) fc;
       EvMalloc (size_mul (_maxy (dump_struct unread)) sizeof_int) lc] ++
      (EvMalloc (row_size (dump_struct unread)) <$> ptrs) ++
      replicate (nlines (dump_struct unread))
                (EvFread (row_size (dump_struct unread)) 1).
Proof.
  intros Hrun Hq.
  destruct (getwin_success _ _ _ _ _ Hrun Hq)
    as (unread' & y & fc & lc & ptrs & ytail & ftail & ltail & [= <-] & _ & _ & _ &
        Hlen & Hcnt & Htr).
  by exists y, fc, lc, ptrs.
Qed.

(** X15: a truncated dump is rejected.  Take a complete dump: marker,
    version, a struct image and exactly lines x row size bytes of cells.
    On any proper prefix of it, [getwin] returns null whenever it returns,
    and it returns whenever the array sizes the struct announces are within
    [size_t]. *)
Theorem getwin_rejects_truncated w image body n :
  length image = sizeof_WINDOW →
  length body = nlines (WINDOW_of_bytes image) * row_size (WINDOW_of_bytes image) →
  n < 4 + sizeof_WINDOW + length body →
  (arrays_fit (WINDOW_of_bytes image) →
   ∃ r w', getwin (Some (FileR (take n (marker ++ [version] ++ image ++ body)))) w =
             Some (r, w')) ∧
  ∀ q f' w',
    getwin (Some (FileR (take n (marker ++ [version] ++ image ++ body)))) w =
      Some ((q, f'), w') →
    q = NULL.
Proof.
  intros Himg Hbody Hn.
  set (dump := marker ++ [version] ++ image ++ body).
  assert (Hdump : length dump = 4 + sizeof_WINDOW + length body).
  { subst dump. rewrite !length_app, Himg. cbn. lia. }
  assert (Hlen : length (take n dump) = n) by (rewrite length_take; lia).
  assert (Hno : ¬ accepted (nmalloc w) (take n dump)).
  { intros (_ & Hl & _ & Hb & _). rewrite Hlen in Hl.
    assert (Hs : dump_struct (take n dump) = WINDOW_of_bytes image).
    { unfold dump_struct. f_equal. rewrite skipn_firstn_comm, take_take.
      rewrite Nat.min_l by lia. subst dump.
      change (marker ++ [version] ++ image ++ body)
        with (["P"; "D"; "C"; "001"]%byte ++ image ++ body).
      rewrite drop_app_length' by done.
      by rewrite take_app_length' by done. }
    rewrite Hs in Hb. unfold dump_body in Hb. rewrite !length_drop, Hlen in Hb. lia. }
  split.
  - intros Hfit.
    destruct (decide (4 + sizeof_WINDOW ≤ n)) as [Hfull|Hshort].
    + assert (Hs : dump_struct (take n dump) = WINDOW_of_bytes image).
      { unfold dump_struct. f_equal. rewrite skipn_firstn_comm, take_take.
        rewrite Nat.min_l by lia. subst dump.
        change (marker ++ [version] ++ image ++ body)
          with (["P"; "D"; "C"; "001"]%byte ++ image ++ body).
        rewrite drop_app_length' by done.
        by rewrite take_app_length' by done. }
      assert (Hd : ∀ unread, Some (FileR (take n dump)) = Some (FileR unread) →
                     ¬ arrays_fit (dump_struct unread) → False).
      { intros unread [= <-]. by rewrite Hs. }
      destruct (wp_total _ _ _ (getwin_wp False w _ Hd)) as (r & w' & Hrun & _).
      eauto.
    + assert (He : ∀ unread, Some (FileR (take n dump)) = Some (FileR unread) →
        ¬ (header_ok unread ∧ 4 + sizeof_WINDOW ≤ length unread ∧
           granted (nmalloc w)
             [sizeof_WINDOW;
              size_mul (_maxy (dump_struct unread)) sizeof_ptr;
              size_mul (_maxy (dump_struct unread)) sizeof_int;
              size_mul (_maxy (dump_struct unread)) sizeof_int])).
      { intros unread [= <-]. rewrite Hlen. intros (_ & Hl & _). lia. }
      destruct (wp_total _ _ _ (getwin_early_wp w _ He)) as (r & w' & Hrun & _).
      eauto.
  - intros q f' w' Hrun. destruct (decide (q = NULL)) as [|Hq]; [done|].
    destruct (getwin_success _ _ _ _ _ Hrun Hq)
      as (unread' & y & fc & lc & ptrs & ytail & ftail & ltail & [= <-] & Hacc & _).
    done.
Qed.

End GetwinRuns.

(** ** More about scr_restore *)

Section RestoreFrame.
Context {abi : ABI} {env : Env}.

Lemma keeps_ret {A} (a : A) : keeps (ret a).
Proof. by intros w r w' [= <- <-]. Qed.

Lemma keeps_bind {A B} (m : M A) (k : A → M B) :
  keeps m → (∀ a, keeps (k a)) → keeps (bind m k).
Proof.
  intros Hm Hk w r w' Hrun. unfold bind in Hrun.
  destruct (m w) as [[a w1]|] eqn:H1; [|done].
  destruct (Hm _ _ _ H1) as [Hd Hc]. destruct (Hk a _ _ _ Hrun) as [Hd' Hc'].
  split; congruence.
Qed.

Lemma keeps_free p : keeps (free p).
Proof.
  intros w r w' Hrun. unfold free in Hrun.
  destruct (decide (p = NULL)); [by injection Hrun as <- <-|].
  destruct (heap w !! p); [|done]. by injection Hrun as <- <-.
Qed.

Lemma keeps_load_win p : keeps (load_win p).
Proof.
  intros w r w' Hrun. unfold load_win in Hrun.
  destruct (heap w !! p) as [[| | |]|]; try done. by injection Hrun as <- <-.
Qed.

Lemma keeps_load_line p i : keeps (load_line p i).
Proof.
  intros w r w' Hrun. unfold load_line in Hrun.
  destruct (heap w !! p) as [[|ys| |]|]; try done.
  destruct (ys !! i); [|done]. by injection Hrun as <- <-.
Qed.

Lemma keeps_load_cells p n : keeps (load_cells p n).
Proof.
  intros w r w' Hrun. unfold load_cells in Hrun.
  destruct (heap w !! p) as [[| | |bs]|]; try done.
  case_decide; [|done]. by injection Hrun as <- <-.
Qed.

Lemma keeps_store_cells p data : keeps (store_cells p data).
Proof.
  intros w r w' Hrun. unfold store_cells in Hrun.
  destruct (heap w !! p) as [[| | |bs]|]; try done.
  case_decide; [|done]. by injection Hrun as <- <-.
Qed.

Lemma keeps_free_lines k : ∀ y j, keeps (free_lines k y j).
Proof.
  induction k as [|k IH]; intros y j; cbn [free_lines]; [apply keeps_ret|].
  apply keeps_bind; [apply keeps_load_line|]. intros a.
  apply keeps_bind; [apply keeps_free|]. intros _. apply IH.
Qed.

Lemma keeps_release_arrays win s : keeps (release_arrays win s).
Proof.
  unfold release_arrays.
  repeat (apply keeps_bind; [apply keeps_free|]; intros _). apply keeps_free.
Qed.

Lemma keeps_delwin win : keeps (delwin win).
Proof.
  unfold delwin. case_decide; [apply keeps_ret|].
  apply keeps_bind; [apply keeps_load_win|]. intros s.
  apply keeps_bind; [apply keeps_free_lines|]. intros _.
  apply keeps_bind; [apply keeps_release_arrays|]. intros _. apply keeps_ret.
Qed.

Lemma keeps_overwrite_from k : ∀ sy dy n i, keeps (overwrite_from k sy dy n i).
Proof.
  induction k as [|k IH]; intros sy dy n i; cbn [overwrite_from]; [apply keeps_ret|].
  apply keeps_bind; [apply keeps_load_line|]. intros a.
  apply keeps_bind; [apply keeps_load_line|]. intros b.
  apply keeps_bind; [apply keeps_load_cells|]. intros data.
  apply keeps_bind; [apply keeps_store_cells|]. intros _. apply IH.
Qed.

Lemma keeps_overwrite src dst : keeps (overwrite src dst).
Proof.
  unfold overwrite. case_decide; [apply keeps_ret|].
  apply keeps_bind; [apply keeps_load_win|]. intros s.
  apply keeps_bind; [apply keeps_load_win|]. intros d.
  apply keeps_bind; [apply keeps_overwrite_from|]. intros _. apply keeps_ret.
Qed.

(** [getwin] hands back a stream that is still open for reading. *)
Lemma getwin_stream w unread q f' w' :
  getwin (Some (FileR unread)) w = Some ((q, f'), w') → ∃ u, f' = Some (FileR u).
Proof.
  intros Hrun. apply getwin_outcome in Hrun as [_ Hpost]. cbn [fst snd] in Hpost.
  destruct Hpost as [(_ & [->|[u ->]] & _)|
    (unread' & y & fc & lc & ptrs & ytail & ftail & ltail & Hpost)]; eauto.
  cbn zeta in Hpost. destruct Hpost as (_ & _ & _ & -> & _). eauto.
Qed.

(** X16: scr_restore writes no file.  Every run of [scr_restore] that
    returns leaves the disk as it was, and [curscr] the pointer it was. *)
Theorem scr_restore_keeps_files filename w r w' :
  scr_restore filename w = Some (r, w') →
  disk w' = disk w ∧ curscr w' = curscr w.
Proof.
  intros Hrun. destruct filename as [name|]; unfold scr_restore in Hrun.
  2: { by injection Hrun as <- <-. }
  unfold bind at 1 in Hrun. unfold fopen_rb in Hrun.
  destruct (if fopen_ok name then disk w !! name else None) as [content|].
  2: { by injection Hrun as <- <-. }
  unfold bind at 1 in Hrun.
  destruct (getwin _ _) as [[[q f'] w1]|] eqn:Hget; [|done].
  destruct (getwin_stream _ _ _ _ _ Hget) as [u ->].
  apply getwin_outcome in Hget as [[_ Hd1 Hc1 _ _] _].
  cbn [disk curscr logged] in Hd1, Hc1.
  cbn [default from_option id] in Hrun.
  unfold bind at 1, fclose in Hrun.
  destruct (decide (q = NULL)); [injection Hrun as <- <-; by cbn|].
  unfold bind at 1, get_curscr in Hrun.
  apply (keeps_bind _ _ (keeps_overwrite _ _)
           (λ res, keeps_bind _ _ (keeps_delwin q) (λ _, keeps_ret res)))
    in Hrun as [Hd2 Hc2].
  cbn [disk curscr logged with_disk] in Hd2, Hc2.
  split; congruence.
Qed.

(** X17: no file to restore from.  When the file cannot be opened or is
    not on the disk, [scr_restore] returns [ERR] in the world it started
    from with one failed [fopen] logged: no request, no read, no
    [fclose]. *)
Theorem scr_restore_no_file w name :
  fopen_ok name = false ∨ disk w !! name = None →
  scr_restore (Some name) w = Some (ERR, logged (EvFopen name false false) w).
Proof.
  intros Hno. unfold scr_restore, bind, fopen_rb.
  destruct Hno as [->| ->]; [done|]. by destruct (fopen_ok name).
Qed.

End RestoreFrame.

(** ** What getwin leaves in the heap when it fails

    The rules below read a run that returns: a fault is excused, and what
    a memory access found is handed to the continuation. *)

Section Angelic.
Context {abi : ABI} {env : Env}.

#[local] Set Warnings "-clear-no-such-hyp".

Lemma run_any {A} (m : M A) (Q : A → world → Prop) w :
  (∀ a w', Q a w') → wp True m Q w.
Proof. intros HQ. unfold wp. by destruct (m w) as [[a w']|]. Qed.

Lemma run_free p (Q : unit → world → Prop) w :
  (p = NULL → Q tt w) →
  (p ≠ NULL → ∀ b, heap w !! p = Some b →
     Q tt (logged (EvFree p) (with_heap (delete p (heap w)) w))) →
  wp True (free p) Q w.
Proof.
  intros H0 H1. unfold wp, free. destruct (decide (p = NULL)); [by apply H0|].
  destruct (heap w !! p) as [b|] eqn:Hp; [|done]. by eapply H1.
Qed.

Lemma run_load_win p (Q : WINDOW → world → Prop) w :
  (∀ s, heap w !! p = Some (BWindow s) → Q s w) → wp True (load_win p) Q w.
Proof.
  intros HQ. unfold wp, load_win.
  destruct (heap w !! p) as [[s| | |]|]; try done. by apply HQ.
Qed.

Lemma run_store_win p s (Q : unit → world → Prop) w :
  (∀ s0, heap w !! p = Some (BWindow s0) →
     Q tt (with_heap (<[p := BWindow s]> (heap w)) w)) →
  wp True (store_win p s) Q w.
Proof.
  intros HQ. unfold wp, store_win.
  destruct (heap w !! p) as [[s0| | |]|] eqn:Hp; try done. by eapply HQ.
Qed.

Lemma run_load_line p i (Q : addr → world → Prop) w :
  (∀ ys a, heap w !! p = Some (BLines ys) → ys !! i = Some a → Q a w) →
  wp True (load_line p i) Q w.
Proof.
  intros HQ. unfold wp, load_line.
  destruct (heap w !! p) as [[|ys| |]|] eqn:Hp; try done.
  destruct (ys !! i) as [a|] eqn:Hi; [|done]. by eapply HQ.
Qed.

Lemma run_store_line p i a (Q : unit → world → Prop) w :
  (∀ ys, heap w !! p = Some (BLines ys) → i < length ys →
     Q tt (with_heap (<[p := BLines (<[i := a]> ys)]> (heap w)) w)) →
  wp True (store_line p i a) Q w.
Proof.
  intros HQ. unfold wp, store_line.
  destruct (heap w !! p) as [[|ys| |]|] eqn:Hp; try done.
  case_decide; [|done]. by eapply HQ.
Qed.

Lemma run_store_cells p data (Q : unit → world → Prop) w :
  (∀ bs, heap w !! p = Some (BCells bs) → length data ≤ length bs →
     Q tt (with_heap (<[p := BCells (data ++ drop (length data) bs)]> (heap w)) w)) →
  wp True (store_cells p data) Q w.
Proof.
  intros HQ. unfold wp, store_cells.
  destruct (heap w !! p) as [[| | |bs]|] eqn:Hp; try done.
  case_decide; [|done]. by eapply HQ.
Qed.

Lemma run_fread size f (Q : list byte * nat * FILE → world → Prop) w :
  (∀ got items f', Q (got, items, f') (logged (EvFread size items) w)) →
  wp True (fread size f) Q w.
Proof. intros HQ. unfold wp, fread. destruct f; cbn; apply HQ. Qed.

(** [free_lines] frees the lines its table names. *)
Lemma run_free_lines k : ∀ j y ys w (Q : unit → world → Prop),
  heap w !! y = Some (BLines ys) →
  Forall (λ a, a ≠ NULL ∧ a ≠ y) (take k (drop j ys)) →
  (∀ w', dom (heap w') = dom (heap w) ∖ list_to_set (take k (drop j ys)) → Q tt w') →
  wp True (free_lines k y j) Q w.
Proof.
  induction k as [|k IH]; intros j y ys w Q Hy Hnn HQ; cbn [free_lines].
  - apply wp_ret. apply HQ. rewrite take_0. (clear; set_solver).
  - apply wp_bind. apply run_load_line. intros ys' a Hy' Ha.
    rewrite Hy in Hy'. injection Hy' as <-.
    rewrite (drop_S _ _ _ Ha) in Hnn, HQ. cbn [firstn] in Hnn, HQ.
    apply Forall_cons_1 in Hnn as [[Hane Hay] Hnn].
    apply wp_bind. apply run_free; [done|]. intros _ b Hb.
    apply (IH (S j) y ys); wsimpl.
    + by rewrite lookup_delete_ne.
    + done.
    + intros w' Hdom. apply HQ. rewrite Hdom, dom_delete_L.
      rewrite list_to_set_cons. (clear; set_solver).
Qed.

Lemma run_release_arrays win s (Q : unit → world → Prop) w :
  win ≠ NULL → _y s ≠ NULL → _firstch s ≠ NULL → _lastch s ≠ NULL →
  (∀ w', dom (heap w') =
         dom (heap w) ∖ {[win; _y s; _firstch s; _lastch s]} → Q tt w') →
  wp True (release_arrays win s) Q w.
Proof.
  intros Hw Hy Hf Hl HQ. unfold release_arrays.
  apply wp_bind. apply run_free; [done|]. intros _ b1 _.
  apply wp_bind. apply run_free; [done|]. intros _ b2 _.
  apply wp_bind. apply run_free; [done|]. intros _ b3 _.
  apply run_free; [done|]. intros _ b4 _.
  apply HQ. wsimpl. rewrite !dom_delete_L. (clear; set_solver).
Qed.

Lemma run_makelines k win s :
  ∀ lines w (Q : addr → world → Prop),
  heap w !! win = Some (BWindow s) →
  table_holds (heap w) (_y s) lines →
  Forall (λ a, a ≠ NULL ∧ a ≠ _y s) lines →
  win ≠ NULL → _y s ≠ NULL → _firstch s ≠ NULL → _lastch s ≠ NULL →
  (∀ w', dom (heap w') =
         dom (heap w) ∖ list_to_set lines ∖ {[win; _y s; _firstch s; _lastch s]} →
         Q NULL w') →
  (∀ w' new,
     heap w' !! win = Some (BWindow s) →
     table_holds (heap w') (_y s) (lines ++ new) →
     Forall (λ a, a ≠ NULL ∧ a ≠ _y s ∧ heap w !! a = None) new →
     length new = k →
     dom (heap w') = dom (heap w) ∪ list_to_set new →
     Q win w') →
  wp True (makelines_from k win s (length lines)) Q w.
Proof.
  induction k as [|k IH]; intros lines w Q Hwin Htab Hnn Hw Hy Hf Hl Hfail Hok;
    cbn [makelines_from].
  - apply wp_ret. apply (Hok w []); rewrite ?app_nil_r; try done. (clear; set_solver).
  - destruct Htab as (ys & Hys & Htake).
    apply wp_bind. apply wp_malloc.
    2: { intros _. rewrite decide_True by done.
         apply wp_bind. apply (run_free_lines _ 0 _ ys); wsimpl; [done| |].
         { by rewrite drop_0, Htake. }
         intros w1 Hd1. rewrite drop_0, Htake in Hd1.
         apply wp_bind. apply run_release_arrays; try done.
         intros w2 Hd2. apply wp_ret. apply Hfail. by rewrite Hd2, Hd1. }
    intros _ p Hpn Hp. rewrite decide_False by done.
    assert (Hpy : p ≠ _y s) by congruence.
    assert (Hpw : p ≠ win) by congruence.
    apply wp_bind. apply run_store_line. wsimpl. intros ys' Hys' Hlt.
    rewrite lookup_insert_ne in Hys' by done. rewrite Hys in Hys'.
    injection Hys' as <-.
    replace (S (length lines)) with (length (lines ++ [p]))
      by (rewrite length_app; cbn; lia).
    apply IH; wsimpl; try done.
    + rewrite !lookup_insert_ne by congruence. done.
    + exists (<[length lines := p]> ys). rewrite lookup_insert_eq. split; [done|].
      rewrite length_app. cbn [length].
      replace (length lines + 1) with (S (length lines)) by lia.
      erewrite take_S_r by (by apply list_lookup_insert_eq).
      by rewrite take_insert_ge, Htake by lia.
    + apply Forall_app. split; [done|]. by repeat constructor.
    + intros w' Hd. apply Hfail. rewrite Hd, !dom_insert_L, list_to_set_app_L.
      apply not_elem_of_dom in Hp. apply elem_of_dom_2 in Hys.
      (clear - Hp Hys; set_solver).
    + intros w' new Hwin' Htab' Hnew Hlen Hd.
      apply (Hok w' (p :: new)).
      * done.
      * by rewrite <- app_assoc in Htab'.
      * constructor; [done|]. eapply Forall_impl; [exact Hnew|]. cbn.
        intros a (? & ? & Ha). split; [done|]. split; [done|].
        apply lookup_insert_None in Ha as [Ha _].
        by apply lookup_insert_None in Ha as [Ha _].
      * cbn. by rewrite Hlen.
      * rewrite Hd, !dom_insert_L. apply elem_of_dom_2 in Hys.
        rewrite list_to_set_cons. (clear - Hys; set_solver).
Qed.

(** The read loop stores into line buffers only. *)
Lemma run_getwin_lines k : ∀ y size i f w (Q : bool * FILE → world → Prop),
  (∀ w' r,
     dom (heap w') = dom (heap w) →
     (∀ p b, heap w !! p = Some b → (∀ bs, b ≠ BCells bs) → heap w' !! p = Some b) →
     Q r w') →
  wp True (getwin_lines k y size i f) Q w.
Proof.
  induction k as [|k IH]; intros y size i f w Q HQ; cbn [getwin_lines].
  - apply wp_ret. by apply HQ.
  - apply wp_bind. apply run_load_line. intros ys a _ _.
    apply wp_bind. apply run_fread. intros got items f'. cbn beta iota.
    apply wp_bind. apply run_store_cells. wsimpl. intros bs Ha _.
    assert (Hdom : dom (<[a := BCells (got ++ drop (length got) bs)]> (heap w)) =
                   dom (heap w)).
    { rewrite dom_insert_L. apply elem_of_dom_2 in Ha. (clear - Ha; set_solver). }
    assert (Hkeep : ∀ p b, heap w !! p = Some b → (∀ bs, b ≠ BCells bs) →
              <[a := BCells (got ++ drop (length got) bs)]> (heap w) !! p = Some b).
    { intros p b Hp Hb. rewrite lookup_insert_ne; [done|].
      intros <-. rewrite Ha in Hp. injection Hp as <-. by eapply Hb. }
    destruct (decide (items = 0)).
    + apply wp_ret. by apply HQ.
    + apply IH. wsimpl. intros w' r Hd Hk. apply HQ.
      * by rewrite Hd.
      * intros p b Hp Hb. apply Hk; [|done]. by apply Hkeep.
Qed.

Lemma run_getwin_build win f w1 s0 :
  heap w1 !! win = Some (BWindow s0) → win ≠ NULL →
  wp True (getwin_build win f) (released (dom (heap w1) ∖ {[win]})) w1.
Proof.
  intros Hwin Hnn. unfold getwin_build.
  apply elem_of_dom_2 in Hwin as Hwd.
  apply wp_bind. apply run_load_win. intros s Hs.
  rewrite Hwin in Hs. injection Hs as <-.
  (* the line pointer array *)
  apply wp_bind. apply wp_malloc.
  2: { intros _. apply wp_bind. apply run_store_win. wsimpl. intros _ _.
       rewrite decide_True by done.
       apply wp_bind. apply run_free; [done|]. wsimpl. intros _ b _.
       apply wp_ret. unfold released. wsimpl. intros _. rewrite dom_delete_L, dom_insert_L.
       (clear; set_solver). }
  intros _ y Hynn Hy. apply not_elem_of_dom in Hy as Hyd.
  apply wp_bind. apply run_store_win. wsimpl. intros _ _.
  rewrite decide_False by done.
  (* the minchng and maxchng arrays *)
  apply wp_bind. apply wp_malloc; wsimpl.
  2: { intros _. apply wp_bind. apply run_store_win. wsimpl. intros _ _.
       rewrite decide_True by done.
       apply wp_bind. apply run_free; [done|]. wsimpl. intros _ b1 _.
       apply wp_bind. apply run_free; [done|]. wsimpl. intros _ b2 _.
       apply wp_ret. unfold released. wsimpl. intros _. rewrite !dom_delete_L, !dom_insert_L.
       (clear - Hyd; set_solver). }
  intros _ fc Hfnn Hfc. apply not_elem_of_dom in Hfc as Hfd.
  rewrite !dom_insert_L in Hfd.
  apply wp_bind. apply run_store_win. wsimpl. intros _ _.
  rewrite decide_False by done.
  apply wp_bind. apply wp_malloc; wsimpl.
  2: { intros _. apply wp_bind. apply run_store_win. wsimpl. intros _ _.
       rewrite decide_True by done.
       apply wp_bind. apply run_free; [done|]. wsimpl. intros _ b1 _.
       apply wp_bind. apply run_free; [done|]. wsimpl. intros _ b2 _.
       apply wp_bind. apply run_free; [done|]. wsimpl. intros _ b3 _.
       apply wp_ret. unfold released. wsimpl. intros _. rewrite !dom_delete_L, !dom_insert_L.
       (clear - Hyd Hfd; set_solver). }
  intros _ lc Hlnn Hlc. apply not_elem_of_dom in Hlc as Hld.
  rewrite !dom_insert_L in Hld.
  apply wp_bind. apply run_store_win. wsimpl. intros _ _.
  rewrite decide_False by done.
  set (s3 := with_lastch lc (with_firstch fc (with_y y s0))).
  match goal with |- wp _ _ _ ?W => set (w3 := W) end.
  assert (Hd3 : dom (heap w3) = dom (heap w1) ∪ {[y; fc; lc]}).
  { subst w3. wsimpl. rewrite !dom_insert_L. (clear - Hwd; set_solver). }
  assert (Hwin3 : heap w3 !! win = Some (BWindow s3)).
  { subst w3. wsimpl. by rewrite lookup_insert_eq. }
  assert (Hy3 : ∃ ys, heap w3 !! y = Some (BLines ys)).
  { subst w3. wsimpl. eexists.
    rewrite !lookup_insert_ne by (clear - Hwd Hyd Hfd Hld; set_solver). by rewrite lookup_insert_eq. }
  clearbody w3.
  (* the lines *)
  apply wp_bind. unfold PDC_makelines. rewrite decide_False by done.
  apply wp_bind. apply run_load_win. intros s Hs.
  rewrite Hwin3 in Hs. injection Hs as <-.
  apply (run_makelines _ win s3 [] w3); try done.
  { destruct Hy3 as [ys Hys]. exists ys. by rewrite take_0. }
  { intros w' Hd. rewrite decide_True by done. apply wp_ret. unfold released. intros _.
    rewrite Hd, Hd3. subst s3. wsimpl. (clear - Hyd Hfd Hld; set_solver). }
  intros w4 new Hwin4 Htab4 Hnew Hlen4 Hd4. cbn [app] in Htab4.
  rewrite decide_False by done.
  apply wp_bind. apply run_load_win. intros s Hs.
  rewrite Hwin4 in Hs. injection Hs as <-.
  apply wp_bind. apply run_getwin_lines. intros w5 [ok f5] Hd5 Hkeep5.
  destruct ok.
  { apply wp_bind. apply run_any. intros _ w6. apply wp_ret. by intros ?. }
  apply wp_bind. unfold delwin. rewrite decide_False by done.
  apply wp_bind. apply run_load_win. intros s Hs.
  rewrite (Hkeep5 _ _ Hwin4) in Hs by done. injection Hs as <-.
  destruct Htab4 as (ys & Hys & Htake).
  apply wp_bind. apply (run_free_lines _ 0 _ ys).
  { by apply Hkeep5. }
  { rewrite drop_0, <- Hlen4, Htake.
    eapply Forall_impl; [exact Hnew|]. cbn. tauto. }
  intros w6 Hd6. rewrite drop_0, <- Hlen4, Htake in Hd6.
  apply wp_bind. apply run_release_arrays; try done.
  intros w7 Hd7. apply wp_ret. apply wp_ret. unfold released. intros _.
  rewrite Hd7, Hd6, Hd5, Hd4, Hd3. subst s3. wsimpl.
  assert (Hfresh : ∀ a, a ∈ new → a ∉ dom (heap w3)).
  { intros a Ha. rewrite Forall_forall in Hnew.
    destruct (Hnew a Ha) as (_ & _ & Hnone). by apply not_elem_of_dom. }
  rewrite Hd3 in Hfresh. (clear - Hfresh Hyd Hfd Hld; set_solver).
Qed.

Lemma run_getwin filep w :
  wp True (getwin filep) (released (dom (heap w))) w.
Proof.
  unfold getwin. apply wp_bind. apply wp_malloc.
  { intros _ win Hnn Hwin. rewrite decide_False by done.
    apply not_elem_of_dom in Hwin as Hwd.
    assert (Hreject : ∀ f' w1,
      dom (heap w1) = dom (heap w) ∪ {[win]} →
      wp True (let! _ := free win in ret (NULL, f')) (released (dom (heap w))) w1).
    { intros f' w1 Hd. apply wp_bind. apply run_free; [done|]. intros _ b _.
      apply wp_ret. unfold released. wsimpl. intros _. rewrite dom_delete_L, Hd. (clear - Hwd; set_solver). }
    assert (Hd1 : dom (<[win := BWindow WINDOW_fresh]> (heap w)) =
                  dom (heap w) ∪ {[win]}).
    { rewrite dom_insert_L. (clear; set_solver). }
    destruct filep as [f|]; [|by apply Hreject].
    apply wp_bind. apply run_fread. intros mark items f1. cbn beta iota.
    destruct (decide (items = 0)); [by apply Hreject|].
    destruct (decide (strncmp mark marker 3 ≠ 0%Z)); [by apply Hreject|].
    destruct (decide (char_value (nth 3 mark "000"%byte) ≠ DUMPVER));
      [by apply Hreject|].
    apply wp_bind. apply run_fread. intros image items' f2. cbn beta iota.
    destruct (decide (items' = 0)); [by apply Hreject|].
    apply wp_bind. apply run_store_win. wsimpl. intros _ _.
    eapply wp_mono.
    - eapply run_getwin_build; [|done]. wsimpl. by rewrite lookup_insert_eq.
    - unfold released. wsimpl. intros r w' Hpost Hr. rewrite (Hpost Hr).
      rewrite !dom_insert_L. (clear - Hwd; set_solver). }
  intros _. rewrite decide_True by done. apply wp_ret. done.
Qed.

(** X18: a failed getwin leaves no block behind.  Whenever [getwin]
    returns null, the heap is the heap it started from: the blocks are the
    same, with the same content, and everything the attempt allocated has
    been freed. *)
Theorem getwin_releases_everything w filep f' w' :
  getwin filep w = Some ((NULL, f'), w') → heap w' = heap w.
Proof.
  intros Hrun. symmetry. apply subseteq_dom_eq.
  - apply steps_subseteq. by destruct (getwin_outcome _ _ _ _ Hrun).
  - by rewrite (wp_result _ _ _ _ _ _ (run_getwin filep w) Hrun eq_refl).
Qed.

End Angelic.

(** ** Dumps in sequence *)

Section Compose.
Context {abi : ABI} {env : Env}.

Lemma dumpable_row_size s ptrs rows :
  dumpable s ptrs rows →
  row_size s = Z.to_nat (_maxx s) * sizeof_chtype ∧ 0 < row_size s.
Proof.
  intros (_ & Hx & _ & _ & Hfx & _).
  assert (Hrs : row_size s = Z.to_nat (_maxx s) * sizeof_chtype).
  { unfold row_size. apply size_mul_exact; lia. }
  split; [done|]. rewrite Hrs. pose proof sizeof_chtype_pos. nia.
Qed.

Lemma dump_of_length s ptrs rows :
  dumpable s ptrs rows → length rows = nlines s →
  length (dump_of s rows) = 4 + sizeof_WINDOW + nlines s * row_size s.
Proof.
  intros Hd Hlen. destruct (dumpable_row_size _ _ _ Hd) as [Hrs _].
  destruct Hd as (_ & _ & _ & Hsz & _). rewrite <- Hrs in Hsz.
  unfold dump_of. rewrite !length_app, WINDOW_bytes_length.
  rewrite (concat_length_sizes rows (row_size s)) by done. rewrite Hlen. cbn. lia.
Qed.

(** [putwin] adds the dump of a dumpable window to a stream with room
    for it. *)
Lemma putwin_dump w p s ptrs rows fs ls name written room :
  window_at (heap w) p s ptrs rows fs ls →
  dumpable s ptrs rows →
  length (dump_of s rows) ≤ room →
  ∃ w',
    putwin p (Some (FileW name written room)) w =
      Some ((OK, Some (FileW name (written ++ dump_of s rows)
                             (room - length (dump_of s rows)))), w') ∧
    heap w' = heap w ∧ nmalloc w' = nmalloc w.
Proof.
  intros [Hwin [tail Hy] Hn Hrows _ _ _] Hd Hroom.
  destruct (dumpable_row_size _ _ _ Hd) as [Hrs Hpos].
  pose proof (Forall2_length _ _ _ Hrows) as Hlen.
  rewrite (dump_of_length s ptrs rows) in Hroom by (done || lia).
  destruct Hd as (Hmaxy & Hmaxx & Hnn & Hsz & Hfx & Hfp & Hfi).
  rewrite <- Hrs in Hsz.
  assert (Hput := putwin_run w p s (ptrs ++ tail) rows name written room Hwin Hy).
  rewrite take_app_length' in Hput by done.
  rewrite lines_to_write_all in Hput by done.
  specialize (Hput ltac:(rewrite length_app; unfold nlines in Hn; lia)
                   (line_bytes_rows _ _ _ _ Hrows Hsz)).
  cbn zeta in Hput.
  set (chunks := marker :: [version] :: WINDOW_bytes s :: rows) in *.
  assert (Hok : write_status chunks room = OK).
  { apply write_status_OK. split.
    - subst chunks. repeat (constructor; [cbn; try lia|]).
      + rewrite WINDOW_bytes_length. apply sizeof_WINDOW_pos.
      + eapply Forall_impl; [exact Hsz|]. cbn. intros r ->. done.
    - subst chunks. cbn [concat]. rewrite !length_app, WINDOW_bytes_length.
      rewrite (concat_length_sizes rows (row_size s)) by done. cbn. lia. }
  rewrite Hok, (write_put_all _ _ Hok) in Hput.
  eexists. split; [exact Hput|]. done.
Qed.

(** [getwin] on a stream that starts with the dump of a dumpable window. *)
Lemma getwin_reads_dump w s ptrs rows rest :
  dumpable s ptrs rows → length rows = nlines s →
  granted (nmalloc w) (sizeof_WINDOW :: build_requests s) →
  ∃ q s' ptrs' w',
    getwin (Some (FileR (dump_of s rows ++ rest))) w =
      Some ((q, Some (FileR rest)), w') ∧
    q ≠ NULL ∧ heap w !! q = None ∧
    _maxy s' = _maxy s ∧ _maxx s' = _maxx s ∧
    window_at (heap w') q s' ptrs' rows
              (replicate (nlines s) 0%Z) (replicate (nlines s) (_maxx s - 1)%Z) ∧
    steps (dom (heap w)) w w' ∧
    nmalloc w' = nmalloc w + 4 + nlines s.
Proof.
  intros Hd Hlen Hgr.
  destruct (dumpable_row_size _ _ _ Hd) as [Hrs Hpos].
  destruct Hd as (Hmaxy & Hmaxx & Hnn & Hsz & Hfx & Hfp & Hfi).
  rewrite <- Hrs in Hsz.
  assert (Hdump : dump_of s rows ++ rest =
            marker ++ [version] ++ WINDOW_bytes s ++ (concat rows ++ rest)).
  { unfold dump_of. by rewrite <- !app_assoc. }
  rewrite Hdump.
  destruct (dump_parts (WINDOW_bytes s) (concat rows ++ rest) (WINDOW_bytes_length s))
    as (Hh & Hl & Hs & Hb).
  set (unread := marker ++ [version] ++ WINDOW_bytes s ++ (concat rows ++ rest)) in *.
  assert (Hy' : _maxy (dump_struct unread) = _maxy s)
    by (rewrite Hs; apply WINDOW_image_maxy; lia).
  assert (Hx' : _maxx (dump_struct unread) = _maxx s)
    by (rewrite Hs; apply WINDOW_image_maxx; lia).
  assert (Hn' : nlines (dump_struct unread) = nlines s) by (unfold nlines; by rewrite Hy').
  assert (Hr' : row_size (dump_struct unread) = row_size s)
    by (unfold row_size; by rewrite Hx').
  assert (Hfit : arrays_fit (dump_struct unread)).
  { apply arrays_fit_exact; rewrite Hy'; lia. }
  assert (Hacc : accepted (nmalloc w) unread).
  { split; [done|]. split; [done|]. split.
    - by rewrite (build_requests_ext s).
    - unfold body_ok. rewrite Hb, Hn', Hr'. split; [|done].
      rewrite length_app, (concat_length_sizes rows (row_size s)) by done.
      rewrite Hlen. lia. }
  destruct (wp_total _ _ _ (getwin_wp False w (Some (FileR unread))
    (λ u Hf Hno, Hno ltac:(by injection Hf as <-))))
    as ([q f'] & w3 & Hrun & Hst & Hpost).
  cbn [fst snd] in Hpost.
  destruct Hpost as [(-> & _ & Hno)|
    (u & y & fc & lc & ptrs' & ytail & ftail & ltail & Hpost)].
  { by destruct (Hno unread eq_refl). }
  cbn zeta in Hpost.
  destruct Hpost as ([= <-] & _ & Hq & -> & Hown & Hlenp & Hcnt & Htr).
  rewrite Hb, Hn', Hr', Hx' in *.
  rewrite <- Hlen in Hown at 1. rewrite <- Hlen in Hrun at 1.
  destruct (split_rows_concat rows (row_size s) rest Hsz) as [Hsplit Hdrop].
  rewrite Hsplit in Hown. rewrite Hdrop in Hrun.
  exists q, (with_lastch lc (with_firstch fc (with_y y (dump_struct unread)))), ptrs', w3.
  split; [exact Hrun|]. split; [done|]. split.
  { pose proof (ow_fresh _ _ _ _ _ _ _ _ _ Hown) as Hfr.
    apply Forall_cons_1 in Hfr as [[_ Hfr] _]. by apply not_elem_of_dom. }
  split; [done|]. split; [done|]. split; [|done].
  eapply owned_window_at; [exact Hown| | |].
  - by rewrite Hlenp.
  - by rewrite length_replicate.
  - by rewrite length_replicate.
Qed.

Lemma granted_all n sizes : (∀ k size, malloc_ok k size = true) → granted n sizes.
Proof. intros H j size _. apply H. Qed.

(** X19: dumps in sequence.  Two calls of [putwin] on one stream with
    room for both leave the dump of the first window followed by the dump
    of the second; two calls of [getwin] on these bytes, with every
    request granted, return two different windows with the dimensions and
    the cells of the first and of the second, and leave nothing unread. *)
Theorem two_dumps_one_stream w pa sa ptrsa rowsa fsa lsa pb sb ptrsb rowsb fsb lsb
    name room :
  window_at (heap w) pa sa ptrsa rowsa fsa lsa →
  window_at (heap w) pb sb ptrsb rowsb fsb lsb →
  dumpable sa ptrsa rowsa → dumpable sb ptrsb rowsb →
  length (dump_of sa rowsa) + length (dump_of sb rowsb) ≤ room →
  (∀ k size, malloc_ok k size = true) →
  ∃ fa w0 w1,
    putwin pa (Some (FileW name [] room)) w = Some ((OK, Some fa), w0) ∧
    putwin pb (Some fa) w0 =
      Some ((OK, Some (FileW name (dump_of sa rowsa ++ dump_of sb rowsb)
                             (room - length (dump_of sa rowsa)
                                   - length (dump_of sb rowsb)))), w1) ∧
    ∀ w2, ∃ qa qb fr w3 w4 sa' sb' ptrsa' ptrsb',
      getwin (Some (FileR (dump_of sa rowsa ++ dump_of sb rowsb))) w2 =
        Some ((qa, Some fr), w3) ∧
      getwin (Some fr) w3 = Some ((qb, Some (FileR [])), w4) ∧
      qa ≠ NULL ∧ qb ≠ NULL ∧ qa ≠ qb ∧
      _maxy sa' = _maxy sa ∧ _maxx sa' = _maxx sa ∧
      _maxy sb' = _maxy sb ∧ _maxx sb' = _maxx sb ∧
      window_at (heap w4) qa sa' ptrsa' rowsa
                (replicate (nlines sa) 0%Z) (replicate (nlines sa) (_maxx sa - 1)%Z) ∧
      window_at (heap w4) qb sb' ptrsb' rowsb
                (replicate (nlines sb) 0%Z) (replicate (nlines sb) (_maxx sb - 1)%Z).
Proof.
  intros Hwa Hwb Hda Hdb Hroom Hall.
  destruct (putwin_dump w pa sa ptrsa rowsa fsa lsa name [] room Hwa Hda)
    as (w0 & Hputa & Hh0 & _); [lia|].
  rewrite <- Hh0 in Hwb.
  destruct (putwin_dump w0 pb sb ptrsb rowsb fsb lsb name ([] ++ dump_of sa rowsa)
              (room - length (dump_of sa rowsa)) Hwb Hdb)
    as (w1 & Hputb & _); [lia|].
  eexists _, w0, w1. split; [exact Hputa|]. split; [exact Hputb|].
  intros w2.
  assert (Hla : length rowsa = nlines sa).
  { rewrite <- (wa_nlines _ _ _ _ _ _ _ Hwa).
    symmetry. by eapply Forall2_length, wa_rows. }
  assert (Hlb : length rowsb = nlines sb).
  { rewrite <- (wa_nlines _ _ _ _ _ _ _ Hwb).
    symmetry. by eapply Forall2_length, wa_rows. }
  destruct (getwin_reads_dump w2 sa ptrsa rowsa (dump_of sb rowsb) Hda Hla
              (granted_all _ _ Hall))
    as (qa & sa' & ptrsa' & w3 & Hga & Hqa & _ & Hya & Hxa & Hwina & _).
  destruct (getwin_reads_dump w3 sb ptrsb rowsb [] Hdb Hlb (granted_all _ _ Hall))
    as (qb & sb' & ptrsb' & w4 & Hgb & Hqb & Hfresh & Hyb & Hxb & Hwinb & Hst & _).
  rewrite app_nil_r in Hgb.
  exists qa, qb, (FileR (dump_of sb rowsb)), w3, w4, sa', sb', ptrsa', ptrsb'.
  split; [exact Hga|]. split; [exact Hgb|]. split; [done|]. split; [done|].
  split.
  { intros ->. rewrite (wa_win _ _ _ _ _ _ _ Hwina) in Hfresh. done. }
  split; [done|]. split; [done|]. split; [done|]. split; [done|].
  split; [|done]. by eapply steps_window_at.
Qed.

(** X20: the screen dump reads back.  For a screen window of one line and
    one column at least, to a file that opens with room for the dump,
    [scr_dump] returns [OK] and leaves the dump in the file; [getwin] on
    the file's bytes, its requests granted, returns a window of the same
    height and width with the screen's cells, and leaves nothing unread. *)
Theorem scr_dump_is_readable w name s ptrs rows fs ls :
  window_at (heap w) (curscr w) s ptrs rows fs ls →
  dumpable s ptrs rows →
  fopen_ok name = true →
  length (dump_of s rows) ≤ disk_room name →
  ∃ w1,
    scr_dump (Some name) w = Some (OK, w1) ∧
    disk w1 = <[name := dump_of s rows]> (disk w) ∧
    ∀ w2, granted (nmalloc w2) (sizeof_WINDOW :: build_requests s) →
      ∃ q s' ptrs' w3,
        getwin (Some (FileR (dump_of s rows))) w2 = Some ((q, Some (FileR [])), w3) ∧
        q ≠ NULL ∧ _maxy s' = _maxy s ∧ _maxx s' = _maxx s ∧
        window_at (heap w3) q s' ptrs' rows
                  (replicate (nlines s) 0%Z) (replicate (nlines s) (_maxx s - 1)%Z).
Proof.
  intros Hwin Hd Hopen Hroom.
  assert (Hlen : length rows = nlines s).
  { rewrite <- (wa_nlines _ _ _ _ _ _ _ Hwin).
    symmetry. by eapply Forall2_length, wa_rows. }
  destruct (putwin_dump (logged (EvFopen name true true)
                           (with_disk (<[name := []]> (disk w)) w))
              (curscr w) s ptrs rows fs ls name [] (disk_room name) Hwin Hd Hroom)
    as (w0 & Hput & _).
  eexists. split; [|split].
  - unfold scr_dump. unfold bind at 1. unfold fopen_wb. rewrite Hopen.
    unfold bind at 1. unfold get_curscr. cbn [curscr logged with_disk].
    unfold bind at 1. rewrite Hput.
    cbn [default from_option id]. unfold bind at 1. unfold fclose, ret. reflexivity.
  - cbn [disk logged with_disk app].
    apply putwin_quiet in Hput as ((evs & -> & _) & _).
    cbn [disk logged logged_all with_disk]. by rewrite insert_insert_eq.
  - intros w2 Hgr.
    destruct (getwin_reads_dump w2 s ptrs rows [] Hd Hlen Hgr)
      as (q & s' & ptrs' & w3 & Hg & Hq & _ & Hy & Hx & Hw & _).
    rewrite app_nil_r in Hg. by exists q, s', ptrs', w3.
Qed.

(** X21: no window of no width.  A stream whose struct image announces
    a width of 0 and one line or more is rejected whatever follows the
    struct: the [fread] of the first line, of size 0, returns 0; [getwin]
    returns null whenever it returns, with the heap as it found it; and it
    returns whenever the array sizes are within [size_t]. *)
Theorem getwin_zero_width w image body :
  length image = sizeof_WINDOW →
  _maxx (WINDOW_of_bytes image) = 0%Z → (1 ≤ _maxy (WINDOW_of_bytes image))%Z →
  (arrays_fit (WINDOW_of_bytes image) →
   ∃ r w', getwin (Some (FileR (marker ++ [version] ++ image ++ body))) w =
             Some (r, w')) ∧
  ∀ q f' w',
    getwin (Some (FileR (marker ++ [version] ++ image ++ body))) w =
      Some ((q, f'), w') →
    q = NULL ∧ heap w' = heap w.
Proof.
  intros Himg Hx Hy.
  destruct (dump_parts image body Himg) as (Hh & Hl & Hs & Hb).
  set (unread := marker ++ [version] ++ image ++ body) in *.
  assert (Hno : ¬ accepted (nmalloc w) unread).
  { intros (_ & _ & _ & _ & Hpos). rewrite Hs in Hpos.
    unfold nlines, row_size, size_mul in Hpos. rewrite Hx in Hpos.
    rewrite Z.mul_0_l, Z.mod_0_l in Hpos by (pose proof SIZE_MOD_pos; lia).
    cbn in Hpos. lia. }
  split.
  - intros Hfit.
    assert (Hd : ∀ u, Some (FileR unread) = Some (FileR u) →
                   ¬ arrays_fit (dump_struct u) → False).
    { intros u [= <-]. by rewrite Hs. }
    destruct (wp_total _ _ _ (getwin_wp False w _ Hd)) as (r & w' & Hrun & _).
    eauto.
  - intros q f' w' Hrun.
    assert (q = NULL) as ->.
    { destruct (decide (q = NULL)) as [|Hq]; [done|].
      destruct (getwin_success _ _ _ _ _ Hrun Hq)
        as (u & y & fc & lc & ptrs & ytail & ftail & ltail & [= <-] & Hacc & _).
      done. }
    split; [done|].
    symmetry. apply subseteq_dom_eq.
    + apply steps_subseteq. by destruct (getwin_outcome _ _ _ _ Hrun).
    + by rewrite (wp_result _ _ _ _ _ _ (run_getwin _ w) Hrun eq_refl).
Qed.

End Compose.

(** ** A sample platform

    A 32-bit little-endian target with 4-byte [int], pointers and [chtype],
    and the WINDOW members in the order of PDCurses 3.4's curses.h: two
    ints, [_maxy], [_maxx], 28 bytes of further scalars, the three array
    pointers, 24 bytes of further scalars and the parent pointer.  It
    instantiates [ABI] so that the model can be run; the theorems below
    hold for every platform. *)
Module Sample.

Definition byte_of_Z (z : Z) : byte :=
  default "000"%byte (Byte.of_N (Z.to_N (z mod 256))).

Fixpoint le_bytes (n : nat) (z : Z) : list byte :=
  match n with
  | O => []
  | S n' => byte_of_Z z :: le_bytes n' (z / 256)
  end.

Fixpoint le_value (bs : list byte) : Z :=
  match bs with
  | [] => 0
  | b :: bs' => Z.of_N (Byte.to_N b) + 256 * le_value bs'
  end.

Definition int_of_bytes (bs : list byte) : Z :=
  let u := le_value bs in
  if decide (u < 2 ^ 31)%Z then u else (u - 2 ^ 32)%Z.

Definition ptr_of_bytes (bs : list byte) : addr := Z.to_N (le_value bs).

Definition pad (n : nat) (bs : list byte) : list byte :=
  take n (bs ++ replicate n "000"%byte).

Definition slice (off len : nat) (bs : list byte) : list byte :=
  take len (drop off bs).

Definition window_bytes (s : WINDOW) : list byte :=
  let o := pad 60 (_others s) in
  slice 0 8 o ++ le_bytes 4 (_maxy s) ++ le_bytes 4 (_maxx s) ++
  slice 8 28 o ++
  le_bytes 4 (Z.of_N (_y s)) ++ le_bytes 4 (Z.of_N (_firstch s)) ++
  le_bytes 4 (Z.of_N (_lastch s)) ++
  slice 36 24 o.

Definition window_of_bytes (bs : list byte) : WINDOW :=
  mkWINDOW (int_of_bytes (slice 8 4 bs)) (int_of_bytes (slice 12 4 bs))
           (ptr_of_bytes (slice 44 4 bs)) (ptr_of_bytes (slice 48 4 bs))
           (ptr_of_bytes (slice 52 4 bs))
           (slice 0 8 bs ++ slice 16 28 bs ++ slice 56 24 bs).

Lemma byte_of_Z_value z : Z.of_N (Byte.to_N (byte_of_Z z)) = (z mod 256)%Z.
Proof.
  unfold byte_of_Z.
  assert (Hr : (0 ≤ z mod 256 < 256)%Z) by (apply Z.mod_pos_bound; lia).
  destruct (Byte.of_N (Z.to_N (z mod 256))) as [b|] eqn:Hb.
  - apply Byte.to_of_N in Hb. simpl. rewrite Hb. lia.
  - apply Byte.of_N_None_iff in Hb. lia.
Qed.

Lemma le_bytes_length n z : length (le_bytes n z) = n.
Proof. revert z. induction n as [|n IH]; intros z; simpl; [done | by rewrite IH]. Qed.

Lemma le_value_bytes n z : le_value (le_bytes n z) = (z mod 256 ^ Z.of_nat n)%Z.
Proof.
  revert z. induction n as [|n IH]; intros z.
  - simpl. by rewrite Z.mod_1_r.
  - cbn [le_bytes le_value]. rewrite byte_of_Z_value, IH.
    rewrite Nat2Z.inj_succ, Z.pow_succ_r by lia.
    rewrite Z.rem_mul_r by lia. reflexivity.
Qed.

Lemma int_of_le_bytes z :
  (- 2147483647 - 1 ≤ z ≤ 2147483647)%Z → int_of_bytes (le_bytes 4 z) = z.
Proof.
  intros Hz. unfold int_of_bytes. rewrite le_value_bytes.
  change (256 ^ Z.of_nat 4)%Z with 4294967296%Z.
  change (2 ^ 31)%Z with 2147483648%Z. change (2 ^ 32)%Z with 4294967296%Z.
  destruct (decide (0 ≤ z)%Z) as [Hp|Hn].
  - rewrite Z.mod_small by lia. case_decide; lia.
  - rewrite <- (Z.mod_add z 1 4294967296) by lia.
    rewrite Z.mod_small by lia. case_decide; lia.
Qed.

Lemma pad_length n bs : length (pad n bs) = n.
Proof.
  unfold pad. rewrite length_take, length_app, length_replicate. lia.
Qed.

Lemma window_bytes_length s : length (window_bytes s) = 80.
Proof.
  unfold window_bytes, slice.
  rewrite !length_app, !length_take, !length_drop, !le_bytes_length, pad_length.
  reflexivity.
Qed.

Lemma window_bytes_shape s :
  ∃ a b, window_bytes s = a ++ le_bytes 4 (_maxy s) ++ le_bytes 4 (_maxx s) ++ b
    ∧ length a = 8.
Proof.
  eexists _, _. split; [reflexivity|].
  unfold slice. rewrite length_take, length_drop, pad_length. reflexivity.
Qed.

Lemma window_image_maxy s :
  (- 2147483647 - 1 ≤ _maxy s ≤ 2147483647)%Z →
  _maxy (window_of_bytes (window_bytes s)) = _maxy s.
Proof.
  intros Hr. destruct (window_bytes_shape s) as (a & b & -> & Ha).
  unfold window_of_bytes, slice. cbn [_maxy].
  rewrite drop_app_length' by done.
  rewrite take_app_length' by (by rewrite le_bytes_length).
  by apply int_of_le_bytes.
Qed.

Lemma window_image_maxx s :
  (- 2147483647 - 1 ≤ _maxx s ≤ 2147483647)%Z →
  _maxx (window_of_bytes (window_bytes s)) = _maxx s.
Proof.
  intros Hr. destruct (window_bytes_shape s) as (a & b & -> & Ha).
  unfold window_of_bytes, slice. cbn [_maxx].
  rewrite app_assoc. rewrite drop_app_length'
    by (rewrite length_app, le_bytes_length, Ha; reflexivity).
  rewrite take_app_length' by (by rewrite le_bytes_length).
  by apply int_of_le_bytes.
Qed.

#[export] Instance abi : ABI := {|
  sizeof_WINDOW := 80;
  sizeof_chtype := 4;
  sizeof_ptr := 4;
  sizeof_int := 4;
  SIZE_MOD := 4294967296;
  INT_MAX := 2147483647;
  WINDOW_bytes := window_bytes;
  WINDOW_of_bytes := window_of_bytes;
  sizeof_WINDOW_pos := ltac:(lia);
  sizeof_chtype_pos := ltac:(lia);
  sizeof_ptr_pos := ltac:(lia);
  sizeof_int_pos := ltac:(lia);
  SIZE_MOD_pos := ltac:(lia);
  WINDOW_bytes_length := window_bytes_length;
  WINDOW_image_maxy := window_image_maxy;
  WINDOW_image_maxx := window_image_maxx
|}.

(** An environment in which nothing fails. *)
Definition plenty : Env := {|
  malloc_ok := λ _ _, true;
  fopen_ok := λ _, true;
  disk_room := λ _, 4096
|}.

(** A 2 x 3 window at address 1: lines at 5 and 6. *)
Definition cells (l : list Z) : list byte := l ≫= le_bytes 4.

Definition heap0 : gmap addr block :=
  list_to_map [
    (1%N, BWindow (mkWINDOW 2 3 2%N 3%N 4%N []));
    (2%N, BLines [5%N; 6%N]);
    (3%N, BInts [1; -1]%Z);
    (4%N, BInts [2; -1]%Z);
    (5%N, BCells (cells [65; 66; 67]%Z));
    (6%N, BCells (cells [97; 98; 355]%Z))].

Definition world0 : world := mkWorld heap0 0 ∅ 1%N [].

(** Environments that refuse: a device with room for 90 bytes, and an
    allocator that grants two requests. *)
Definition cramped : Env := {|
  malloc_ok := λ _ _, true;
  fopen_ok := λ _, true;
  disk_room := λ _, 90
|}.

Definition stingy : Env := {|
  malloc_ok := λ n _, bool_decide (n < 2);
  fopen_ok := λ _, true;
  disk_room := λ _, 4096
|}.

(** A window of one line and no column, and one of no line. *)
Definition heap_flat : gmap addr block :=
  list_to_map [
    (1%N, BWindow (mkWINDOW 1 0 2%N 3%N 4%N []));
    (2%N, BLines [5%N]);
    (3%N, BInts [0]%Z);
    (4%N, BInts [0]%Z);
    (5%N, BCells [])].

Definition heap_empty : gmap addr block :=
  list_to_map [
    (1%N, BWindow (mkWINDOW 0 3 0%N 0%N 0%N []))].

End Sample.

(** * The theorems at the sample platform *)

Module Examples.
Import Sample.

Definition s0 : WINDOW := mkWINDOW 2 3 2%N 3%N 4%N [].
Definition rows0 : list (list byte) :=
  [cells [65; 66; 67]%Z; cells [97; 98; 355]%Z].

(** A dump of a 1 x 2 window. *)
Definition dump1 : list byte :=
  marker ++ [version] ++ window_bytes (mkWINDOW 1 2 0%N 0%N 0%N []) ++
  cells [88; 89]%Z.

(** A dump that announces 2 x 3 cells and holds one line only. *)
Definition dump_short : list byte :=
  marker ++ [version] ++ window_bytes s0 ++ cells [1; 2; 3]%Z.

Definition world_disk : world :=
  mkWorld heap0 0 {[ "scr" := dump1; "short" := dump_short ]} 1%N [].

(** The sample heap holds the 2 x 3 window at address 1. *)
Lemma window0 : window_at heap0 1%N s0 [5%N; 6%N] rows0 [1; -1]%Z [2; -1]%Z.
Proof.
  split.
  - reflexivity.
  - by exists [].
  - reflexivity.
  - repeat constructor.
  - by exists [].
  - by exists [].
  - done.
Defined.

(** The sample environment grants every request. *)
Lemma plenty_granted n sizes : granted (env := plenty) n sizes.
Proof. intros j size _. reflexivity. Defined.

(** The sample window written to a stream that takes 90 bytes: the header
    and the struct go out, the first line comes back short. *)
Lemma putwin_write_contract_witness :
  putwin (abi := abi) 1%N (Some (FileW "scr" [] 90)) world0 =
    Some ((ERR, Some (FileW "scr" (marker ++ [version] ++ window_bytes s0 ++
                                    take 6 (cells [65; 66; 67]%Z)) 0)),
          logged_all [EvFwrite 3 1; EvFwrite 1 1; EvFwrite 80 1; EvFwrite 12 0]
                     world0).
Proof.
  refine (eq_trans
            (proj1 (putwin_write_contract (abi := abi) world0 1%N s0
                      [5%N; 6%N] rows0 "scr" [] 90 eq_refl eq_refl (le_n 2)
                      eq_refl)) _).
  vm_compute. reflexivity.
Defined.

(** A stream with the marker and version 2. *)
Lemma getwin_header_reject_witness :
  ∃ win,
    getwin (abi := abi) (env := plenty)
      (Some (FileR ["P"; "D"; "C"; "002"; "*"]%byte)) world0 =
    Some ((NULL, Some (FileR ["*"%byte])),
          logged_all [EvMalloc sizeof_WINDOW win; EvFread 4 1; EvFree win]
                     (counted world0)).
Proof.
  destruct (proj1 (getwin_header_reject (abi := abi) (env := plenty) world0
                     "P" "D" "C" "002" ["*"%byte] eq_refl))
    as (win & _ & _ & H).
  - discriminate.
  - exists win. exact H.
Defined.

(** A dump that announces a height of -1 and holds no line. *)
Lemma getwin_nonpositive_height_witness :
  ∃ win w',
    getwin (abi := abi) (env := plenty)
      (Some (FileR (marker ++ [version] ++
                    window_bytes (mkWINDOW (-1) 3 0%N 0%N 0%N []) ++ [])))
      world0 = Some ((win, Some (FileR [])), w') ∧
    win ≠ NULL.
Proof.
  destruct (getwin_nonpositive_height (abi := abi) (env := plenty) world0
              (window_bytes (mkWINDOW (-1) 3 0%N 0%N 0%N [])) [])
    as (win & y & fc & lc & w' & H & Hwin & _).
  - reflexivity.
  - by vm_compute.
  - apply plenty_granted.
  - exists win, w'. exact (conj H Hwin).
Defined.

(** The sample window written out and read back. *)
Lemma putwin_getwin_roundtrip_witness :
  ∃ dump w1 q s' ptrs' w3,
    putwin (abi := abi) 1%N (Some (FileW "scr" [] 200)) world0 =
      Some ((OK, Some (FileW "scr" dump (200 - length dump))), w1) ∧
    getwin (abi := abi) (env := plenty) (Some (FileR dump)) w1 =
      Some ((q, Some (FileR [])), w3) ∧
    q ≠ NULL ∧ _maxy s' = 2%Z ∧ _maxx s' = 3%Z ∧
    window_at (heap w3) q s' ptrs' rows0 [0; 0]%Z [2; 2]%Z.
Proof.
  destruct (putwin_getwin_roundtrip (abi := abi) (env := plenty) world0 1%N s0
              [5%N; 6%N] rows0 [1; -1]%Z [2; -1]%Z "scr" 200 window0)
    as (dump & w1 & Hput & _ & Hget).
  - by vm_compute.
  - by vm_compute.
  - apply (bool_decide_unpack _). by vm_compute.
  - by repeat constructor.
  - by vm_compute.
  - by vm_compute.
  - by vm_compute.
  - vm_compute. lia.
  - destruct (Hget w1 (plenty_granted _ _))
      as (q & s' & ptrs' & w3 & Hg & Hq & Hy & Hx & Hw).
    exists dump, w1, q, s', ptrs', w3.
    exact (conj Hput (conj Hg (conj Hq (conj Hy (conj Hx Hw))))).
Defined.

(** Restoring from the truncated dump fails after the window was built. *)
Lemma short_dump_fails :
  ∃ w', scr_restore (abi := abi) (env := plenty) (Some "short") world_disk =
          Some (ERR, w').
Proof. eexists. vm_compute. reflexivity. Defined.

(** The failed restore leaves the sample screen as it was. *)
Lemma scr_restore_failure_atomic_witness :
  ∃ w',
    scr_restore (abi := abi) (env := plenty) (Some "short") world_disk =
      Some (ERR, w') ∧
    curscr w' = 1%N ∧
    window_at (heap w') 1%N s0 [5%N; 6%N] rows0 [1; -1]%Z [2; -1]%Z.
Proof.
  destruct short_dump_fails as [w' H]. exists w'.
  destruct (scr_restore_failure_atomic (abi := abi) (env := plenty)
              (Some "short") world_disk w' H) as (Hc & _ & Hw).
  split; [done|]. split; [done|].
  specialize (Hw _ _ _ _ _ window0). rewrite Hc in Hw. exact Hw.
Defined.

(** Restoring the 1 x 2 dump onto the 2 x 3 sample screen, twice. *)
Lemma scr_restore_idempotent_witness :
  ∃ w1 w2,
    scr_restore (abi := abi) (env := plenty) (Some "scr") world_disk =
      Some (OK, w1) ∧
    scr_restore (abi := abi) (env := plenty) (Some "scr") w1 = Some (OK, w2) ∧
    window_at (heap w1) 1%N s0 [5%N; 6%N]
      [cells [88; 89; 67]%Z; cells [97; 98; 355]%Z] [1; -1]%Z [2; -1]%Z ∧
    window_at (heap w2) 1%N s0 [5%N; 6%N]
      [cells [88; 89; 67]%Z; cells [97; 98; 355]%Z] [1; -1]%Z [2; -1]%Z.
Proof.
  destruct (scr_restore_idempotent (abi := abi) (env := plenty) world_disk
              "scr" dump1 s0 [5%N; 6%N] rows0 [1; -1]%Z [2; -1]%Z)
    as (w1 & w2 & H1 & H2 & _ & _ & Hw1 & Hw2).
  - split; [done|]. split; [apply window0|].
    split; [|by repeat constructor].
    apply (bool_decide_unpack _). by vm_compute.
  - reflexivity.
  - reflexivity.
  - repeat split; first [by vm_compute | vm_compute; lia].
  - reflexivity.
  - assert (E : restored (abi := abi) dump1 s0 rows0 =
                [cells [88; 89; 67]%Z; cells [97; 98; 355]%Z])
      by (vm_compute; reflexivity).
    rewrite E in Hw1, Hw2. exists w1, w2.
    exact (conj H1 (conj H2 (conj Hw1 Hw2))).
Defined.

(** Claim C6 (putwin failure guard).  [putwin] tests its stream and not
    its window.  On the sample platform a null window with a writable
    stream that takes the marker and the version makes [putwin] read the
    struct through the null pointer, which is a fault and not [ERR]; with
    a null stream it returns [ERR], and with a stream that is full it
    returns [ERR] at the first write, before reading the window. *)
Theorem putwin_null_window_faults :
  putwin (abi := abi) NULL (Some (FileW "scr" [] 4096)) world0 = None ∧
  putwin (abi := abi) NULL None world0 = Some ((ERR, None), world0) ∧
  putwin (abi := abi) NULL (Some (FileW "scr" [] 0)) world0 =
    Some ((ERR, Some (FileW "scr" [] 0)), logged (EvFwrite 3 0) world0).
Proof. repeat split; by vm_compute. Qed.

End Examples.

(** ** Further runs on the sample platform *)

Module MoreExamples.
Import Sample Examples.

Definition dump0 : list byte := dump_of (abi := abi) s0 rows0.

Lemma dumpable0 : dumpable (abi := abi) s0 [5%N; 6%N] rows0.
Proof.
  split; [by vm_compute|]. split; [by vm_compute|].
  split; [apply (bool_decide_unpack _); by vm_compute|].
  split; [by repeat constructor|].
  split; [by vm_compute|]. split; by vm_compute.
Defined.




Lemma putwin_zero_width_witness :
  putwin (abi := abi) 1%N (Some (FileW "scr" [] 4096))
         (mkWorld heap_flat 0 ∅ 1%N []) =
    Some ((ERR,
           Some (FileW "scr" (marker ++ [version] ++
                              window_bytes (mkWINDOW 1 0 2%N 3%N 4%N [])) 4012)),
          logged_all [EvFwrite 3 1; EvFwrite 1 1; EvFwrite 80 1; EvFwrite 0 0]
                     (mkWorld heap_flat 0 ∅ 1%N [])).
Proof.
  refine (putwin_zero_width (abi := abi) (mkWorld heap_flat 0 ∅ 1%N []) 1%N
            (mkWINDOW 1 0 2%N 3%N 4%N []) 5%N [] [] "scr" [] 4096
            eq_refl eq_refl _ eq_refl _ eq_refl _).
  - by vm_compute.
  - discriminate.
  - vm_compute. lia.
Defined.

Lemma putwin_no_lines_witness :
  putwin (abi := abi) 1%N (Some (FileW "scr" [] 4096))
         (mkWorld heap_empty 0 ∅ 1%N []) =
    Some ((OK,
           Some (FileW "scr" (marker ++ [version] ++
                              window_bytes (mkWINDOW 0 3 0%N 0%N 0%N [])) 4012)),
          logged_all [EvFwrite 3 1; EvFwrite 1 1; EvFwrite 80 1]
                     (mkWorld heap_empty 0 ∅ 1%N [])).
Proof.
  refine (putwin_no_lines (abi := abi) (mkWorld heap_empty 0 ∅ 1%N []) 1%N
            (mkWINDOW 0 3 0%N 0%N 0%N []) "scr" [] 4096 eq_refl _ _).
  - by vm_compute.
  - vm_compute. lia.
Defined.

Lemma scr_dump_writes_file_witness :
  ∃ w', scr_dump (abi := abi) (env := plenty) (Some "scr") world0 = Some (OK, w') ∧
        disk w' = <[ "scr" := dump0 ]> (disk world0).
Proof.
  destruct (scr_dump_writes_file (abi := abi) (env := plenty) world0 "scr" s0
              [5%N; 6%N] rows0 eq_refl eq_refl eq_refl (le_n 2) eq_refl)
    as (w' & evs & H & Hd & _).
  - vm_compute. lia.
  - vm_compute. lia.
  - exists w'. exact (conj H Hd).
Defined.


Lemma scr_dump_sample_run :
  ∃ r w', scr_dump (abi := abi) (env := cramped) (Some "scr") world0 = Some (r, w').
Proof. eexists _, _. vm_compute. reflexivity. Defined.

Lemma scr_dump_frame_witness :
  ∃ r w',
    scr_dump (abi := abi) (env := cramped) (Some "scr") world0 = Some (r, w') ∧
    heap w' = heap world0 ∧ curscr w' = curscr world0.
Proof.
  destruct scr_dump_sample_run as (r & w' & H). exists r, w'.
  destruct (scr_dump_frame (abi := abi) (env := cramped) _ _ _ _ H) as (Hh & Hc & _).
  exact (conj H (conj Hh Hc)).
Defined.

Lemma scr_dump_without_screen_witness :
  scr_dump (abi := abi) (env := plenty) (Some "scr") (mkWorld heap0 0 ∅ NULL []) = None.
Proof.
  refine (scr_dump_without_screen (abi := abi) (env := plenty)
            (mkWorld heap0 0 ∅ NULL []) "scr" eq_refl _ eq_refl).
  vm_compute. lia.
Defined.

Lemma getwin_early_failure_witness :
  ∃ f' w',
    getwin (abi := abi) (env := stingy) (Some (FileR dump0)) world0 =
      Some ((NULL, f'), w') ∧
    heap w' = heap world0.
Proof.
  destruct (getwin_early_failure (abi := abi) (env := stingy) world0
              (Some (FileR dump0))) as (f' & w' & H & Hh & _).
  - intros unread [= <-] (_ & _ & Hg).
    specialize (Hg 2 _ eq_refl). vm_compute in Hg. discriminate.
  - exists f', w'. exact (conj H Hh).
Defined.

Lemma getwin_sample_run :
  ∃ q f' w',
    getwin (abi := abi) (env := plenty) (Some (FileR (dump0 ++ dump0))) world0 =
      Some ((q, f'), w') ∧ q ≠ NULL.
Proof. eexists _, _, _. split; [vm_compute; reflexivity|discriminate]. Defined.

Lemma getwin_frame_witness :
  ∃ q f' w',
    getwin (abi := abi) (env := plenty) (Some (FileR (dump0 ++ dump0))) world0 =
      Some ((q, f'), w') ∧
    heap world0 ⊆ heap w'.
Proof.
  destruct getwin_sample_run as (q & f' & w' & H & _). exists q, f', w'.
  destruct (getwin_frame (abi := abi) (env := plenty) _ _ _ _ _ H) as (Hh & _).
  exact (conj H Hh).
Defined.

Lemma getwin_fresh_pointers_witness :
  ∃ q f' w' y fc lc ptrs,
    getwin (abi := abi) (env := plenty) (Some (FileR (dump0 ++ dump0))) world0 =
      Some ((q, f'), w') ∧
    NoDup (q :: y :: fc :: lc :: ptrs) ∧
    Forall (λ a, a ≠ NULL ∧ heap world0 !! a = None) (q :: y :: fc :: lc :: ptrs).
Proof.
  destruct getwin_sample_run as (q & f' & w' & H & Hq).
  destruct (getwin_fresh_pointers (abi := abi) (env := plenty) _ _ _ _ _ H Hq)
    as (y & fc & lc & ptrs & tail & _ & _ & _ & _ & _ & _ & Hnd & Hfr).
  exists q, f', w', y, fc, lc, ptrs. exact (conj H (conj Hnd Hfr)).
Defined.

Lemma getwin_consumes_witness :
  ∃ q w',
    getwin (abi := abi) (env := plenty) (Some (FileR (dump0 ++ dump0))) world0 =
      Some ((q, Some (FileR dump0)), w').
Proof.
  destruct getwin_sample_run as (q & f' & w' & H & Hq).
  destruct (getwin_consumes (abi := abi) (env := plenty) _ _ _ _ _ H Hq) as (_ & Hf).
  exists q, w'. refine (eq_trans H _). rewrite Hf. vm_compute. reflexivity.
Defined.

Lemma getwin_calls_witness :
  ∃ q f' w',
    getwin (abi := abi) (env := plenty) (Some (FileR (dump0 ++ dump0))) world0 =
      Some ((q, f'), w') ∧
    nmalloc w' = 6.
Proof.
  destruct getwin_sample_run as (q & f' & w' & H & Hq).
  destruct (getwin_calls (abi := abi) (env := plenty) _ _ _ _ _ H Hq)
    as (y & fc & lc & ptrs & _ & Hcnt & _).
  exists q, f', w'. split; [exact H|]. rewrite Hcnt. vm_compute. reflexivity.
Defined.

Lemma getwin_rejects_truncated_witness :
  ∃ f' w',
    getwin (abi := abi) (env := plenty) (Some (FileR (take 100 dump0))) world0 =
      Some ((NULL, f'), w').
Proof.
  destruct (getwin_rejects_truncated (abi := abi) (env := plenty) world0
              (window_bytes s0) (concat rows0) 100) as [Htot Hnull].
  - reflexivity.
  - vm_compute. reflexivity.
  - vm_compute. lia.
  - destruct Htot as ([q f'] & w' & H).
    + split; vm_compute; lia.
    + exists f', w'. rewrite <- (Hnull q f' w' H). exact H.
Defined.

Lemma scr_restore_sample_run :
  ∃ r w', scr_restore (abi := abi) (env := plenty) (Some "scr") world_disk = Some (r, w').
Proof. eexists _, _. vm_compute. reflexivity. Defined.

Lemma scr_restore_keeps_files_witness :
  ∃ r w',
    scr_restore (abi := abi) (env := plenty) (Some "scr") world_disk = Some (r, w') ∧
    disk w' = disk world_disk ∧ curscr w' = curscr world_disk.
Proof.
  destruct scr_restore_sample_run as (r & w' & H). exists r, w'.
  exact (conj H (scr_restore_keeps_files (abi := abi) (env := plenty) _ _ _ _ H)).
Defined.

Lemma scr_restore_no_file_witness :
  scr_restore (abi := abi) (env := plenty) (Some "none") world_disk =
    Some (ERR, logged (EvFopen "none" false false) world_disk).
Proof.
  exact (scr_restore_no_file (abi := abi) (env := plenty) world_disk "none"
           (or_intror eq_refl)).
Defined.

Lemma getwin_short_run :
  ∃ f' w',
    getwin (abi := abi) (env := plenty) (Some (FileR dump_short)) world0 =
      Some ((NULL, f'), w').
Proof. eexists _, _. vm_compute. reflexivity. Defined.

Lemma getwin_releases_everything_witness :
  ∃ f' w',
    getwin (abi := abi) (env := plenty) (Some (FileR dump_short)) world0 =
      Some ((NULL, f'), w') ∧
    heap w' = heap world0.
Proof.
  destruct getwin_short_run as (f' & w' & H). exists f', w'.
  exact (conj H (getwin_releases_everything (abi := abi) (env := plenty) _ _ _ _ H)).
Defined.

Lemma two_dumps_one_stream_witness :
  ∃ fa w0 w1,
    putwin (abi := abi) 1%N (Some (FileW "scr" [] 4096)) world0 =
      Some ((OK, Some fa), w0) ∧
    putwin (abi := abi) 1%N (Some fa) w0 =
      Some ((OK, Some (FileW "scr" (dump0 ++ dump0) (4096 - length dump0 - length dump0))), w1) ∧
    ∃ qa qb fr w3 w4,
      getwin (abi := abi) (env := plenty) (Some (FileR (dump0 ++ dump0))) w1 =
        Some ((qa, Some fr), w3) ∧
      getwin (abi := abi) (env := plenty) (Some fr) w3 =
        Some ((qb, Some (FileR [])), w4) ∧
      qa ≠ qb.
Proof.
  destruct (two_dumps_one_stream (abi := abi) (env := plenty) world0
              1%N s0 [5%N; 6%N] rows0 [1; -1]%Z [2; -1]%Z
              1%N s0 [5%N; 6%N] rows0 [1; -1]%Z [2; -1]%Z "scr" 4096
              window0 window0 dumpable0 dumpable0)
    as (fa & w0 & w1 & Ha & Hb & Hget).
  - vm_compute. lia.
  - reflexivity.
  - destruct (Hget w1)
      as (qa & qb & fr & w3 & w4 & sa' & sb' & pa' & pb' & Hga & Hgb & _ & _ & Hne & _).
    exists fa, w0, w1. split; [exact Ha|]. split; [exact Hb|].
    exists qa, qb, fr, w3, w4. exact (conj Hga (conj Hgb Hne)).
Defined.

Lemma scr_dump_is_readable_witness :
  ∃ w1,
    scr_dump (abi := abi) (env := plenty) (Some "scr") world0 = Some (OK, w1) ∧
    ∃ q w3,
      getwin (abi := abi) (env := plenty) (Some (FileR dump0)) w1 =
        Some ((q, Some (FileR [])), w3) ∧
      q ≠ NULL.
Proof.
  destruct (scr_dump_is_readable (abi := abi) (env := plenty) world0 "scr" s0
              [5%N; 6%N] rows0 [1; -1]%Z [2; -1]%Z window0 dumpable0 eq_refl)
    as (w1 & Hd & _ & Hget).
  - vm_compute. lia.
  - destruct (Hget w1 (plenty_granted _ _)) as (q & s' & ptrs' & w3 & Hg & Hq & _).
    exists w1. split; [exact Hd|]. exists q, w3. exact (conj Hg Hq).
Defined.

Lemma getwin_zero_width_witness :
  ∃ f' w',
    getwin (abi := abi) (env := plenty)
      (Some (FileR (marker ++ [version] ++
                    window_bytes (mkWINDOW 1 0 0%N 0%N 0%N []) ++ [])))
      world0 = Some ((NULL, f'), w') ∧
    heap w' = heap world0.
Proof.
  destruct (getwin_zero_width (abi := abi) (env := plenty) world0
              (window_bytes (mkWINDOW 1 0 0%N 0%N 0%N [])) [])
    as [Htot Hnull].
  - reflexivity.
  - vm_compute. reflexivity.
  - by vm_compute.
  - destruct Htot as ([q f'] & w' & H).
    + split; vm_compute; lia.
    + destruct (Hnull q f' w' H) as [Hq Hh]. exists f', w'.
      split; [|exact Hh]. rewrite <- Hq. exact H.
Defined.

End MoreExamples.
